(** * hw5_base: the experiment harness of the HW5 code base

    A shallow embedding of [hw5_base.py]: the hyperparameter sweep
    ([exp_type_to_hyperparameters], [augment_args], [check_completeness]),
    the argument checks ([check_args]), the output naming
    ([generate_fname]), the experiment driver ([create_classifier_network],
    [execute_exp]) and the main program.

    The harness passes one [argparse.Namespace] object around by reference
    and mutates it with [setattr]; it prints, reads the file system and calls
    the deep-learning and experiment-tracking libraries.  The embedding
    therefore threads a world (the Namespace object, the set of existing
    paths, the trace of prints and library calls) through an exception
    monad.  A library call is recorded in the trace and returns; what can go
    wrong inside the libraries is outside the model. *)

From Stdlib Require Import ZArith QArith List String Ascii Lia.
From stdpp Require Import base gmap strings list pretty.

Local Open Scope string_scope.
Local Open Scope Z_scope.
Local Open Scope list_scope.

(** ** Python values *)

Module Py.

(** A Python [float] is an IEEE-754 double: NaN, an infinity, or a finite
    value, which is a rational number.  The harness only ever orders floats
    against numeric literals, and Python orders finite floats and integers
    by their exact values, so a finite float is represented by its value.
    [negative] tells the two infinities apart. *)
Inductive pyfloat : Type :=
| FNan
| FInf (negative : bool)
| FFin (q : Q).

(** The values an attribute of the parsed arguments can hold. *)
Inductive value : Type :=
| VNone
| VBool (b : bool)
| VInt (z : Z)
| VFloat (f : pyfloat)
| VStr (s : string).

(** [x < y] on floats: false as soon as one side is NaN. *)
Definition float_ltb (x y : pyfloat) : bool :=
  match x, y with
  | FNan, _ | _, FNan => false
  | FInf s1, FInf s2 => s1 && negb s2
  | FInf s, FFin _ => s
  | FFin _, FInf s => negb s
  | FFin p, FFin q => match Qcompare p q with Lt => true | _ => false end
  end.

(** [x <= y] on floats. *)
Definition float_leb (x y : pyfloat) : bool :=
  match x, y with
  | FNan, _ | _, FNan => false
  | FInf s1, FInf s2 => s1 || negb s2
  | FInf s, FFin _ => s
  | FFin _, FInf s => negb s
  | FFin p, FFin q => match Qcompare p q with Gt => false | _ => true end
  end.

(** The numeric reading of a value in an ordering comparison: [bool] is a
    subclass of [int], integers compare by their exact value; [None] and
    strings do not order against a number ([TypeError]). *)
Definition as_number (v : value) : option pyfloat :=
  match v with
  | VBool b => Some (FFin (inject_Z (if b then 1 else 0)))
  | VInt z => Some (FFin (inject_Z z))
  | VFloat f => Some f
  | VNone | VStr _ => None
  end.

(** An integer literal of the source, as a number. *)
Definition lit (z : Z) : pyfloat := FFin (inject_Z z).

(** [v == s] for a string literal [s]. *)
Definition eq_str (v : value) (s : string) : bool :=
  match v with
  | VStr t => bool_decide (t = s)
  | _ => false
  end.

(** [v is None]. *)
Definition is_none (v : value) : bool :=
  match v with VNone => true | _ => false end.

(** Truth value of [v] in [if v], [not v]. *)
Definition truthy (v : value) : bool :=
  match v with
  | VNone => false
  | VBool b => b
  | VInt z => negb (z =? 0)
  | VFloat FNan => true
  | VFloat (FInf _) => true
  | VFloat (FFin q) => negb (Qeq_bool q 0)
  | VStr s => negb (bool_decide (s = ""))
  end.

End Py.
Export Py.

(** ** Exceptions, trace and world *)

Inductive exn : Type :=
| AssertionError (msg : string)
| AttributeError (attr : string)
| TypeError
| ValueError
| OverflowError
| IndexError.

(** What the harness prints and which library calls it makes, in order. *)
Inductive event : Type :=
| Print (line : string)
| PrintParams (c : list (string * value))
| PrintArgs (ns : gmap string value)
| ModelSummary
| LoadRotation (basedir rotation : value)
| CreateTfDatasets (batch prefetch shuffle repeat cache : value)
| MirroredStrategy
| CreateSimpleRnn (params : list value)
| PlotModel (to_file : string)
| WandbInit (project : value) (name notes : string) (config : gmap string value)
| WandbLog (key : string)
| EarlyStopping (patience min_delta monitor : value)
| WandbMetricsLogger
| Fit (epochs steps_per_epoch : value) (verbose : bool)
| Evaluate
| PickleDump (fname : string)
| SaveModel (fname : string)
| WandbFinish.

(** The world: the Namespace object [args] (attribute name to value), the
    paths that exist on disk, and the trace so far (oldest event first). *)
Record world : Type := World {
  w_args : gmap string value;
  w_fs : gset string;
  w_trace : list event
}.

Inductive outcome (A : Type) : Type :=
| Return (a : A)
| Raise (e : exn).
Arguments Return {A} a.
Arguments Raise {A} e.

Definition M (A : Type) : Type := world -> world * outcome A.

(** The monad carries stdpp's [mret]/[mbind] notations:
    [x ← c; k] runs [c], stops at an exception, and otherwise goes on with
    [k]; [c;; k] drops the result of [c]. *)
Global Instance M_ret : MRet M := fun A a w => (w, Return a).

Global Instance M_bind : MBind M := fun A B k c w =>
  match c w with
  | (w', Return a) => k a w'
  | (w', Raise e) => (w', Raise e)
  end.

Definition raise {A} (e : exn) : M A := fun w => (w, Raise e).

(** [args.name]: an absent attribute raises [AttributeError]. *)
Definition getattr (name : string) : M value :=
  fun w => match w_args w !! name with
           | Some v => (w, Return v)
           | None => (w, Raise (AttributeError name))
           end.

(** [setattr(args, name, v)]. *)
Definition setattr (name : string) (v : value) : M unit :=
  fun w => (World (<[name := v]> (w_args w)) (w_fs w) (w_trace w), Return tt).

(** One more event at the end of the trace. *)
Definition emit (e : event) : M unit :=
  fun w => (World (w_args w) (w_fs w) (w_trace w ++ [e]), Return tt).

(** [os.path.exists(path)]. *)
Definition path_exists (path : string) : M bool :=
  fun w => (w, Return (bool_decide (path ∈ w_fs w))).

(** A library call that creates (or overwrites) the file [path]. *)
Definition write_file (path : string) : M unit :=
  fun w => (World (w_args w) ({[path]} ∪ w_fs w) (w_trace w), Return tt).

(** [vars(args)], also what [print(args)] shows: the attributes of the
    Namespace at this point. *)
Definition vars : M (gmap string value) :=
  fun w => (w, Return (w_args w)).

(** [assert cond, msg]. *)
Definition assert (cond : bool) (msg : string) : M unit :=
  if cond then mret tt else raise (AssertionError msg).

(** [v < c], [v > c], [v >= c] for a numeric literal [c]. *)
Definition py_lt (v : value) (c : pyfloat) : M bool :=
  match as_number v with
  | Some x => mret (float_ltb x c)
  | None => raise TypeError
  end.

Definition py_gt (v : value) (c : pyfloat) : M bool :=
  match as_number v with
  | Some x => mret (float_ltb c x)
  | None => raise TypeError
  end.

Definition py_ge (v : value) (c : pyfloat) : M bool :=
  match as_number v with
  | Some x => mret (float_leb c x)
  | None => raise TypeError
  end.

(** [range(lo, hi)]. *)
Definition py_range (lo hi : Z) : list Z :=
  map (fun k => lo + Z.of_nat k) (seq 0 (Z.to_nat (hi - lo))).

(** A hyperparameter set: a dict from parameter names to ranges, in
    insertion order. *)
Definition hyperparameters : Type := list (string * list value).


(** ** The job iterator *)

Module JobIterator.

(** Modelled from the spec: the class [JobIterator] of the module
    [job_control], which the harness imports and which is not among the
    sources.  The spec calls a hyperparameter sweep the "enumeration of all
    combinations of a set of named parameter ranges" and a job index an
    "integer identifying one point in a Cartesian product of
    hyperparameters".  A combination gives one value to each named
    parameter. *)
Definition combination : Type := list (string * value).

(** Modelled from the spec: all combinations of the named ranges of [p], the
    Cartesian product (the enumeration that [JobIterator] builds). *)
Fixpoint cartesian (p : hyperparameters) : list combination :=
  match p with
  | [] => [[]]
  | (name, range) :: rest =>
      v ← range; c ← cartesian rest; [(name, v) :: c]
  end.

(** Modelled from the spec: a [JobIterator] object, which holds the
    hyperparameter set and the enumeration of its combinations. *)
Record t : Type := Make {
  params : hyperparameters;
  product : list combination
}.

(** Modelled from the spec: the constructor [JobIterator(p)]. *)
Definition new (p : hyperparameters) : t :=
  {| params := p; product := cartesian p |}.

(** Modelled from the spec: [ji.get_njobs()], the number of combinations. *)
Definition get_njobs (ji : t) : Z := Z.of_nat (length (product ji)).

(** Modelled from the spec: [ji.get_index(i)], the combination that the job
    index [i] identifies; the spec gives a meaning to the indices
    [0 .. njobs-1] only. *)
Definition get_index (ji : t) (i : Z) : option combination :=
  if bool_decide (0 <= i) then product ji !! Z.to_nat i else None.

End JobIterator.

(** ["%3d" % z]: the decimal numeral, padded with spaces on the left to three
    characters. *)
Definition fmt_3d (z : Z) : string :=
  let s := pretty z in
  String.concat "" (replicate (3 - String.length s) " ") +:+ s.

Definition tab : string := String (ascii_of_nat 9) "".

Definition newline : string := String (ascii_of_nat 10) "".

(** ** The machine of the main program

    The main program also configures the deep-learning runtime: which GPUs
    are visible, on which of them memory growth is switched on, and the sizes
    of the two thread pools.  A GPU is known by its device name. *)

Record tf_config : Type := TfConfig {
  visible_gpus : list string;
  memory_growth : list string;
  intra_op_threads : option value;
  inter_op_threads : option value
}.

Record machine : Type := Machine {
  m_world : world;
  m_tf : tf_config
}.

Definition MM (A : Type) : Type := machine -> machine * outcome A.

Global Instance MM_ret : MRet MM := fun A a m => (m, Return a).

Global Instance MM_bind : MBind MM := fun A B k c m =>
  match c m with
  | (m', Return a) => k a m'
  | (m', Raise e) => (m', Raise e)
  end.

(** A computation of the harness, run on the machine: the runtime
    configuration is not touched. *)
Definition lift {A} (c : M A) : MM A :=
  fun m => match c (m_world m) with
           | (w', o) => (Machine w' (m_tf m), o)
           end.

(** [tf.config.set_visible_devices(devices, 'GPU')]. *)
Definition set_visible_devices (devices : list string) : MM unit :=
  fun m => (Machine (m_world m)
                    (TfConfig devices (memory_growth (m_tf m))
                              (intra_op_threads (m_tf m)) (inter_op_threads (m_tf m))),
            Return tt).

(** [tf.config.get_visible_devices('GPU')]. *)
Definition get_visible_devices : MM (list string) :=
  fun m => (m, Return (visible_gpus (m_tf m))).

(** [tf.config.experimental.set_memory_growth(device, True)]. *)
Definition set_memory_growth (device : string) : MM unit :=
  fun m => (Machine (m_world m)
                    (TfConfig (visible_gpus (m_tf m)) (memory_growth (m_tf m) ++ [device])
                              (intra_op_threads (m_tf m)) (inter_op_threads (m_tf m))),
            Return tt).

(** [tf.config.threading.set_intra_op_parallelism_threads(n)]. *)
Definition set_intra_op_parallelism_threads (n : value) : MM unit :=
  fun m => (Machine (m_world m)
                    (TfConfig (visible_gpus (m_tf m)) (memory_growth (m_tf m))
                              (Some n) (inter_op_threads (m_tf m))),
            Return tt).

(** [tf.config.threading.set_inter_op_parallelism_threads(n)]. *)
Definition set_inter_op_parallelism_threads (n : value) : MM unit :=
  fun m => (Machine (m_world m)
                    (TfConfig (visible_gpus (m_tf m)) (memory_growth (m_tf m))
                              (intra_op_threads (m_tf m)) (Some n)),
            Return tt).

(** What [print] shows for the list of visible GPUs. *)
Definition devices_repr (devices : list string) : string :=
  "[" +:+ String.concat ", "
            ((fun name => "PhysicalDevice(name='" +:+ name +:+ "', device_type='GPU')")
               <$> devices) +:+ "]".

(** ** Sample inputs

    The statements below hold for every float printer, float product and
    parameter-string format.  The sample runs at the end fix simple ones. *)

Definition sample_repr (f : pyfloat) : string :=
  match f with
  | FNan => "nan"
  | FInf true => "-inf"
  | FInf false => "inf"
  | FFin q => pretty (Qnum q) +:+ "/" +:+ pretty (Zpos (Qden q))
  end.

Definition sample_mul (f : pyfloat) (n : Z) : pyfloat :=
  match f with
  | FFin q => FFin (q * inject_Z n)
  | _ => f
  end.

Definition sample_param_str (c : JobIterator.combination) : string :=
  String.concat "_"
    ((fun kv : string * value =>
        kv.1 +:+ "_" +:+ match kv.2 with
                         | VInt z => pretty z
                         | VStr s => s
                         | _ => ""
                         end) <$> c).

(** A Namespace of a batch-array run: job index 3 of an ['rnn'] sweep. *)
Definition sample_args : gmap string value :=
  list_to_map
    [("exp_type", VStr "rnn"); ("exp_index", VInt 3); ("results_path", VStr "results");
     ("lrate", VFloat (FFin (1 # 1000))); ("spatial_dropout", VNone);
     ("L1_regularization", VNone); ("L2_regularization", VFloat (FFin (1 # 100)));
     ("cpus_per_task", VInt 8); ("verbose", VInt 0); ("batch", VInt 64);
     ("rotation", VInt 0); ("dataset", VStr "pfam"); ("prefetch", VInt 2);
     ("shuffle", VInt 100); ("repeat", VBool false); ("cache", VStr "");
     ("rnn_layers", VInt 1); ("dense_layers", VInt 1); ("rnn_activation", VStr "tanh");
     ("dense_activation", VStr "elu"); ("return_sequences", VBool false);
     ("unroll", VBool false); ("dropout", VNone); ("batch_normalization", VBool false);
     ("grad_clip", VNone); ("render", VBool true); ("nogo", VBool false);
     ("force", VBool false)].

Definition sample_world : world := World sample_args ∅ [].

(** The same run when its results file is already on disk. *)
Definition completed_world : world :=
  World sample_args {["results/rnn_results.pkl"]} [].

(** A run outside a batch array: no job index. *)
Definition no_index_world : world :=
  World (<["exp_index" := VNone]> sample_args) ∅ [].

(** A run without job index whose experiment type is none of the harness:
    once with the attribute that the harness reads as [expt_type], once
    without. *)
Definition lstm_world : world :=
  World (<["expt_type" := VStr "lstm"]> (<["exp_type" := VStr "lstm"]> (w_args no_index_world)))
        ∅ [].

Definition lstm_world' : world :=
  World (<["exp_type" := VStr "lstm"]> (w_args no_index_world)) ∅ [].

(** The sample run on a single CPU. *)
Definition one_cpu_world : world :=
  World (<["cpus_per_task" := VInt 1]> sample_args) ∅ [].

(** The same Namespace with [exp_type] ['cnn']. *)
Definition cnn_world : world :=
  World (<["exp_type" := VStr "cnn"]> sample_args) ∅ [].

(** The sample Namespace with the attributes of a whole run, in check mode
    or not. *)
Definition training_args (check : bool) : gmap string value :=
  list_to_map
    [("project", VStr "hw5"); ("label", VStr "rnn"); ("fold", VInt 0);
     ("patience", VInt 20); ("min_delta", VFloat (FFin (1 # 100)));
     ("monitor", VStr "val_loss"); ("epochs", VInt 10); ("steps_per_epoch", VNone);
     ("save_model", VBool true); ("gpu", VBool false); ("check", VBool check)]
  ∪ sample_args.

(** A first run of the sample experiment, on an empty disk. *)
Definition fresh_world : world := World (training_args false) ∅ [].

(** A machine with two GPUs on which no GPU was asked for. *)
Definition sample_machine (check : bool) : machine :=
  Machine (World (training_args check) ∅ [])
          (TfConfig ["/physical_device:GPU:0"; "/physical_device:GPU:1"] [] None None).

(** The sample run with both [nogo] and [force] set. *)
Definition nogo_world : world :=
  World (<["nogo" := VBool true]> (<["force" := VBool true]> sample_args)) ∅ [].

(** The machine of the sample run on a single CPU. *)
Definition one_cpu_machine : machine :=
  Machine one_cpu_world (TfConfig ["/physical_device:GPU:0"] [] None None).

(** A machine with two GPUs on which the GPUs were asked for. *)
Definition gpu_machine : machine :=
  Machine (World (<["gpu" := VBool true]> (training_args false)) ∅ [])
          (TfConfig ["/physical_device:GPU:0"; "/physical_device:GPU:1"] [] None None).

(** ** The harness *)

Section Harness.

(** What Python prints for a float ([str], ["%s"], an f-string field) is
    not modelled: the harness is verified for any such printer. *)
Variable float_repr : pyfloat -> string.

(** Likewise the rounded product of a float by an integer. *)
Variable float_mul_int : pyfloat -> Z -> pyfloat.

(** Modelled from the spec: [JobIterator.get_param_str] of the module
    [job_control], which is not among the sources: the string "generated by
    the JobIterator" that describes a combination.  Its format is not
    specified, so it is a parameter. *)
Variable get_param_str : JobIterator.combination -> string.

(** [create_parser().parse_args([])]: the Namespace holding the defaults
    of the parser of [hw5_parser], which is not among the sources. *)
Variable default_args : gmap string value.

(** Whether the testing dataset returned by [create_tf_datasets] (of
    [pfam_loader], not among the sources) is not [None]. *)
Variable ds_testing_present : bool.

(** [str(v)], also what ["%s" % v] and [f'{v}'] produce. *)
Definition py_str (v : value) : string :=
  match v with
  | VNone => "None"
  | VBool true => "True"
  | VBool false => "False"
  | VInt z => pretty z
  | VFloat f => float_repr f
  | VStr s => s
  end.

(** [none_or v c]: the Python expression [v is None or c]. *)
Definition none_or (v : value) (c : M bool) : M bool :=
  if is_none v then mret true else c.

(** [a and b] on comparison results. *)
Definition and_then (a : bool) (c : M bool) : M bool :=
  if a then c else mret false.

Definition exp_type_to_hyperparameters : M hyperparameters :=
  exp_type ← getattr "exp_type";
  recognized ←
    (if eq_str exp_type "rnn" then mret true
     else expt_type ← getattr "expt_type"; mret (eq_str expt_type "cnn"));
  if recognized : bool then
    mret [("rotation", VInt <$> py_range 0 5)]
  else
    exp_type ← getattr "exp_type";
    raise (AssertionError ("Unrecognized exp_type (" +:+ py_str exp_type +:+ ")")).

(** The condition [args.name > 0.0 and args.name < 1] of [check_args]. *)
Definition between_0_and_1 (name : string) : M bool :=
  v ← getattr name;
  positive ← py_gt v (lit 0);
  and_then positive (v ← getattr name; py_lt v (lit 1)).

Definition check_args : M unit :=
  v ← getattr "spatial_dropout";
  ok ← none_or v (between_0_and_1 "spatial_dropout");
  assert ok "Spatial dropout must be between 0 and 1";;
  ok ← between_0_and_1 "lrate";
  assert ok "Lrate must be between 0 and 1";;
  v ← getattr "L1_regularization";
  ok ← none_or v (between_0_and_1 "L1_regularization");
  assert ok "L1_regularization must be between 0 and 1";;
  v ← getattr "L2_regularization";
  ok ← none_or v (between_0_and_1 "L2_regularization");
  assert ok "L2_regularization must be between 0 and 1";;
  v ← getattr "cpus_per_task";
  ok ← none_or v (v ← getattr "cpus_per_task"; py_gt v (lit 1));
  assert ok "cpus_per_task must be positive or None".

(** A value used as a list index: an [int] (or [bool]); anything else is a
    [TypeError]. *)
Definition as_index (v : value) : M Z :=
  match v with
  | VInt z => mret z
  | VBool b => mret (if b then 1 else 0)
  | _ => raise TypeError
  end.

(** Modelled from the spec: [JobIterator.set_attributes_by_index] of the
    module [job_control], which is not among the sources: it pushes the
    attributes of the combination at the job index to the args object and
    returns the string that describes them. *)
Definition set_attributes_by_index (ji : JobIterator.t) (i : Z) : M string :=
  match JobIterator.get_index ji i with
  | Some c =>
      mapM (fun kv : string * value => setattr kv.1 kv.2) c;;
      mret (get_param_str c)
  | None => raise IndexError
  end.

Definition augment_args : M string :=
  p ← exp_type_to_hyperparameters;
  index ← getattr "exp_index";
  if is_none index then mret ""
  else
    let ji := JobIterator.new p in
    emit (Print ("Total jobs: " +:+ pretty (JobIterator.get_njobs ji)));;
    v ← getattr "exp_index";
    nonneg ← py_ge v (lit 0);
    ok ← and_then nonneg
            (v ← getattr "exp_index"; py_lt v (lit (JobIterator.get_njobs ji)));
    assert ok "exp_index out of range";;
    v ← getattr "exp_index";
    i ← as_index v;
    match JobIterator.get_index ji i with
    | Some c => emit (PrintParams c)
    | None => raise IndexError
    end;;
    v ← getattr "exp_index";
    i ← as_index v;
    set_attributes_by_index ji i.

Definition generate_fname (params_str : string) : M string :=
  results_path ← getattr "results_path";
  exp_type ← getattr "exp_type";
  mret (py_str results_path +:+ "/" +:+ py_str exp_type).

(** The body of the loop of [check_completeness] for job index [i]; it
    returns whether the run is reported missing. *)
Definition check_one (ji : JobIterator.t) (i : Z) : M bool :=
  params_str ← set_attributes_by_index ji i;
  fbase ← generate_fname params_str;
  let fname_out := fbase +:+ "_results.pkl" in
  present ← path_exists fname_out;
  if negb present then
    emit (Print (fmt_3d i +:+ tab +:+ fname_out));;
    mret true
  else mret false.

(** [for i in range(...)] of [check_completeness], with the list [indices]
    it appends to. *)
Fixpoint check_loop (ji : JobIterator.t) (range : list Z) (indices : list Z)
  : M (list Z) :=
  match range with
  | [] => mret indices
  | i :: rest =>
      missing ← check_one ji i;
      check_loop ji rest (if missing : bool then indices ++ [i] else indices)
  end.

Definition check_completeness : M unit :=
  p ← exp_type_to_hyperparameters;
  let ji := JobIterator.new p in
  emit (Print ("Total jobs: " +:+ pretty (JobIterator.get_njobs ji)));;
  emit (Print "MISSING RUNS:");;
  indices ← check_loop ji (py_range 0 (JobIterator.get_njobs ji)) [];
  emit (Print ("Missing indices (" +:+ pretty (Z.of_nat (length indices)) +:+ "): "
               +:+ String.concat "," (pretty <$> indices))).

(** [v * n] for the integer [n]: integer product, rounded float product,
    or string repetition. *)
Definition py_mul (v : value) (n : Z) : M value :=
  match v with
  | VInt z => mret (VInt (z * n))
  | VBool b => mret (VInt ((if b then 1 else 0) * n))
  | VFloat f => mret (VFloat (float_mul_int f n))
  | VStr s => mret (VStr (String.concat "" (replicate (Z.to_nat n) s)))
  | VNone => raise TypeError
  end.

(** ["%d" % v]: a number is truncated towards zero and printed in decimal. *)
Definition fmt_d (v : value) : M string :=
  match v with
  | VInt z => mret (pretty z)
  | VBool b => mret (if b then "1" else "0")
  | VFloat (FFin q) => mret (pretty (Z.quot (Qnum q) (Zpos (Qden q))))
  | VFloat FNan => raise ValueError
  | VFloat (FInf _) => raise OverflowError
  | VNone | VStr _ => raise TypeError
  end.

(** [if args.verbose >= level: print(line)]. *)
Definition print_if_verbose (level : Z) (line : string) : M unit :=
  v ← getattr "verbose";
  b ← py_ge v (lit level);
  if b : bool then emit (Print line) else mret tt.

(** The network is [Some tt] when one is built and [None] for Python's
    [None].  [create_simple_rnn] comes from [rnn_classifier], which is not
    among the sources: the call is recorded with the attributes read for
    it, in the order Python evaluates them. *)
Definition create_classifier_network : M (option unit) :=
  exp_type ← getattr "exp_type";
  if eq_str exp_type "rnn" then
    params ← mapM getattr
      ["rnn_layers"; "dense_layers"; "rnn_activation"; "dense_activation";
       "return_sequences"; "unroll"; "L2_regularization"; "dropout";
       "batch_normalization"; "grad_clip"; "lrate"];
    emit (CreateSimpleRnn params);;
    mret (Some tt)
  else
    exp_type ← getattr "exp_type";
    if eq_str exp_type "cnn" then mret None
    else
      exp_type ← getattr "exp_type";
      raise (AssertionError ("unrecognized experiment type " +:+ py_str exp_type)).

(** [model.method(...)]: [None] has no methods. *)
Definition method (model : option unit) (name : string) (call : M unit) : M unit :=
  match model with
  | Some _ => call
  | None => raise (AttributeError name)
  end.

(** [plot_model(model, to_file=fname, ...)] writes the picture of the
    network to [fname]; it starts by reading [model.built]. *)
Definition plot_model (model : option unit) (fname : string) : M unit :=
  method model "built" (emit (PlotModel fname);; write_file fname).

(** The part of [execute_exp] after the check for an existing results
    file: tracking, training, evaluation and the output files. *)
Definition train_and_save (model : option unit) (args_str fbase : string)
  : M (option unit) :=
  project ← getattr "project";
  label ← getattr "label";
  fold ← getattr "fold";
  fold_str ← fmt_d fold;
  config ← vars;
  emit (WandbInit project (py_str label +:+ "_F" +:+ fold_str) fbase config);;
  emit (WandbLog "hostname");;
  render ← getattr "render";
  (if truthy render then emit (WandbLog "model architecture") else mret tt);;
  patience ← getattr "patience";
  min_delta ← getattr "min_delta";
  monitor ← getattr "monitor";
  emit (EarlyStopping patience min_delta monitor);;
  emit WandbMetricsLogger;;
  print_if_verbose 3 "Fitting model";;
  method model "fit"
    (epochs ← getattr "epochs";
     steps_per_epoch ← getattr "steps_per_epoch";
     v ← getattr "verbose";
     verbose ← py_ge v (lit 2);
     emit (Fit epochs steps_per_epoch verbose));;
  (if ds_testing_present then
     emit (Print "#################");;
     emit (Print "Testing");;
     method model "evaluate" (emit Evaluate);;
     emit (WandbLog "final_test_loss");;
     emit (WandbLog "final_test_sparse_categorical_accuracy")
   else mret tt);;
  fbase ← generate_fname args_str;
  write_file (fbase +:+ "_results.pkl");;
  emit (PickleDump (fbase +:+ "_results.pkl"));;
  save_model ← getattr "save_model";
  (if truthy save_model then
     method model "save"
       (emit (SaveModel (fbase +:+ "_model"));; write_file (fbase +:+ "_model"))
   else mret tt);;
  emit WandbFinish;;
  mret model.

(** [execute_exp(args, multi_gpus)].  [args_is_none] tells whether the
    caller passed no Namespace, in which case the parser's defaults become
    the Namespace the run works on; [multi_gpus] is the number of GPUs
    ([False] is [0]).  The result is the returned network, [None] also
    standing for a plain [return]. *)
Definition execute_exp (args_is_none : bool) (multi_gpus : Z) : M (option unit) :=
  (if args_is_none then
     fun w => (World default_args (w_fs w) (w_trace w), Return tt)
   else mret tt);;
  exp_index ← getattr "exp_index";
  emit (Print (py_str exp_index));;
  args_str ← augment_args;
  (if bool_decide (multi_gpus > 1) then
     batch ← getattr "batch";
     scaled ← py_mul batch multi_gpus;
     setattr "batch" scaled
   else mret tt);;
  batch ← getattr "batch";
  emit (Print ("Batch size " +:+ py_str batch));;
  print_if_verbose 3 "Starting data flow";;
  dataset ← getattr "dataset";
  rotation ← getattr "rotation";
  emit (LoadRotation dataset rotation);;
  batch ← getattr "batch";
  prefetch ← getattr "prefetch";
  shuffle ← getattr "shuffle";
  repeat ← getattr "repeat";
  cache ← getattr "cache";
  emit (CreateTfDatasets batch prefetch shuffle repeat cache);;
  print_if_verbose 3 "Building network";;
  model ← (if bool_decide (multi_gpus > 1) then
             emit MirroredStrategy;; create_classifier_network
           else create_classifier_network);
  v ← getattr "verbose";
  summary ← py_ge v (lit 1);
  (if summary : bool then
     method model "summary" (emit ModelSummary);; emit (Print "None")
   else mret tt);;
  ns ← vars;
  emit (PrintArgs ns);;
  fbase ← generate_fname args_str;
  emit (Print fbase);;
  let fname_out := fbase +:+ "_results.pkl" in
  render ← getattr "render";
  (if truthy render then plot_model model (fbase +:+ "_model_plot.png")
   else mret tt);;
  nogo ← getattr "nogo";
  if truthy nogo then
    emit (Print "NO GO");;
    emit (Print fbase);;
    mret None
  else
    force ← getattr "force";
    present ← (if negb (truthy force) then path_exists fname_out else mret false);
    if present : bool then
      emit (Print ("File " +:+ fname_out +:+ " already exists"));;
      mret None
    else train_and_save model args_str fbase.

(** The main program, after [parser.parse_args()] has built the Namespace:
    [environ] is the set of the names of the environment variables. *)
Definition main (environ : gset string) : MM unit :=
  lift check_args;;
  lift (print_if_verbose 3 "Arguments parsed");;
  gpu ← lift (getattr "gpu");
  (if negb (truthy gpu) || negb (bool_decide ("CUDA_VISIBLE_DEVICES" ∈ environ)) then
     set_visible_devices [];;
     lift (emit (Print "NO VISIBLE DEVICES!!!!"))
   else mret tt);;
  visible_devices ← get_visible_devices;
  let n_visible_devices := Z.of_nat (length visible_devices) in
  lift (emit (Print ("GPUS: " +:+ devices_repr visible_devices)));;
  (if bool_decide (n_visible_devices > 0) then
     mapM set_memory_growth visible_devices;;
     lift (emit (Print ("We have " +:+ pretty n_visible_devices +:+ " GPUs" +:+ newline)))
   else lift (emit (Print "NO GPU")));;
  check ← lift (getattr "check");
  if truthy check then lift check_completeness
  else
    cpus_per_task ← lift (getattr "cpus_per_task");
    (if negb (is_none cpus_per_task) then
       n ← lift (getattr "cpus_per_task");
       set_intra_op_parallelism_threads n;;
       n ← lift (getattr "cpus_per_task");
       set_inter_op_parallelism_threads n
     else mret tt);;
    lift (execute_exp false n_visible_devices);;
    mret tt.

(** ** Vocabulary of the statements *)

(** The one hyperparameter set of the harness: [{'rotation': range(0, 5)}]. *)
Definition rotation_set : hyperparameters := [("rotation", VInt <$> py_range 0 5)].

(** The strict order of the floats: the order of the rationals, with the
    two infinities at the ends; NaN is not ordered with anything. *)
Inductive float_lt : pyfloat -> pyfloat -> Prop :=
| float_lt_fin p q : (p < q)%Q -> float_lt (FFin p) (FFin q)
| float_lt_below q : float_lt (FInf true) (FFin q)
| float_lt_above p : float_lt (FFin p) (FInf false)
| float_lt_ends : float_lt (FInf true) (FInf false).

(** Attribute [name] of the Namespace [a] is the number [x]. *)
Definition number_at (a : gmap string value) (name : string) (x : pyfloat) : Prop :=
  exists v, a !! name = Some v /\ as_number v = Some x.

(** Attribute [name] is strictly between 0 and 1. *)
Definition in_unit_interval (a : gmap string value) (name : string) : Prop :=
  exists x, number_at a name x /\ float_lt (lit 0) x /\ float_lt x (lit 1).

(** Attribute [name] is [None] or strictly between 0 and 1. *)
Definition none_or_in_unit_interval (a : gmap string value) (name : string) : Prop :=
  a !! name = Some VNone \/ in_unit_interval a name.

(** The arguments that [check_args] accepts. *)
Definition rational_args (a : gmap string value) : Prop :=
  in_unit_interval a "lrate" /\
  none_or_in_unit_interval a "spatial_dropout" /\
  none_or_in_unit_interval a "L1_regularization" /\
  none_or_in_unit_interval a "L2_regularization" /\
  (a !! "cpus_per_task" = Some VNone \/
   exists x, number_at a "cpus_per_task" x /\ float_lt (lit 1) x).

(** The Namespace as the argument parser delivers it to [check_args]:
    [lrate] is a number, the other four checked attributes are [None] or
    a number. *)
Definition parsed_args (a : gmap string value) : Prop :=
  (exists x, number_at a "lrate" x) /\
  Forall (fun name => a !! name = Some VNone \/ exists x, number_at a name x)
    ["spatial_dropout"; "L1_regularization"; "L2_regularization"; "cpus_per_task"].

(** What the condition [args.name > 0.0 and args.name < 1] evaluates to. *)
Definition unit_interval_test (a : gmap string value) (name : string) : outcome bool :=
  match a !! name with
  | None => Raise (AttributeError name)
  | Some v =>
      match as_number v with
      | None => Raise TypeError
      | Some x => Return (float_ltb (lit 0) x && float_ltb x (lit 1))
      end
  end.

(** What [args.name is None or (args.name > 0.0 and args.name < 1)]
    evaluates to. *)
Definition none_or_test (a : gmap string value) (name : string) : outcome bool :=
  match a !! name with
  | None => Raise (AttributeError name)
  | Some v => if is_none v then Return true else unit_interval_test a name
  end.

(** What [args.cpus_per_task is None or args.cpus_per_task > 1] evaluates
    to. *)
Definition cpus_test (a : gmap string value) : outcome bool :=
  match a !! "cpus_per_task" with
  | None => Raise (AttributeError "cpus_per_task")
  | Some v =>
      if is_none v then Return true
      else match as_number v with
           | None => Raise TypeError
           | Some x => Return (float_ltb (lit 1) x)
           end
  end.

(** The outcome of [check_args] on the Namespace [a]: the five assertions
    in the order of the source. *)
Definition check_args_outcome (a : gmap string value) : outcome unit :=
  match none_or_test a "spatial_dropout" with
  | Raise e => Raise e
  | Return false => Raise (AssertionError "Spatial dropout must be between 0 and 1")
  | Return true =>
  match unit_interval_test a "lrate" with
  | Raise e => Raise e
  | Return false => Raise (AssertionError "Lrate must be between 0 and 1")
  | Return true =>
  match none_or_test a "L1_regularization" with
  | Raise e => Raise e
  | Return false => Raise (AssertionError "L1_regularization must be between 0 and 1")
  | Return true =>
  match none_or_test a "L2_regularization" with
  | Raise e => Raise e
  | Return false => Raise (AssertionError "L2_regularization must be between 0 and 1")
  | Return true =>
  match cpus_test a with
  | Raise e => Raise e
  | Return false => Raise (AssertionError "cpus_per_task must be positive or None")
  | Return true => Return tt
  end end end end end.

(** The outcome of [exp_type_to_hyperparameters] on the Namespace [a]. *)
Definition hyperparameters_outcome (a : gmap string value) : outcome hyperparameters :=
  match a !! "exp_type" with
  | None => Raise (AttributeError "exp_type")
  | Some t =>
      if eq_str t "rnn" then Return rotation_set
      else match a !! "expt_type" with
           | None => Raise (AttributeError "expt_type")
           | Some u =>
               if eq_str u "cnn" then Return rotation_set
               else Raise (AssertionError
                             ("Unrecognized exp_type (" +:+ py_str t +:+ ")"))
           end
  end.

(** [c] is a point of the Cartesian product of the named ranges of [p]:
    one value of each range, under the name of the range, in the order of
    the names. *)
Definition is_point (p : hyperparameters) (c : JobIterator.combination) : Prop :=
  Forall2 (fun (nr : string * list value) (kv : string * value) =>
             kv.1 = nr.1 /\ kv.2 ∈ nr.2) p c.

(** The product of the sizes of the named ranges of [p]. *)
Definition product_of_sizes (p : hyperparameters) : nat :=
  foldr (fun (nr : string * list value) n => (length nr.2 * n)%nat) 1%nat p.

(** The Namespace [a] after [setattr] of every item of [c], in order. *)
Definition set_combination (c : JobIterator.combination) (a : gmap string value)
  : gmap string value :=
  foldl (fun a (kv : string * value) => <[kv.1 := kv.2]> a) a c.

(** The events of tracking, training and saving: everything [execute_exp]
    does after its check for an existing results file. *)
Definition run_event (e : event) : bool :=
  match e with
  | WandbInit _ _ _ _ | WandbLog _ | EarlyStopping _ _ _ | WandbMetricsLogger
  | Fit _ _ _ | Evaluate | PickleDump _ | SaveModel _ | WandbFinish => true
  | _ => false
  end.

(** The base name that [generate_fname] builds on the Namespace [a]. *)
Definition fname_outcome (a : gmap string value) : outcome string :=
  match a !! "results_path" with
  | None => Raise (AttributeError "results_path")
  | Some results_path =>
      match a !! "exp_type" with
      | None => Raise (AttributeError "exp_type")
      | Some exp_type => Return (py_str results_path +:+ "/" +:+ py_str exp_type)
      end
  end.

(** The results file of job index [i]: the base name generated once the
    attributes of the index are set, followed by ["_results.pkl"]. *)
Definition results_file (ji : JobIterator.t) (i : Z) (w : world) : option string :=
  match (params_str ← set_attributes_by_index ji i; generate_fname params_str) w with
  | (_, Return fbase) => Some (fbase +:+ "_results.pkl")
  | (_, Raise _) => None
  end.

(** The results file of job index [i] does not exist on disk. *)
Definition is_missing (ji : JobIterator.t) (w : world) (i : Z) : bool :=
  match results_file ji i w with
  | Some fname_out => negb (bool_decide (fname_out ∈ w_fs w))
  | None => false
  end.

(** The line that [check_completeness] prints for a missing job index. *)
Definition report_line (ji : JobIterator.t) (w : world) (i : Z) : event :=
  Print (fmt_3d i +:+ tab +:+ default "" (results_file ji i w)).

(** The last line of the report, for the list [indices]. *)
Definition report_summary (indices : list Z) : event :=
  Print ("Missing indices (" +:+ pretty (Z.of_nat (length indices)) +:+ "): "
         +:+ String.concat "," (pretty <$> indices)).

(** The attributes that [execute_exp] reads on its way to the check for an
    existing results file, apart from [exp_type], [exp_index], [verbose] and
    [batch], whose values matter. *)
Definition read_before_check : list string :=
  ["rotation"; "dataset"; "prefetch"; "shuffle"; "repeat"; "cache";
   "rnn_layers"; "dense_layers"; "rnn_activation"; "dense_activation";
   "return_sequences"; "unroll"; "L2_regularization"; "dropout";
   "batch_normalization"; "grad_clip"; "lrate";
   "results_path"; "render"; "nogo"; "force"].

(** A Namespace on which [execute_exp] reaches its check for an existing
    results file: an ['rnn'] experiment, no job index or one in range,
    integer [verbose] and [batch], and every attribute read on the way
    present. *)
Definition ready (a : gmap string value) : Prop :=
  a !! "exp_type" = Some (VStr "rnn") /\
  (a !! "exp_index" = Some VNone \/
   exists i, a !! "exp_index" = Some (VInt i) /\ 0 <= i < 5) /\
  (exists v, a !! "verbose" = Some (VInt v)) /\
  (exists b, a !! "batch" = Some (VInt b)) /\
  Forall (fun k => is_Some (a !! k)) read_before_check.

(** The worlds of a run of [execute_exp] that started on the Namespace [a0],
    the file system [fs0] and the trace [tr0] and has not gone past the check
    for an existing results file: only [rotation] and [batch] may have been
    overridden, the only file that may have been written is the picture
    [plot] of the network, and then only when [render] is set, and nothing
    of tracking, training or saving has happened. *)
Definition skipping (a0 : gmap string value) (fs0 : gset string) (tr0 : list event)
    (plot : string) (w : world) : Prop :=
  (forall k, k <> "rotation" -> k <> "batch" -> w_args w !! k = a0 !! k) /\
  (ready a0 ->
   is_Some (w_args w !! "rotation") /\ exists b, w_args w !! "batch" = Some (VInt b)) /\
  (w_fs w = fs0 \/
   (exists v, a0 !! "render" = Some v /\ truthy v = true) /\ w_fs w = {[plot]} ∪ fs0) /\
  exists evs, w_trace w = tr0 ++ evs /\ Forall (fun e => run_event e = false) evs.

(** [c], started in such a world, ends in such a world; when it returns
    [a] then [Q a] holds, and it raises an exception only if the Namespace
    at the start was not [ready]. *)
Definition safe {A} (a0 : gmap string value) (fs0 : gset string) (tr0 : list event)
    (plot : string) (c : M A) (Q : A -> Prop) : Prop :=
  forall w, skipping a0 fs0 tr0 plot w ->
    match c w with
    | (w', Return a) => skipping a0 fs0 tr0 plot w' /\ Q a
    | (w', Raise _) => skipping a0 fs0 tr0 plot w' /\ ~ ready a0
    end.

(** Hoare triples of the monad: from a world that satisfies [P], [c] ends
    in a world that satisfies [Q a] when it returns [a], and [E] when it
    raises an exception. *)
Definition triple {A} (P : world -> Prop) (c : M A) (Q : A -> world -> Prop)
    (E : world -> Prop) : Prop :=
  forall w, P w ->
    match c w with
    | (w', Return a) => Q a w'
    | (w', Raise _) => E w'
    end.

(** The attributes that [execute_exp] reads after its check for an existing
    results file, apart from [fold], whose value matters, and from those
    read before. *)
Definition read_after_check : list string :=
  ["project"; "label"; "patience"; "min_delta"; "monitor"; "epochs";
   "steps_per_epoch"; "save_model"].

(** A Namespace on which [execute_exp] can go through a whole run. *)
Definition trainable (a : gmap string value) : Prop :=
  ready a /\
  (exists f, a !! "fold" = Some (VInt f)) /\
  Forall (fun k => is_Some (a !! k)) read_after_check.

(** The base name of the output files of the Namespace [a]; the empty
    string when [generate_fname] raises on it. *)
Definition base_name (a : gmap string value) : string :=
  match fname_outcome a with
  | Return fbase => fbase
  | Raise _ => ""
  end.

(** The files that [execute_exp] writes for the base name [base]. *)
Definition outputs (base : string) : gset string :=
  {[ base +:+ "_model_plot.png"; base +:+ "_results.pkl"; base +:+ "_model" ]}.

(** [nogo] is not set, and [force] is set or there is no results file: the
    run goes past the check for an existing results file. *)
Definition passes_check (a0 : gmap string value) (fs0 : gset string) : Prop :=
  (exists v, a0 !! "nogo" = Some v /\ truthy v = false) /\
  ((exists v, a0 !! "force" = Some v /\ truthy v = true) \/
   (exists v, a0 !! "force" = Some v) /\ base_name a0 +:+ "_results.pkl" ∉ fs0) /\
  is_Some (a0 !! "results_path") /\ is_Some (a0 !! "exp_type").

(** [nogo] is set, or [force] is not set and the results file is there: the
    run stops at the check. *)
Definition stops_at_check (a0 : gmap string value) (fs0 : gset string) : Prop :=
  (exists v, a0 !! "nogo" = Some v /\ truthy v = true) \/
  (exists v, a0 !! "nogo" = Some v /\ truthy v = false) /\
  (exists v, a0 !! "force" = Some v /\ truthy v = false) /\
  base_name a0 +:+ "_results.pkl" ∈ fs0.

(** The worlds of a run of [execute_exp] that started on the Namespace [a0],
    the file system [fs0] and the trace [tr0], at the stage [stage] of the
    run: only [rotation] and [batch] may have been overridden, no file has
    been removed and only output files have been added; from stage 1 on
    tracking has been initialised, from stage 2 on the network has been
    fitted, from stage 3 on the results file is on disk, from stage 4 on the
    results have been dumped into it. *)
Definition running (a0 : gmap string value) (fs0 : gset string) (tr0 : list event)
    (stage : nat) (w : world) : Prop :=
  (forall k, k <> "rotation" -> k <> "batch" -> w_args w !! k = a0 !! k) /\
  (ready a0 ->
   is_Some (w_args w !! "rotation") /\ exists b, w_args w !! "batch" = Some (VInt b)) /\
  fs0 ⊆ w_fs w /\ w_fs w ⊆ fs0 ∪ outputs (base_name a0) /\
  exists evs, w_trace w = tr0 ++ evs /\
    ((1 <= stage)%nat ->
     exists project name config, WandbInit project name (base_name a0) config ∈ evs) /\
    ((2 <= stage)%nat -> exists epochs steps verbose, Fit epochs steps verbose ∈ evs) /\
    ((3 <= stage)%nat -> base_name a0 +:+ "_results.pkl" ∈ w_fs w) /\
    ((4 <= stage)%nat -> PickleDump (base_name a0 +:+ "_results.pkl") ∈ evs).

(** How a run may end in an exception: before the check, with nothing of
    tracking, training or saving done, on a Namespace that is not [ready]; or
    after the check, on one that is not [trainable]. *)
Definition failed (a0 : gmap string value) (fs0 : gset string) (tr0 : list event)
    (w : world) : Prop :=
  running a0 fs0 tr0 0 w /\ ~ trainable a0 /\
  (skipping a0 fs0 tr0 (base_name a0 +:+ "_model_plot.png") w /\ ~ ready a0 \/
   passes_check a0 fs0).

(** [c] keeps a run at its stage: started in a world of the stage [stage]
    it ends in one; when it returns [a] then [Q a] holds, and it raises an
    exception only if the Namespace at the start was not [trainable]. *)
Definition keeps {A} (a0 : gmap string value) (fs0 : gset string) (tr0 : list event)
    (stage : nat) (c : M A) (Q : A -> Prop) : Prop :=
  triple (running a0 fs0 tr0 stage) c
         (fun a w => running a0 fs0 tr0 stage w /\ Q a)
         (fun w => running a0 fs0 tr0 0 w /\ ~ trainable a0).

(** The Namespace [a] after the override [upd] of [rotation], if any. *)
Definition override (upd : option Z) (a : gmap string value) : gmap string value :=
  match upd with
  | Some i => <["rotation" := VInt i]> a
  | None => a
  end.

(** What [augment_args] does on the Namespace [a]: the rotation it sets, if
    any, the lines it prints and its outcome. *)
Definition augment_outcome (a : gmap string value)
  : option Z * list event * outcome string :=
  match hyperparameters_outcome a with
  | Raise e => (None, [], Raise e)
  | Return p =>
      let ji := JobIterator.new p in
      let total := Print ("Total jobs: " +:+ pretty (JobIterator.get_njobs ji)) in
      let at_index (i : Z) :=
        if bool_decide (0 <= i < JobIterator.get_njobs ji) then
          (Some i, [total; PrintParams [("rotation", VInt i)]],
           Return (get_param_str [("rotation", VInt i)]))
        else (None, [total], Raise (AssertionError "exp_index out of range")) in
      match a !! "exp_index" with
      | None => (None, [], Raise (AttributeError "exp_index"))
      | Some VNone => (None, [], Return "")
      | Some (VInt i) => at_index i
      | Some (VBool b) => at_index (if b then 1 else 0)
      | Some (VFloat f) =>
          (None, [total],
           if float_leb (lit 0) f && float_ltb f (lit (JobIterator.get_njobs ji))
           then Raise TypeError
           else Raise (AssertionError "exp_index out of range"))
      | Some (VStr _) => (None, [total], Raise TypeError)
      end
  end.

(** [c] leaves the Namespace as it is, whatever its outcome. *)
Definition stable {A} (c : M A) : Prop := forall w, w_args (c w).1 = w_args w.

(** The Namespace [a] with the rotation of its job index, if it has one. *)
Definition index_rotation (a : gmap string value) : gmap string value :=
  match a !! "exp_index" with
  | Some (VInt i) => <["rotation" := VInt i]> a
  | _ => a
  end.

(** The batch size [b] on [n] GPUs. *)
Definition scaled_batch (n b : Z) : Z := if bool_decide (n > 1) then b * n else b.

(** A line of output. *)
Definition is_print (e : event) : bool :=
  match e with
  | Print _ => true
  | _ => false
  end.

(** The worlds that differ from the Namespace [a0], the file system [fs0]
    and the trace [tr0] by an override of [rotation] and by printed lines
    only. *)
Definition quiet (a0 : gmap string value) (fs0 : gset string) (tr0 : list event)
    (w : world) : Prop :=
  (forall k, k <> "rotation" -> w_args w !! k = a0 !! k) /\
  w_fs w = fs0 /\
  exists evs, w_trace w = tr0 ++ evs /\ Forall (fun e => is_print e = true) evs.

(** [c] keeps such worlds, whatever its outcome. *)
Definition quietly {A} (a0 : gmap string value) (fs0 : gset string) (tr0 : list event)
    (c : M A) : Prop :=
  triple (quiet a0 fs0 tr0) c (fun _ => quiet a0 fs0 tr0) (quiet a0 fs0 tr0).

(** The GPUs that the main program leaves visible: those of the runtime
    when the [gpu] flag is set and the environment has
    [CUDA_VISIBLE_DEVICES], none otherwise. *)
Definition visible_after (environ : gset string) (gpu : value) (tf : tf_config)
  : list string :=
  if truthy gpu && bool_decide ("CUDA_VISIBLE_DEVICES" ∈ environ)
  then visible_gpus tf else [].

(** The size of a thread pool after the main program has read
    [cpus_per_task]. *)
Definition threads_after (cpus : value) (old : option value) : option value :=
  if is_none cpus then old else Some cpus.

(** What the main program prints before it checks or runs the experiment. *)
Definition startup_prints (environ : gset string) (v : Z) (gpu : value) (tf : tf_config)
  : list event :=
  let vis := visible_after environ gpu tf in
  (if bool_decide (3 <= v) then [Print "Arguments parsed"] else []) ++
  (if truthy gpu && bool_decide ("CUDA_VISIBLE_DEVICES" ∈ environ) then []
   else [Print "NO VISIBLE DEVICES!!!!"]) ++
  [Print ("GPUS: " +:+ devices_repr vis);
   if bool_decide (Z.of_nat (length vis) > 0)
   then Print ("We have " +:+ pretty (Z.of_nat (length vis)) +:+ " GPUs" +:+ newline)
   else Print "NO GPU"].

(** ** Running the monad *)

Lemma run_bind {A B} (c : M A) (k : A -> M B) (w : world) :
  (c ≫= k) w = match c w with
               | (w', Return a) => k a w'
               | (w', Raise e) => (w', Raise e)
               end.
Proof. reflexivity. Qed.

Lemma run_ret {A} (a : A) (w : world) : (mret a : M A) w = (w, Return a).
Proof. reflexivity. Qed.

Lemma run_getattr_Some name v w :
  w_args w !! name = Some v -> getattr name w = (w, Return v).
Proof. intros H. unfold getattr. by rewrite H. Qed.

Lemma run_getattr_None name w :
  w_args w !! name = None -> getattr name w = (w, Raise (AttributeError name)).
Proof. intros H. unfold getattr. by rewrite H. Qed.

(** ** The argument checks *)

Lemma float_ltb_spec x y : float_ltb x y = true <-> float_lt x y.
Proof.
  split.
  - destruct x as [|s1|p], y as [|s2|q]; cbn -[Qcompare]; try discriminate.
    + destruct s1, s2; simpl; try discriminate. constructor.
    + destruct s1; [constructor|discriminate].
    + destruct s2; [discriminate|constructor].
    + destruct (Qcompare p q) eqn:E; try discriminate.
      intros _. constructor. by apply Qlt_alt.
  - destruct 1 as [p q H| | |]; cbn -[Qcompare]; try reflexivity.
    apply Qlt_alt in H. unfold Qcompare in *. by rewrite H.
Qed.

Lemma run_assert b msg w :
  assert b msg w = (w, if b then Return tt else Raise (AssertionError msg)).
Proof. by destruct b. Qed.

Lemma run_between_0_and_1 name w :
  between_0_and_1 name w = (w, unit_interval_test (w_args w) name).
Proof.
  unfold between_0_and_1, unit_interval_test, py_gt, py_lt.
  rewrite run_bind. unfold getattr.
  destruct (w_args w !! name) as [v|] eqn:Hv; [|done].
  rewrite run_bind. destruct (as_number v) as [x|] eqn:Hx; [|done].
  rewrite run_ret. destruct (float_ltb (lit 0) x); simpl; [|done].
  rewrite run_bind, Hv, Hx. done.
Qed.

Lemma unit_interval_test_true a name :
  unit_interval_test a name = Return true <-> in_unit_interval a name.
Proof.
  unfold unit_interval_test, in_unit_interval, number_at. split.
  - destruct (a !! name) as [v|]; [|done].
    destruct (as_number v) as [x|] eqn:Hx; [|done].
    intros [= [H1 H2]%andb_true_iff]. exists x. rewrite <- !float_ltb_spec. eauto.
  - intros (x & (v & -> & ->) & H1 & H2).
    apply float_ltb_spec in H1, H2. by rewrite H1, H2.
Qed.

Lemma run_none_or {B} name (k : bool -> M B) w :
  (v ← getattr name; ok ← none_or v (between_0_and_1 name); k ok) w =
  match none_or_test (w_args w) name with
  | Return b => k b w
  | Raise e => (w, Raise e)
  end.
Proof.
  rewrite run_bind. unfold getattr, none_or_test, none_or.
  destruct (w_args w !! name) as [v|] eqn:Hv; [|done].
  rewrite run_bind. destruct (is_none v); [done|].
  rewrite run_between_0_and_1. by destruct (unit_interval_test _ _).
Qed.

Lemma run_cpus {B} (k : bool -> M B) w :
  (v ← getattr "cpus_per_task";
   ok ← none_or v (v ← getattr "cpus_per_task"; py_gt v (lit 1));
   k ok) w =
  match cpus_test (w_args w) with
  | Return b => k b w
  | Raise e => (w, Raise e)
  end.
Proof.
  rewrite run_bind. unfold getattr, cpus_test, none_or, py_gt.
  destruct (w_args w !! "cpus_per_task") as [v|] eqn:Hv; [|done].
  rewrite run_bind. destruct (is_none v); [done|].
  rewrite run_bind, Hv. by destruct (as_number v).
Qed.

Lemma is_none_true v : is_none v = true <-> v = VNone.
Proof. by destruct v. Qed.

Lemma none_or_test_true a name :
  none_or_test a name = Return true <-> none_or_in_unit_interval a name.
Proof.
  unfold none_or_test, none_or_in_unit_interval. split.
  - destruct (a !! name) as [v|] eqn:Hv; [|done].
    destruct (is_none v) eqn:Hn.
    + apply is_none_true in Hn as ->. by left.
    + intros H. right. by apply unit_interval_test_true.
  - intros [H|H].
    + by rewrite H.
    + pose proof H as (x & (v & Hv & Hx) & _). rewrite Hv.
      destruct (is_none v); [done|]. by apply unit_interval_test_true.
Qed.

Lemma cpus_test_true a :
  cpus_test a = Return true <->
  (a !! "cpus_per_task" = Some VNone \/
   exists x, number_at a "cpus_per_task" x /\ float_lt (lit 1) x).
Proof.
  unfold cpus_test, number_at. split.
  - destruct (a !! "cpus_per_task") as [v|] eqn:Hv; [|done].
    destruct (is_none v) eqn:Hn.
    + apply is_none_true in Hn as ->. by left.
    + destruct (as_number v) as [x|] eqn:Hx; [|done].
      intros H. right. exists x. split; [eauto|].
      apply float_ltb_spec. congruence.
  - intros [->|(x & (v & -> & Hx) & H%float_ltb_spec)]; [done|].
    destruct (is_none v); [done|]. by rewrite Hx, H.
Qed.

(** On a Namespace that the parser delivers every test of [check_args]
    evaluates to a truth value. *)
Lemma parsed_args_tests a :
  parsed_args a ->
  (exists b, unit_interval_test a "lrate" = Return b) /\
  (exists b, none_or_test a "spatial_dropout" = Return b) /\
  (exists b, none_or_test a "L1_regularization" = Return b) /\
  (exists b, none_or_test a "L2_regularization" = Return b) /\
  (exists b, cpus_test a = Return b).
Proof.
  intros [(x & v & Hv & Hx) Hall].
  assert (Hno : forall name,
    (a !! name = Some VNone \/ exists x, number_at a name x) ->
    exists b, none_or_test a name = Return b).
  { intros name [H|(y & u & Hu & Hy)]; unfold none_or_test, unit_interval_test.
    - rewrite H. eauto.
    - rewrite Hu. destruct (is_none u); [eauto|]. rewrite Hy. eauto. }
  rewrite !Forall_cons in Hall. destruct Hall as (H1 & H2 & H3 & H4 & _).
  split; [|repeat split; auto].
  - unfold unit_interval_test. rewrite Hv, Hx. eauto.
  - destruct H4 as [H|(y & u & Hu & Hy)]; unfold cpus_test.
    + rewrite H. eauto.
    + rewrite Hu. destruct (is_none u); [eauto|]. rewrite Hy. eauto.
Qed.

(** [check_args] is a function of the Namespace alone and changes nothing. *)
Lemma run_check_args w : check_args w = (w, check_args_outcome (w_args w)).
Proof.
  unfold check_args, check_args_outcome.
  rewrite run_none_or. destruct (none_or_test _ "spatial_dropout") as [[]|]; try done.
  rewrite run_bind, run_assert, run_bind, run_between_0_and_1.
  destruct (unit_interval_test _ "lrate") as [[]|]; try done.
  rewrite run_bind, run_assert.
  rewrite run_none_or. destruct (none_or_test _ "L1_regularization") as [[]|]; try done.
  rewrite run_bind, run_assert.
  rewrite run_none_or. destruct (none_or_test _ "L2_regularization") as [[]|]; try done.
  rewrite run_bind, run_assert.
  rewrite run_cpus. destruct (cpus_test _) as [[]|]; try done.
Qed.

Lemma check_args_outcome_ok a :
  check_args_outcome a = Return tt <-> rational_args a.
Proof.
  unfold rational_args, check_args_outcome.
  rewrite <- unit_interval_test_true, <- !none_or_test_true, <- cpus_test_true.
  destruct (none_or_test _ "spatial_dropout") as [[]|]; [|intuition congruence..].
  destruct (unit_interval_test _ "lrate") as [[]|]; [|intuition congruence..].
  destruct (none_or_test _ "L1_regularization") as [[]|]; [|intuition congruence..].
  destruct (none_or_test _ "L2_regularization") as [[]|]; [|intuition congruence..].
  destruct (cpus_test _) as [[]|]; intuition congruence.
Qed.

Lemma check_args_outcome_rejects a :
  parsed_args a -> ~ rational_args a ->
  exists msg, check_args_outcome a = Raise (AssertionError msg).
Proof.
  intros Hp Hnot. rewrite <- check_args_outcome_ok in Hnot.
  destruct (parsed_args_tests _ Hp)
    as ((b1 & E1) & (b2 & E2) & (b3 & E3) & (b4 & E4) & (b5 & E5)).
  unfold check_args_outcome in *. rewrite E1, E2, E3, E4, E5 in *.
  destruct b2; [|eauto]. destruct b1; [|eauto]. destruct b3; [|eauto].
  destruct b4; [|eauto]. destruct b5; [done|eauto].
Qed.

(** C9: [check_args] returns normally exactly on the rational arguments
    ([lrate] strictly between 0 and 1; [spatial_dropout],
    [L1_regularization] and [L2_regularization] each [None] or strictly
    between 0 and 1; [cpus_per_task] [None] or strictly greater than 1);
    on any other Namespace delivered by the parser it raises an
    [AssertionError], in particular when [cpus_per_task] is 1; and in all
    cases it leaves the Namespace, the file system and the trace as they
    were. *)
Theorem check_args_accepts_rational_args w :
  (check_args w).1 = w /\
  ((check_args w).2 = Return tt <-> rational_args (w_args w)) /\
  (parsed_args (w_args w) -> ~ rational_args (w_args w) ->
   exists msg, (check_args w).2 = Raise (AssertionError msg)) /\
  (parsed_args (w_args w) -> w_args w !! "cpus_per_task" = Some (VInt 1) ->
   exists msg, (check_args w).2 = Raise (AssertionError msg)).
Proof.
  rewrite run_check_args. cbn [fst snd].
  split; [done|]. split; [apply check_args_outcome_ok|].
  split; [apply check_args_outcome_rejects|].
  intros Hp Hc. apply check_args_outcome_rejects; [done|].
  intros (_ & _ & _ & _ & [H|(x & (v & Hv & Hx) & Hlt)]).
  - congruence.
  - rewrite Hc in Hv. injection Hv as <-. injection Hx as <-.
    inversion Hlt as [p q Hq| | |]. by apply Qlt_irrefl in Hq.
Qed.

(** ** The hyperparameter set *)

Lemma eq_str_true v s : eq_str v s = true <-> v = VStr s.
Proof.
  destruct v; simpl; try (split; congruence).
  rewrite bool_decide_eq_true. split; congruence.
Qed.

(** [exp_type_to_hyperparameters] is a function of the Namespace alone and
    changes nothing. *)
Lemma run_exp_type_to_hyperparameters w :
  exp_type_to_hyperparameters w = (w, hyperparameters_outcome (w_args w)).
Proof.
  unfold exp_type_to_hyperparameters, hyperparameters_outcome.
  rewrite run_bind. unfold getattr.
  destruct (w_args w !! "exp_type") as [t|] eqn:Ht; [|done].
  rewrite run_bind. destruct (eq_str t "rnn"); [done|].
  rewrite run_bind. destruct (w_args w !! "expt_type") as [u|] eqn:Hu; [|done].
  rewrite run_ret. destruct (eq_str u "cnn"); [done|].
  rewrite run_bind, Ht. done.
Qed.

Lemma hyperparameters_outcome_Return a p :
  hyperparameters_outcome a = Return p <->
  p = rotation_set /\
  (a !! "exp_type" = Some (VStr "rnn") \/
   is_Some (a !! "exp_type") /\ a !! "expt_type" = Some (VStr "cnn")).
Proof.
  unfold hyperparameters_outcome. split.
  - destruct (a !! "exp_type") as [t|] eqn:Ht; [|done].
    destruct (eq_str t "rnn") eqn:Hrnn.
    { apply eq_str_true in Hrnn as ->. intros [= <-]. auto. }
    destruct (a !! "expt_type") as [u|] eqn:Hu; [|done].
    destruct (eq_str u "cnn") eqn:Hcnn; [|done].
    apply eq_str_true in Hcnn as ->. intros [= <-]. eauto.
  - intros [-> [H|[[t Ht] Hu]]].
    + by rewrite H.
    + rewrite Ht, Hu. by destruct (eq_str t "rnn").
Qed.

(** C10: with [exp_type] equal to ['cnn'] and no attribute [expt_type],
    [exp_type_to_hyperparameters] raises [AttributeError] (for
    [expt_type]); and whenever it returns, on any Namespace, it returns
    [{'rotation': range(0, 5)}] and either [exp_type] is ['rnn'] or the
    attribute [expt_type] is ['cnn'], both of which make it return. *)
Theorem exp_type_cnn_raises_AttributeError w :
  w_args w !! "exp_type" = Some (VStr "cnn") ->
  w_args w !! "expt_type" = None ->
  exp_type_to_hyperparameters w = (w, Raise (AttributeError "expt_type")) /\
  (forall w0 w1 p,
     exp_type_to_hyperparameters w0 = (w1, Return p) ->
     p = rotation_set /\
     (w_args w0 !! "exp_type" = Some (VStr "rnn") \/
      w_args w0 !! "expt_type" = Some (VStr "cnn"))) /\
  (forall w0,
     w_args w0 !! "exp_type" = Some (VStr "rnn") \/
     is_Some (w_args w0 !! "exp_type") /\
     w_args w0 !! "expt_type" = Some (VStr "cnn") ->
     exp_type_to_hyperparameters w0 = (w0, Return rotation_set)).
Proof.
  intros Ht Hu. split; [|split].
  - rewrite run_exp_type_to_hyperparameters.
    unfold hyperparameters_outcome. by rewrite Ht, Hu.
  - intros w0 w1 p. rewrite run_exp_type_to_hyperparameters.
    intros [= _ H]. apply hyperparameters_outcome_Return in H.
    destruct H as [-> [H|[_ H]]]; auto.
  - intros w0 H. rewrite run_exp_type_to_hyperparameters.
    f_equal. apply hyperparameters_outcome_Return. auto.
Qed.

(** ** The job iterator enumerates the Cartesian product *)

Lemma length_bind_const {A B} (f : A -> list B) (l : list A) (n : nat) :
  (forall x, x ∈ l -> length (f x) = n) -> length (l ≫= f) = (length l * n)%nat.
Proof.
  induction l as [|x l IH]; intros Hf; [done|].
  rewrite bind_cons, length_app, Hf, IH; [done| |left].
  intros y Hy. apply Hf. by right.
Qed.

Lemma cartesian_length p :
  length (JobIterator.cartesian p) = product_of_sizes p.
Proof.
  induction p as [|[name range] rest IH]; [done|]. simpl.
  rewrite (length_bind_const _ _ (product_of_sizes rest)); [done|].
  intros v _. rewrite (length_bind_const _ _ 1%nat); [|done].
  rewrite Nat.mul_1_r. exact IH.
Qed.

Lemma elem_of_cartesian p c : c ∈ JobIterator.cartesian p <-> is_point p c.
Proof.
  unfold is_point. revert c.
  induction p as [|[name range] rest IH]; intros c; simpl.
  - rewrite list_elem_of_singleton. split; [intros ->; constructor|by inversion 1].
  - rewrite list_elem_of_bind. split.
    + intros (v & Hc & Hv). apply list_elem_of_bind in Hc as (c' & Hc & Hc').
      apply list_elem_of_singleton in Hc as ->. constructor; [done|]. by apply IH.
    + inversion 1 as [|nr [k v] ? c' [Hk Hv] Hrest]; simpl in *; subst.
      exists v. split; [|done]. apply list_elem_of_bind. exists c'.
      split; [by apply list_elem_of_singleton|]. by apply IH.
Qed.

Lemma NoDup_cartesian p :
  Forall (fun nr : string * list value => NoDup nr.2) p ->
  NoDup (JobIterator.cartesian p).
Proof.
  induction 1 as [|[name range] rest Hrange _ IH]; simpl.
  - apply NoDup_singleton.
  - apply NoDup_bind; [| |done].
    + intros v1 v2 c Hv1 Hv2 (c1 & Hc1 & _)%list_elem_of_bind (c2 & Hc2 & _)%list_elem_of_bind.
      apply list_elem_of_singleton in Hc1, Hc2. congruence.
    + intros v _. apply NoDup_bind; [| |done].
      * intros c1 c2 c _ _ H1%list_elem_of_singleton H2%list_elem_of_singleton. congruence.
      * intros c _. apply NoDup_singleton.
Qed.

Lemma get_njobs_new p :
  JobIterator.get_njobs (JobIterator.new p) = Z.of_nat (product_of_sizes p).
Proof. unfold JobIterator.get_njobs. simpl. by rewrite cartesian_length. Qed.

Lemma get_index_new p i c :
  JobIterator.get_index (JobIterator.new p) i = Some c <->
  0 <= i /\ JobIterator.cartesian p !! Z.to_nat i = Some c.
Proof.
  unfold JobIterator.get_index. simpl. case_bool_decide; [tauto|].
  split; [done|]. tauto.
Qed.

(** Every job index in range identifies a point of the Cartesian product. *)
Lemma get_index_in_range p i :
  0 <= i < JobIterator.get_njobs (JobIterator.new p) ->
  exists c, JobIterator.get_index (JobIterator.new p) i = Some c /\ is_point p c.
Proof.
  intros [Hlo Hhi]. unfold JobIterator.get_njobs in Hhi. simpl in Hhi.
  destruct (lookup_lt_is_Some_2 (JobIterator.cartesian p) (Z.to_nat i)) as [c Hc]; [lia|].
  exists c. split; [by apply get_index_new|].
  apply elem_of_cartesian. by eapply list_elem_of_lookup_2.
Qed.

(** Outside the range a job index identifies nothing. *)
Lemma get_index_out_of_range p i :
  ~ 0 <= i < JobIterator.get_njobs (JobIterator.new p) ->
  JobIterator.get_index (JobIterator.new p) i = None.
Proof.
  intros Hout. unfold JobIterator.get_index, JobIterator.get_njobs in *. simpl in *.
  case_bool_decide; [|done]. apply lookup_ge_None_2. lia.
Qed.

(** Two job indices that identify the same point are equal, when no range
    lists a value twice. *)
Lemma get_index_inj p i j c :
  Forall (fun nr : string * list value => NoDup nr.2) p ->
  JobIterator.get_index (JobIterator.new p) i = Some c ->
  JobIterator.get_index (JobIterator.new p) j = Some c ->
  i = j.
Proof.
  intros Hp [Hi Hci]%get_index_new [Hj Hcj]%get_index_new.
  pose proof (NoDup_lookup _ _ _ _ (NoDup_cartesian p Hp) Hci Hcj). lia.
Qed.

(** Every point of the Cartesian product is identified by a job index in
    range. *)
Lemma get_index_surj p c :
  is_point p c ->
  exists i, 0 <= i < JobIterator.get_njobs (JobIterator.new p) /\
            JobIterator.get_index (JobIterator.new p) i = Some c.
Proof.
  intros Hc%elem_of_cartesian. apply list_elem_of_lookup_1 in Hc as [n Hn].
  exists (Z.of_nat n). pose proof (lookup_lt_Some _ _ _ Hn).
  unfold JobIterator.get_njobs. simpl. split; [lia|].
  apply get_index_new. rewrite Nat2Z.id. split; [lia|done].
Qed.

(** The sweep of the harness: five jobs, job [i] is rotation [i]. *)
Lemma rotation_set_NoDup :
  Forall (fun nr : string * list value => NoDup nr.2) rotation_set.
Proof.
  constructor; [|constructor].
  change (NoDup [VInt 0; VInt 1; VInt 2; VInt 3; VInt 4]).
  repeat (apply NoDup_cons_2;
          [rewrite ?not_elem_of_cons; repeat split; [congruence..|apply not_elem_of_nil]|]).
  apply NoDup_nil_2.
Qed.

Lemma rotation_set_njobs : JobIterator.get_njobs (JobIterator.new rotation_set) = 5.
Proof. reflexivity. Qed.

Lemma rotation_set_get_index i :
  0 <= i < 5 ->
  JobIterator.get_index (JobIterator.new rotation_set) i = Some [("rotation", VInt i)].
Proof.
  intros Hi.
  assert (i = 0 \/ i = 1 \/ i = 2 \/ i = 3 \/ i = 4) as H by lia.
  destruct H as [->|[->|[->|[->| ->]]]]; reflexivity.
Qed.

Lemma rotation_set_is_point c :
  is_point rotation_set c <-> exists i, 0 <= i < 5 /\ c = [("rotation", VInt i)].
Proof.
  split.
  - intros (i & Hi & Hc)%get_index_surj. rewrite rotation_set_njobs in Hi.
    rewrite rotation_set_get_index in Hc by done. exists i. split; congruence.
  - intros (i & Hi & ->).
    destruct (get_index_in_range rotation_set i) as (c & Hc & Hpt); [by rewrite rotation_set_njobs|].
    rewrite rotation_set_get_index in Hc by done. congruence.
Qed.

(** ** Overriding the arguments by job index *)

Lemma float_leb_lit a b : float_leb (lit a) (lit b) = bool_decide (a <= b).
Proof.
  unfold float_leb, lit, Qcompare. simpl. rewrite !Z.mul_1_r.
  case_bool_decide as H; destruct (Z.compare_spec a b); (done || lia).
Qed.

Lemma float_ltb_lit a b : float_ltb (lit a) (lit b) = bool_decide (a < b).
Proof.
  unfold float_ltb, lit, Qcompare. simpl. rewrite !Z.mul_1_r.
  case_bool_decide as H; destruct (Z.compare_spec a b); (done || lia).
Qed.

Lemma run_setattrs (c : JobIterator.combination) w :
  mapM (fun kv : string * value => setattr kv.1 kv.2) c w =
  (World (set_combination c (w_args w)) (w_fs w) (w_trace w),
   Return (replicate (length c) tt)).
Proof.
  revert w. induction c as [|[k v] c IH]; intros w; simpl.
  - by destruct w.
  - rewrite run_bind. unfold setattr at 1. rewrite run_bind, IH. done.
Qed.

Lemma run_set_attributes_by_index ji i c w :
  JobIterator.get_index ji i = Some c ->
  set_attributes_by_index ji i w =
  (World (set_combination c (w_args w)) (w_fs w) (w_trace w),
   Return (get_param_str c)).
Proof.
  intros Hc. unfold set_attributes_by_index. rewrite Hc.
  by rewrite run_bind, run_setattrs.
Qed.

(** An attribute that [c] does not name keeps its value. *)
Lemma set_combination_other c a k :
  k ∉ c.*1 -> set_combination c a !! k = a !! k.
Proof.
  revert a. induction c as [|[k' v] c IH]; intros a Hk; [done|].
  simpl in *. apply not_elem_of_cons in Hk as [Hne Hk].
  rewrite IH by done. by apply lookup_insert_ne.
Qed.

(** An attribute that [c] names once gets the value [c] gives it. *)
Lemma set_combination_named c a k v :
  NoDup c.*1 -> (k, v) ∈ c -> set_combination c a !! k = Some v.
Proof.
  revert a. induction c as [|[k' v'] c IH]; intros a Hnd Hin.
  - by apply elem_of_nil in Hin.
  - simpl in *. apply NoDup_cons in Hnd as [Hk' Hnd].
    apply elem_of_cons in Hin as [[= -> ->]|Hin].
    + rewrite set_combination_other by done. apply lookup_insert_eq.
    + by apply IH.
Qed.

Lemma run_emit e w :
  emit e w = (World (w_args w) (w_fs w) (w_trace w ++ [e]), Return tt).
Proof. reflexivity. Qed.

Lemma run_setattr name v w :
  setattr name v w = (World (<[name := v]> (w_args w)) (w_fs w) (w_trace w), Return tt).
Proof. reflexivity. Qed.

Lemma run_raise {A} e w : (raise e : M A) w = (w, Raise e).
Proof. reflexivity. Qed.

Lemma run_path_exists path w :
  path_exists path w = (w, Return (bool_decide (path ∈ w_fs w))).
Proof. reflexivity. Qed.

Lemma run_write_file path w :
  write_file path w = (World (w_args w) ({[path]} ∪ w_fs w) (w_trace w), Return tt).
Proof. reflexivity. Qed.

(** One pass of symbolic execution: sequencing, the primitive effects, and
    the attribute reads that a hypothesis decides. *)
Ltac mrun :=
  repeat (first
    [ rewrite run_bind
    | rewrite run_ret
    | rewrite run_assert
    | rewrite run_emit
    | rewrite run_setattr
    | rewrite run_raise
    | rewrite run_path_exists
    | rewrite run_write_file
    | rewrite run_exp_type_to_hyperparameters
    | erewrite run_getattr_Some by (cbn [w_args]; eassumption)
    | erewrite run_getattr_None by (cbn [w_args]; eassumption)
    | progress cbn beta iota zeta delta
        [is_none w_args w_fs w_trace fst snd and_then none_or
         py_ge py_lt py_gt as_number as_index]
    | match goal with
      | H : hyperparameters_outcome ?a = _ |- context [hyperparameters_outcome ?a] =>
          rewrite H
      end ]).

Ltac go_index Hnum Hidx Hnone :=
  repeat (progress mrun || rewrite Hnone || rewrite Hidx || rewrite Hnum
          || (progress (unfold py_ge)) || (progress (unfold py_lt))).

(** [augment_args] on a recognised experiment type with a job index that is
    an integer (or a [bool], which Python counts as 0 or 1): the bounds
    assertion, then the attributes of the combination. *)
Lemma run_augment_args_index w p v i :
  hyperparameters_outcome (w_args w) = Return p ->
  w_args w !! "exp_index" = Some v ->
  v = VInt i \/ v = VBool (bool_decide (i = 1)) /\ (i = 0 \/ i = 1) ->
  augment_args w =
  let ji := JobIterator.new p in
  let total := Print ("Total jobs: " +:+ pretty (JobIterator.get_njobs ji)) in
  if bool_decide (0 <= i < JobIterator.get_njobs ji) then
    match JobIterator.get_index ji i with
    | Some c =>
        (World (set_combination c (w_args w)) (w_fs w)
               ((w_trace w ++ [total]) ++ [PrintParams c]),
         Return (get_param_str c))
    | None => (World (w_args w) (w_fs w) (w_trace w ++ [total]), Raise IndexError)
    end
  else
    (World (w_args w) (w_fs w) (w_trace w ++ [total]),
     Raise (AssertionError "exp_index out of range")).
Proof.
  intros Hp Hi Hv. unfold augment_args.
  assert (as_number v = Some (lit i) /\ as_index v = mret i /\ is_none v = false)
    as (Hnum & Hidx & Hnone).
  { destruct Hv as [->|[-> [->| ->]]]; done. }
  clear Hv.
  go_index Hnum Hidx Hnone. rewrite float_leb_lit.
  case_bool_decide as Hlo; go_index Hnum Hidx Hnone.
  - rewrite float_ltb_lit.
    case_bool_decide as Hhi; go_index Hnum Hidx Hnone.
    + rewrite bool_decide_true by lia.
      destruct (JobIterator.get_index (JobIterator.new p) i) as [c|] eqn:Hc;
        go_index Hnum Hidx Hnone; [|done].
      by rewrite (run_set_attributes_by_index _ _ c).
    + by rewrite bool_decide_false by lia.
  - by rewrite bool_decide_false by lia.
Qed.

Lemma hyperparameters_returned w p :
  (exp_type_to_hyperparameters w).2 = Return p ->
  hyperparameters_outcome (w_args w) = Return p /\ p = rotation_set.
Proof.
  rewrite run_exp_type_to_hyperparameters. simpl. intros H. split; [done|].
  by apply hyperparameters_outcome_Return in H as [-> _].
Qed.

Lemma run_augment_args_None w p :
  hyperparameters_outcome (w_args w) = Return p ->
  w_args w !! "exp_index" = Some VNone ->
  augment_args w = (w, Return "").
Proof. intros Hp Hi. unfold augment_args. by mrun. Qed.

(** C2: on a recognised experiment type and with an integer [exp_index] in
    the range of the job indices, [augment_args] returns the parameter string
    of the combination [c] that the index identifies, a point of the
    Cartesian product of the named ranges; afterwards every attribute that [c]
    names holds the value [c] gives it and every other attribute is as before;
    and the job indices in range correspond one to one to the points of the
    Cartesian product. *)
Theorem augment_args_sets_combination w p i :
  (exp_type_to_hyperparameters w).2 = Return p ->
  w_args w !! "exp_index" = Some (VInt i) ->
  0 <= i < JobIterator.get_njobs (JobIterator.new p) ->
  exists c,
    JobIterator.get_index (JobIterator.new p) i = Some c /\
    is_point p c /\
    (augment_args w).2 = Return (get_param_str c) /\
    (forall k v, (k, v) ∈ c -> w_args (augment_args w).1 !! k = Some v) /\
    (forall k, k ∉ c.*1 -> w_args (augment_args w).1 !! k = w_args w !! k) /\
    (forall j, JobIterator.get_index (JobIterator.new p) j = Some c -> j = i) /\
    (forall c', is_point p c' ->
       exists j, 0 <= j < JobIterator.get_njobs (JobIterator.new p) /\
                 JobIterator.get_index (JobIterator.new p) j = Some c').
Proof.
  intros [Hp ->]%hyperparameters_returned Hi Hrange.
  destruct (get_index_in_range _ _ Hrange) as (c & Hc & Hpt).
  exists c. rewrite (run_augment_args_index _ _ _ i Hp Hi) by auto. cbv zeta.
  rewrite bool_decide_true, Hc by done. cbn [fst snd w_args].
  rewrite rotation_set_njobs in Hrange.
  pose proof Hc as Hc'. rewrite rotation_set_get_index in Hc' by done.
  injection Hc' as <-.
  repeat split; try done.
  - intros k v Hkv. apply set_combination_named; [|done].
    apply NoDup_singleton.
  - apply set_combination_other.
  - intros j Hj. by eapply get_index_inj; [apply rotation_set_NoDup|..].
  - apply get_index_surj.
Qed.

(** C4: on a recognised experiment type and with an integer [exp_index],
    [augment_args] fails with an [AssertionError] exactly when the index is
    negative or at least the number of jobs, and returns when the index is in
    range. *)
Theorem augment_args_bounds_assertion w p i :
  (exp_type_to_hyperparameters w).2 = Return p ->
  w_args w !! "exp_index" = Some (VInt i) ->
  ((exists msg, (augment_args w).2 = Raise (AssertionError msg)) <->
   i < 0 \/ JobIterator.get_njobs (JobIterator.new p) <= i) /\
  (0 <= i < JobIterator.get_njobs (JobIterator.new p) ->
   exists s, (augment_args w).2 = Return s).
Proof.
  intros [Hp ->]%hyperparameters_returned Hi.
  rewrite (run_augment_args_index _ _ _ i Hp Hi) by auto. cbv zeta.
  case_bool_decide as Hrange.
  - destruct (get_index_in_range _ _ Hrange) as (c & -> & _). cbn [snd].
    split; [|eauto]. split; [intros [msg [=]]|lia].
  - cbn [snd]. split; [|done]. split; [lia|eauto].
Qed.

(** With [exp_index] [None], [augment_args] changes nothing, whether it
    returns or raises. *)
Lemma augment_args_without_index_frame w :
  w_args w !! "exp_index" = Some VNone -> (augment_args w).1 = w.
Proof.
  intros Hi. unfold augment_args. mrun.
  destruct (hyperparameters_outcome (w_args w)); by mrun.
Qed.

(** C8, as the code has it: when [exp_index] is [None] and the experiment
    type is recognised ([exp_type_to_hyperparameters] returns a hyperparameter
    set), [augment_args] returns the empty string and leaves the Namespace,
    the file system and the trace as they were. *)
Theorem augment_args_without_index w p :
  w_args w !! "exp_index" = Some VNone ->
  (exp_type_to_hyperparameters w).2 = Return p ->
  augment_args w = (w, Return "").
Proof.
  intros Hi [Hp _]%hyperparameters_returned. by eapply run_augment_args_None.
Qed.

(** ** Determinism and the output name *)

(** [generate_fname] is a function of the attributes [results_path] and
    [exp_type] alone, whatever the parameter string, and changes nothing. *)
Lemma run_generate_fname params_str w :
  generate_fname params_str w = (w, fname_outcome (w_args w)).
Proof.
  unfold generate_fname, fname_outcome.
  destruct (w_args w !! "results_path") eqn:Hr; mrun; [|done].
  destruct (w_args w !! "exp_type") eqn:He; by mrun.
Qed.

(** [augment_args] reads the Namespace alone: what it returns, what it
    prints and the Namespace it leaves are the same on every file system and
    after every trace; it only ever sets [rotation]. *)
Lemma augment_args_frame a :
  exists a' evs out,
    (a' = a \/ exists i, a' = <["rotation" := VInt i]> a) /\
    Forall (fun e => run_event e = false) evs /\
    forall fs tr, augment_args (World a fs tr) = (World a' fs (tr ++ evs), out).
Proof.
  destruct (hyperparameters_outcome a) as [p|e] eqn:Hp.
  2:{ exists a, [], (Raise e). split_and!; [by left|done|]. intros fs tr.
      unfold augment_args. mrun. by rewrite app_nil_r. }
  pose proof Hp as [-> _]%hyperparameters_outcome_Return.
  destruct (a !! "exp_index") as [v|] eqn:Hi.
  2:{ exists a, [], (Raise (AttributeError "exp_index")). split_and!; [by left|done|].
      intros fs tr. unfold augment_args. mrun. by rewrite app_nil_r. }
  destruct v as [|b|i|f|s].
  - exists a, [], (Return ""). split_and!; [by left|done|]. intros fs tr.
    rewrite (run_augment_args_None _ rotation_set) by done. by rewrite app_nil_r.
  - set (i := if b then 1 else 0).
    exists (<["rotation" := VInt i]> a),
      [Print ("Total jobs: " +:+ pretty 5); PrintParams [("rotation", VInt i)]],
      (Return (get_param_str [("rotation", VInt i)])).
    split_and!; [eauto|by repeat constructor|]. intros fs tr.
    rewrite (run_augment_args_index _ rotation_set (VBool b) i);
      [|done|done|by destruct b; auto].
    cbv zeta.
    rewrite rotation_set_njobs, bool_decide_true, rotation_set_get_index
      by (by destruct b).
    cbn [w_args w_fs w_trace set_combination foldl fst snd].
    rewrite <- app_assoc. reflexivity.
  - destruct (decide (0 <= i < 5)) as [Hr|Hr].
    + exists (<["rotation" := VInt i]> a),
        [Print ("Total jobs: " +:+ pretty 5); PrintParams [("rotation", VInt i)]],
        (Return (get_param_str [("rotation", VInt i)])).
      split_and!; [eauto|by repeat constructor|]. intros fs tr.
      rewrite (run_augment_args_index _ rotation_set (VInt i) i) by auto. cbv zeta.
      rewrite rotation_set_njobs, bool_decide_true, rotation_set_get_index by done.
      cbn [w_args w_fs w_trace set_combination foldl fst snd].
      rewrite <- app_assoc. reflexivity.
    + exists a, [Print ("Total jobs: " +:+ pretty 5)],
        (Raise (AssertionError "exp_index out of range")).
      split_and!; [by left|by repeat constructor|]. intros fs tr.
      rewrite (run_augment_args_index _ rotation_set (VInt i) i) by auto. cbv zeta.
      rewrite rotation_set_njobs, bool_decide_false by done. reflexivity.
  - exists a, [Print ("Total jobs: " +:+ pretty 5)],
      (if float_leb (lit 0) f && float_ltb f (lit 5) then Raise TypeError
       else Raise (AssertionError "exp_index out of range")).
    split_and!; [by left|by repeat constructor|]. intros fs tr.
    unfold augment_args. mrun. rewrite rotation_set_njobs.
    destruct (float_leb (lit 0) f); mrun; [|done].
    destruct (float_ltb f (lit 5)); by mrun.
  - exists a, [Print ("Total jobs: " +:+ pretty 5)], (Raise TypeError).
    split_and!; [by left|by repeat constructor|]. intros fs tr.
    unfold augment_args. by mrun.
Qed.

(** C7: [augment_args] and [generate_fname] depend on the argument values
    alone: run on two worlds whose Namespaces are equal, whatever their file
    systems and earlier traces, they return the same parameter string (or
    raise the same exception), leave equal Namespaces, print the same lines
    and build the same file name; neither touches the file system. *)
Theorem harness_deterministic w1 w2 params_str :
  w_args w1 = w_args w2 ->
  (augment_args w1).2 = (augment_args w2).2 /\
  w_args (augment_args w1).1 = w_args (augment_args w2).1 /\
  (exists evs, w_trace (augment_args w1).1 = (w_trace w1 ++ evs)%list /\
               w_trace (augment_args w2).1 = (w_trace w2 ++ evs)%list) /\
  w_fs (augment_args w1).1 = w_fs w1 /\
  w_fs (augment_args w2).1 = w_fs w2 /\
  (generate_fname params_str w1).2 = (generate_fname params_str w2).2 /\
  (generate_fname params_str w1).1 = w1 /\
  (generate_fname params_str w2).1 = w2.
Proof.
  intros Heq.
  destruct (augment_args_frame (w_args w1)) as (a' & evs & out & _ & _ & Hrun).
  pose proof (Hrun (w_fs w1) (w_trace w1)) as H1.
  pose proof (Hrun (w_fs w2) (w_trace w2)) as H2.
  rewrite Heq in H2 at 1.
  destruct w1 as [a1 fs1 tr1], w2 as [a2 fs2 tr2]. simpl in *.
  rewrite H1, H2, !run_generate_fname. simpl. rewrite Heq. eauto 10.
Qed.

(** C1, as the code has it: whatever the job index, the base name that
    [generate_fname] produces after the attributes of that index are set is
    the same: the name is built from [results_path] and [exp_type], which
    no job index changes. *)
Theorem generate_fname_same_for_all_jobs w p i j :
  (exp_type_to_hyperparameters w).2 = Return p ->
  0 <= i < JobIterator.get_njobs (JobIterator.new p) ->
  0 <= j < JobIterator.get_njobs (JobIterator.new p) ->
  ((params_str ← set_attributes_by_index (JobIterator.new p) i;
    generate_fname params_str) w).2 =
  ((params_str ← set_attributes_by_index (JobIterator.new p) j;
    generate_fname params_str) w).2.
Proof.
  intros [_ ->]%hyperparameters_returned Hi Hj.
  rewrite rotation_set_njobs in Hi, Hj.
  rewrite !run_bind.
  rewrite (run_set_attributes_by_index _ i _ _ (rotation_set_get_index i Hi)).
  rewrite (run_set_attributes_by_index _ j _ _ (rotation_set_get_index j Hj)).
  rewrite !run_generate_fname. cbn [fst snd w_args set_combination foldl].
  unfold fname_outcome. by rewrite !lookup_insert_ne.
Qed.

(** ** The completeness check *)

Lemma results_file_rotation_set w i rp et :
  0 <= i < 5 ->
  w_args w !! "results_path" = Some rp ->
  w_args w !! "exp_type" = Some et ->
  results_file (JobIterator.new rotation_set) i w =
  Some ((py_str rp +:+ "/" +:+ py_str et) +:+ "_results.pkl").
Proof.
  intros Hi Hrp Het. unfold results_file.
  rewrite run_bind, (run_set_attributes_by_index _ i _ _ (rotation_set_get_index i Hi)).
  rewrite run_generate_fname. unfold fname_outcome.
  cbn [w_args set_combination foldl fst snd].
  by rewrite !lookup_insert_ne, Hrp, Het.
Qed.

Lemma run_check_one w i rp et :
  0 <= i < 5 ->
  w_args w !! "results_path" = Some rp ->
  w_args w !! "exp_type" = Some et ->
  let fname_out := (py_str rp +:+ "/" +:+ py_str et) +:+ "_results.pkl" in
  let missing := negb (bool_decide (fname_out ∈ w_fs w)) in
  check_one (JobIterator.new rotation_set) i w =
  (World (<["rotation" := VInt i]> (w_args w)) (w_fs w)
         (w_trace w ++ if missing then [Print (fmt_3d i +:+ tab +:+ fname_out)] else []),
   Return missing).
Proof.
  intros Hi Hrp Het. unfold check_one.
  rewrite run_bind, (run_set_attributes_by_index _ i _ _ (rotation_set_get_index i Hi)).
  rewrite run_bind, run_generate_fname. unfold fname_outcome.
  cbn [w_args set_combination foldl fst snd].
  rewrite !lookup_insert_ne, Hrp, Het by done. mrun.
  destruct (bool_decide _); mrun; [|done]. by rewrite app_nil_r.
Qed.

(** The loop of [check_completeness] over the job indices [range]: it
    appends the missing ones to [indices] and prints a line for each. *)
Lemma run_check_loop range : forall indices w rp et,
  Forall (fun i => 0 <= i < 5) range ->
  w_args w !! "results_path" = Some rp ->
  w_args w !! "exp_type" = Some et ->
  let fname_out := (py_str rp +:+ "/" +:+ py_str et) +:+ "_results.pkl" in
  let missing := if bool_decide (fname_out ∈ w_fs w) then [] else range in
  check_loop (JobIterator.new rotation_set) range indices w =
  (World (foldl (fun a i => <["rotation" := VInt i]> a) (w_args w) range) (w_fs w)
         (w_trace w ++ ((fun i => Print (fmt_3d i +:+ tab +:+ fname_out)) <$> missing)),
   Return (indices ++ missing)).
Proof.
  induction range as [|i range IH]; intros indices w rp et Hrange Hrp Het; cbv zeta.
  - simpl. destruct (bool_decide _); simpl; rewrite !app_nil_r; by destruct w.
  - apply Forall_cons in Hrange as [Hi Hrange]. simpl check_loop.
    rewrite run_bind, (run_check_one _ _ rp et) by done. cbv zeta.
    rewrite (IH _ _ rp et); [|done|by cbn [w_args]; rewrite lookup_insert_ne..].
    cbv zeta. cbn [w_args w_fs w_trace foldl].
    destruct (bool_decide _); cbn [negb fmap list_fmap]; rewrite <- !app_assoc; done.
Qed.

Lemma results_file_missing w i rp et :
  0 <= i < 5 ->
  w_args w !! "results_path" = Some rp ->
  w_args w !! "exp_type" = Some et ->
  let fname_out := (py_str rp +:+ "/" +:+ py_str et) +:+ "_results.pkl" in
  is_missing (JobIterator.new rotation_set) w i = negb (bool_decide (fname_out ∈ w_fs w)) /\
  report_line (JobIterator.new rotation_set) w i = Print (fmt_3d i +:+ tab +:+ fname_out).
Proof.
  intros Hi Hrp Het. unfold is_missing, report_line.
  by rewrite (results_file_rotation_set _ _ rp et).
Qed.

Lemma filter_is_missing w range rp et :
  Forall (fun i => 0 <= i < 5) range ->
  w_args w !! "results_path" = Some rp ->
  w_args w !! "exp_type" = Some et ->
  let fname_out := (py_str rp +:+ "/" +:+ py_str et) +:+ "_results.pkl" in
  filter (fun i => is_missing (JobIterator.new rotation_set) w i) range =
  if bool_decide (fname_out ∈ w_fs w) then [] else range.
Proof.
  intros Hrange Hrp Het. cbv zeta.
  induction Hrange as [|i range Hi _ IH]; [by destruct (bool_decide _)|].
  destruct (results_file_missing w i rp et Hi Hrp Het) as [Hm _].
  destruct (bool_decide _) eqn:Hb.
  - rewrite filter_cons_False; [done|]. rewrite Hm. simpl. tauto.
  - rewrite filter_cons_True; [by rewrite IH|]. by rewrite Hm.
Qed.

Lemma py_range_5 : py_range 0 5 = [0; 1; 2; 3; 4].
Proof. reflexivity. Qed.

Lemma elem_of_py_range_5 i : i ∈ py_range 0 5 <-> 0 <= i < 5.
Proof.
  rewrite py_range_5, !elem_of_cons, elem_of_nil. lia.
Qed.

(** [check_completeness] on a recognised experiment type with a results
    path: the whole report. *)
Lemma run_check_completeness w rp et :
  hyperparameters_outcome (w_args w) = Return rotation_set ->
  w_args w !! "results_path" = Some rp ->
  w_args w !! "exp_type" = Some et ->
  let ji := JobIterator.new rotation_set in
  let missing := filter (fun i => is_missing ji w i) (py_range 0 5) in
  check_completeness w =
  (World (<["rotation" := VInt 4]> (w_args w)) (w_fs w)
         (w_trace w ++ [Print ("Total jobs: " +:+ pretty 5); Print "MISSING RUNS:"]
                    ++ (report_line ji w <$> missing) ++ [report_summary missing]),
   Return tt).
Proof.
  intros Hp Hrp Het ji missing.
  assert (Hall : Forall (fun i => 0 <= i < 5) (py_range 0 5)).
  { apply Forall_forall. intros i. apply elem_of_py_range_5. }
  unfold check_completeness. mrun. rewrite rotation_set_njobs.
  rewrite (run_check_loop _ _ _ rp et) by done. cbv zeta.
  cbn [w_args w_fs w_trace]. mrun.
  subst missing ji. rewrite (filter_is_missing _ _ rp et) by done.
  f_equal. f_equal.
  - rewrite py_range_5. cbn [foldl]. by rewrite !insert_insert_eq.
  - unfold report_summary. rewrite app_nil_l, <- !app_assoc. cbn [app].
    do 3 f_equal.
    destruct (bool_decide _); [done|]. f_equal.
    apply list_fmap_ext. intros k i Hk.
    apply list_elem_of_lookup_2, elem_of_py_range_5 in Hk.
    by destruct (results_file_missing w i rp et Hk Hrp Het) as [_ ->].
Qed.

Lemma recognised_exp_type a p :
  hyperparameters_outcome a = Return p -> is_Some (a !! "exp_type").
Proof.
  intros [_ [H|[H _]]]%hyperparameters_outcome_Return; [by rewrite H|done].
Qed.

(** C3: on a recognised experiment type and with a results path,
    [check_completeness] goes through the job indices [0 .. njobs-1] and
    reports (one line each, then the summary line) exactly those whose
    results file, the generated base name followed by ["_results.pkl"], is
    not on disk: an index in range is absent from the reported list if and
    only if its results file exists.  The file system is left as it was. *)
Theorem check_completeness_reports_missing w p :
  (exp_type_to_hyperparameters w).2 = Return p ->
  is_Some (w_args w !! "results_path") ->
  let ji := JobIterator.new p in
  let njobs := JobIterator.get_njobs ji in
  let missing := filter (fun i => is_missing ji w i) (py_range 0 njobs) in
  (check_completeness w).2 = Return tt /\
  w_trace (check_completeness w).1 =
    w_trace w ++ [Print ("Total jobs: " +:+ pretty njobs); Print "MISSING RUNS:"]
              ++ (report_line ji w <$> missing) ++ [report_summary missing] /\
  w_fs (check_completeness w).1 = w_fs w /\
  (forall i, i ∈ missing -> 0 <= i < njobs) /\
  (forall i, 0 <= i < njobs ->
     (i ∉ missing <-> exists f, results_file ji i w = Some f /\ f ∈ w_fs w)) /\
  (forall i, 0 <= i < njobs ->
     (i ∈ missing <-> exists f, results_file ji i w = Some f /\ f ∉ w_fs w)).
Proof.
  intros [Hp ->]%hyperparameters_returned [rp Hrp] ji njobs missing.
  destruct (recognised_exp_type _ _ Hp) as [et Het].
  rewrite (run_check_completeness w rp et) by done. cbv zeta. cbn [fst snd w_trace w_fs].
  subst missing njobs ji. rewrite rotation_set_njobs.
  split_and!; try done.
  - intros i [_ Hi%elem_of_py_range_5]%list_elem_of_filter. done.
  - intros i Hi. rewrite list_elem_of_filter, elem_of_py_range_5.
    unfold is_missing. rewrite (results_file_rotation_set _ _ rp et) by done.
    destruct (bool_decide_reflect
                ((py_str rp +:+ "/" +:+ py_str et) +:+ "_results.pkl" ∈ w_fs w));
      simpl; split.
    + eauto.
    + tauto.
    + intros Hn. exfalso. apply Hn. done.
    + intros (f & [= <-] & Hf). done.
  - intros i Hi. rewrite list_elem_of_filter, elem_of_py_range_5.
    unfold is_missing. rewrite (results_file_rotation_set _ _ rp et) by done.
    destruct (bool_decide_reflect
                ((py_str rp +:+ "/" +:+ py_str et) +:+ "_results.pkl" ∈ w_fs w));
      simpl; split.
    + tauto.
    + intros (f & [= <-] & Hf). done.
    + eauto.
    + done.
Qed.

(** C6: when the experiment type maps to [{'rotation': range(0, 5)}], the
    number of jobs is 5, the product of the sizes of the ranges;
    [check_completeness] reports that total and iterates over the job indices
    0 to 4, leaving the last combination (rotation 4) in the Namespace and
    reporting all five when the results file is not there; and the
    combinations of those indices are exactly the points of the Cartesian
    product. *)
Theorem sweep_has_five_jobs w p :
  (exp_type_to_hyperparameters w).2 = Return p ->
  is_Some (w_args w !! "results_path") ->
  let ji := JobIterator.new p in
  p = rotation_set /\
  JobIterator.get_njobs ji = 5 /\
  Z.of_nat (product_of_sizes p) = 5 /\
  py_range 0 (JobIterator.get_njobs ji) = [0; 1; 2; 3; 4] /\
  (exists evs, w_trace (check_completeness w).1 =
               w_trace w ++ Print ("Total jobs: " +:+ pretty 5) :: evs) /\
  w_args (check_completeness w).1 !! "rotation" = Some (VInt 4) /\
  ((forall i, 0 <= i < 5 -> is_missing ji w i = true) ->
   exists evs, w_trace (check_completeness w).1 =
               w_trace w ++ evs ++ [report_summary [0; 1; 2; 3; 4]]) /\
  (forall c, is_point p c <->
     exists i, i ∈ py_range 0 (JobIterator.get_njobs ji) /\
               JobIterator.get_index ji i = Some c) /\
  (forall i, i ∈ py_range 0 (JobIterator.get_njobs ji) ->
     JobIterator.get_index ji i = Some [("rotation", VInt i)]).
Proof.
  intros [Hp ->]%hyperparameters_returned [rp Hrp] ji.
  destruct (recognised_exp_type _ _ Hp) as [et Het].
  rewrite (run_check_completeness w rp et) by done. cbv zeta. cbn [fst snd w_trace w_args].
  subst ji. rewrite rotation_set_njobs.
  split_and!; try done.
  - eauto.
  - apply lookup_insert_eq.
  - intros Hall.
    assert (filter (fun i => is_missing (JobIterator.new rotation_set) w i)
              (py_range 0 5) = [0; 1; 2; 3; 4]) as ->.
    { change (py_range 0 5) with [0; 1; 2; 3; 4].
      rewrite !filter_cons_True, filter_nil; [done|..]; by rewrite Hall. }
    exists ([Print ("Total jobs: " +:+ pretty 5); Print "MISSING RUNS:"] ++
            (report_line (JobIterator.new rotation_set) w <$> [0; 1; 2; 3; 4])).
    rewrite <- (app_assoc [_; _]). reflexivity.
  - intros c. split.
    + intros (i & Hi & Hc)%get_index_surj. rewrite rotation_set_njobs in Hi.
      exists i. by rewrite elem_of_py_range_5.
    + intros (i & Hi%elem_of_py_range_5 & Hc).
      destruct (get_index_in_range rotation_set i) as (c' & Hc' & Hpt);
        [by rewrite rotation_set_njobs|]. congruence.
  - intros i Hi%elem_of_py_range_5. by apply rotation_set_get_index.
Qed.

(** ** Runs that stop at an existing results file *)

Lemma ready_attr a k : k ∈ read_before_check -> ready a -> is_Some (a !! k).
Proof.
  intros Hk (_ & _ & _ & _ & Hall). rewrite Forall_forall in Hall. by apply Hall.
Qed.

Lemma run_getattrs names : forall w,
  match mapM getattr names w with
  | (w', Return vs) => w' = w
  | (w', Raise _) => w' = w /\ exists k, k ∈ names /\ w_args w !! k = None
  end.
Proof.
  induction names as [|k names IH]; intros w; [done|].
  simpl. rewrite run_bind. unfold getattr at 1.
  destruct (w_args w !! k) eqn:Hk.
  - rewrite run_bind. specialize (IH w).
    destruct (mapM getattr names w) as [w' [vs|e]].
    + by rewrite run_ret.
    + destruct IH as [-> (k' & Hk' & Hnone)]. split; [done|].
      exists k'. split; [by right|done].
  - split; [done|]. exists k. split; [by left|done].
Qed.

Ltac in_list := repeat first [apply list_elem_of_here | apply list_elem_of_further].

Ltac solve_ready :=
  first [ done
        | intros; eapply ready_attr; [in_list|eassumption] ].

Section Skipping.

Context (a0 : gmap string value) (fs0 : gset string) (tr0 : list event) (plot : string).

Local Abbreviation safe_run := (safe a0 fs0 tr0 plot).

Lemma safe_bind {A B} (c : M A) (k : A -> M B) (R : A -> Prop) (Q : B -> Prop) :
  safe_run c R -> (forall a, R a -> safe_run (k a) Q) -> safe_run (c ≫= k) Q.
Proof.
  intros Hc Hk w Hw. rewrite run_bind. specialize (Hc w Hw).
  destruct (c w) as [w' [a|e]]; [|done]. destruct Hc as [Hw' Ha].
  by apply Hk.
Qed.

Lemma safe_ret {A} (a : A) (Q : A -> Prop) : Q a -> safe_run (mret a) Q.
Proof. intros Ha w Hw. by rewrite run_ret. Qed.

Lemma safe_raise {A} e (Q : A -> Prop) : ~ ready a0 -> safe_run (raise e) Q.
Proof. intros Hn w Hw. by rewrite run_raise. Qed.

Lemma safe_getattr k :
  k <> "rotation" -> k <> "batch" -> (ready a0 -> is_Some (a0 !! k)) ->
  safe_run (getattr k) (fun v => a0 !! k = Some v).
Proof.
  intros Hk1 Hk2 Hr w Hw. pose proof Hw as (Hargs & _).
  unfold getattr. rewrite (Hargs k) by done.
  destruct (a0 !! k) eqn:Hv; [done|]. split; [done|].
  intros [v Hv']%Hr. congruence.
Qed.

Lemma safe_getattr_batch :
  safe_run (getattr "batch") (fun v => ready a0 -> exists b, v = VInt b).
Proof.
  intros w Hw. pose proof Hw as (_ & Hr & _). unfold getattr.
  destruct (w_args w !! "batch") as [v|] eqn:Hv.
  - split; [done|]. intros (_ & b & Hb)%Hr. exists b. congruence.
  - split; [done|]. intros (_ & b & Hb)%Hr. congruence.
Qed.

Lemma safe_getattr_rotation : safe_run (getattr "rotation") (fun _ => True).
Proof.
  intros w Hw. pose proof Hw as (_ & Hr & _). unfold getattr.
  destruct (w_args w !! "rotation") as [v|] eqn:Hv; [done|].
  split; [done|]. intros ([v Hv'] & _)%Hr. congruence.
Qed.

Lemma safe_emit e : run_event e = false -> safe_run (emit e) (fun _ => True).
Proof.
  intros He w (Hargs & Hr & Hfs & evs & Htr & Hevs). rewrite run_emit.
  split; [|done]. split_and!; try done. cbn [w_trace].
  exists (evs ++ [e]). rewrite Htr, app_assoc. split; [done|].
  apply Forall_app. split; [done|]. by constructor.
Qed.

Lemma safe_setattr_batch v :
  (ready a0 -> exists b, v = VInt b) -> safe_run (setattr "batch" v) (fun _ => True).
Proof.
  intros Hv w (Hargs & Hr & Hfs & Htr). rewrite run_setattr.
  split; [|done]. split_and!; try done; cbn [w_args].
  - intros k Hk1 Hk2. rewrite lookup_insert_ne by done. by apply Hargs.
  - intros Hready. destruct (Hr Hready) as [Hrot _]. destruct (Hv Hready) as [b ->].
    rewrite lookup_insert_ne, lookup_insert_eq by done. eauto.
Qed.

Lemma safe_py_ge v c :
  (ready a0 -> is_Some (as_number v)) -> safe_run (py_ge v c) (fun _ => True).
Proof.
  intros Hv w Hw. unfold py_ge. destruct (as_number v); [done|].
  split; [done|]. intros [? [=]]%Hv.
Qed.

Lemma safe_py_mul v n :
  (ready a0 -> exists b, v = VInt b) ->
  safe_run (py_mul v n) (fun v' => ready a0 -> exists b, v' = VInt b).
Proof.
  intros Hv w Hw. destruct v as [|b|z|f|s]; simpl; (split; [done|]);
    intros [z' Hz]%Hv; try discriminate; eauto.
Qed.

Lemma safe_path_exists path :
  path ∈ fs0 -> safe_run (path_exists path) (fun b => b = true).
Proof.
  intros Hp w Hw. rewrite run_path_exists. split; [done|].
  apply bool_decide_eq_true.
  destruct Hw as (_ & _ & [->|[_ ->]] & _); [done|by apply elem_of_union_r].
Qed.

Lemma safe_write_plot :
  (exists v, a0 !! "render" = Some v /\ truthy v = true) ->
  safe_run (write_file plot) (fun _ => True).
Proof.
  intros Hrender w (Hargs & Hr & Hfs & Htr). rewrite run_write_file.
  split; [|done]. split_and!; try done. cbn [w_fs]. right. split; [done|].
  destruct Hfs as [->|[_ ->]]; [done|].
  by rewrite (assoc_L (∪)), (idemp_L (∪)).
Qed.

Lemma safe_print_if_verbose level line :
  safe_run (print_if_verbose level line) (fun _ => True).
Proof.
  unfold print_if_verbose.
  eapply safe_bind.
  { apply (safe_getattr "verbose"); [done|done|].
    intros (_ & _ & [v ->] & _). eauto. }
  intros v Hv. eapply safe_bind.
  { apply safe_py_ge. intros (_ & _ & [z Hz] & _).
    rewrite Hz in Hv. injection Hv as <-. simpl. eauto. }
  intros [] _; [by apply safe_emit|by apply safe_ret].
Qed.

Lemma safe_generate_fname params_str rp et :
  a0 !! "results_path" = Some rp -> a0 !! "exp_type" = Some et ->
  safe_run (generate_fname params_str)
           (fun fbase => fbase = py_str rp +:+ "/" +:+ py_str et).
Proof.
  intros Hrp Het. unfold generate_fname.
  eapply safe_bind; [apply (safe_getattr "results_path"); [done|done|by rewrite Hrp]|].
  intros v1 Hv1. eapply safe_bind;
    [apply (safe_getattr "exp_type"); [done|done|by rewrite Het]|].
  intros v2 Hv2. apply safe_ret. congruence.
Qed.

Lemma safe_augment_args : safe_run augment_args (fun _ => True).
Proof.
  intros w Hw. pose proof Hw as (Hargs & Hr & Hfs & evs0 & Htr & Hevs0).
  destruct (augment_args_frame (w_args w)) as (a' & evs & out & Ha' & Hevs & Hrun).
  specialize (Hrun (w_fs w) (w_trace w)).
  assert (Hw' : augment_args w = (World a' (w_fs w) (w_trace w ++ evs), out)).
  { by destruct w. }
  rewrite Hw'.
  assert (skipping a0 fs0 tr0 plot (World a' (w_fs w) (w_trace w ++ evs))) as Hinv.
  { split_and!; cbn [w_args w_fs w_trace]; try done.
    - intros k Hk1 Hk2. destruct Ha' as [->|[i ->]]; [by apply Hargs|].
      rewrite lookup_insert_ne by done. by apply Hargs.
    - intros Hready. destruct (Hr Hready) as [Hrot Hbatch].
      destruct Ha' as [->|[i ->]]; [done|].
      rewrite lookup_insert_eq, lookup_insert_ne by done. eauto.
    - exists (evs0 ++ evs). rewrite Htr, app_assoc. split; [done|].
      by apply Forall_app. }
  destruct out as [s|e]; [done|]. split; [done|].
  intros Hready. pose proof Hready as (Het & Hidx & _).
  assert (hyperparameters_outcome (w_args w) = Return rotation_set) as Hp.
  { apply hyperparameters_outcome_Return. split; [done|]. left.
    by rewrite Hargs. }
  destruct Hidx as [Hnone|(i & Hi & Hrange)].
  - rewrite (run_augment_args_None w rotation_set) in Hw'; [done|done|].
    by rewrite Hargs.
  - rewrite (run_augment_args_index w rotation_set (VInt i) i) in Hw';
      [|done|by rewrite Hargs|auto].
    cbv zeta in Hw'.
    rewrite rotation_set_njobs, bool_decide_true, rotation_set_get_index in Hw' by done.
    done.
Qed.

Lemma safe_method (model : option unit) name (call : M unit) (Q : unit -> Prop) :
  (ready a0 -> is_Some model) -> safe_run call Q -> safe_run (method model name call) Q.
Proof.
  intros Hm Hcall. destruct model; [done|].
  apply safe_raise. intros [? [=]]%Hm.
Qed.

Lemma safe_getattrs names :
  Forall (fun k => k ∈ read_before_check /\ k <> "rotation" /\ k <> "batch") names ->
  safe_run (mapM getattr names) (fun _ => True).
Proof.
  intros Hnames w Hw. pose proof (run_getattrs names w) as Hrun.
  destruct (mapM getattr names w) as [w' [vs|e]].
  - by subst.
  - destruct Hrun as [-> (k & Hk & Hnone)]. split; [done|].
    rewrite Forall_forall in Hnames. destruct (Hnames k Hk) as (Hin & Hk1 & Hk2).
    intros [v Hv]%(ready_attr _ k Hin).
    destruct Hw as (Hargs & _). rewrite Hargs in Hnone by done. congruence.
Qed.

Lemma safe_create_classifier_network :
  safe_run create_classifier_network (fun model => ready a0 -> is_Some model).
Proof.
  unfold create_classifier_network.
  assert (Hexp : ready a0 -> is_Some (a0 !! "exp_type")).
  { intros (-> & _). eauto. }
  eapply safe_bind; [by apply (safe_getattr "exp_type")|].
  intros v Hv. destruct (eq_str v "rnn") eqn:Hrnn.
  - eapply safe_bind.
    { apply safe_getattrs. repeat (constructor; [split; [in_list|done]|]). constructor. }
    intros params _. eapply safe_bind; [by apply safe_emit|].
    intros _ _. apply safe_ret. eauto.
  - assert (Hnot : ~ ready a0).
    { intros (Het & _). rewrite Het in Hv. injection Hv as <-. done. }
    eapply safe_bind; [by apply (safe_getattr "exp_type")|].
    intros v' _. destruct (eq_str v' "cnn"); [by apply safe_ret|].
    eapply safe_bind; [by apply (safe_getattr "exp_type")|].
    intros v'' _. by apply safe_raise.
Qed.

Lemma safe_execute_exp n rp et vf vn :
  a0 !! "results_path" = Some rp -> a0 !! "exp_type" = Some et ->
  a0 !! "force" = Some vf -> truthy vf = false ->
  a0 !! "nogo" = Some vn -> truthy vn = false ->
  plot = (py_str rp +:+ "/" +:+ py_str et) +:+ "_model_plot.png" ->
  (py_str rp +:+ "/" +:+ py_str et) +:+ "_results.pkl" ∈ fs0 ->
  safe_run (execute_exp false n) (fun r => r = None).
Proof.
  intros Hrp Het Hforce Hvf Hnogo Hvn Hplot Hfile. unfold execute_exp.
  eapply (safe_bind _ _ (fun _ => True)); [by apply safe_ret|]. intros _ _.
  eapply safe_bind.
  { apply (safe_getattr "exp_index"); [done|done|].
    intros (_ & [->|(i & -> & _)] & _); eauto. }
  intros exp_index _.
  eapply safe_bind; [by apply safe_emit|]. intros _ _.
  eapply safe_bind; [apply safe_augment_args|]. intros args_str _.
  eapply safe_bind.
  { instantiate (1 := fun _ => True). case_bool_decide; [|by apply safe_ret].
    eapply safe_bind; [apply safe_getattr_batch|]. intros batch Hbatch.
    eapply safe_bind; [by apply safe_py_mul|]. intros scaled Hscaled.
    by apply safe_setattr_batch. }
  intros _ _.
  eapply safe_bind; [apply safe_getattr_batch|]. intros batch _.
  eapply safe_bind; [by apply safe_emit|]. intros _ _.
  eapply safe_bind; [apply safe_print_if_verbose|]. intros _ _.
  eapply safe_bind; [apply (safe_getattr "dataset"); solve_ready|]. intros dataset _.
  eapply safe_bind; [apply safe_getattr_rotation|]. intros rotation _.
  eapply safe_bind; [by apply safe_emit|]. intros _ _.
  eapply safe_bind; [apply safe_getattr_batch|]. intros batch' _.
  eapply safe_bind; [apply (safe_getattr "prefetch"); solve_ready|]. intros prefetch _.
  eapply safe_bind; [apply (safe_getattr "shuffle"); solve_ready|]. intros shuffle _.
  eapply safe_bind; [apply (safe_getattr "repeat"); solve_ready|]. intros repeat _.
  eapply safe_bind; [apply (safe_getattr "cache"); solve_ready|]. intros cache _.
  eapply safe_bind; [by apply safe_emit|]. intros _ _.
  eapply safe_bind; [apply safe_print_if_verbose|]. intros _ _.
  eapply safe_bind.
  { instantiate (1 := fun model => ready a0 -> is_Some model).
    case_bool_decide; [|apply safe_create_classifier_network].
    eapply safe_bind; [by apply safe_emit|]. intros _ _.
    apply safe_create_classifier_network. }
  intros model Hmodel.
  eapply safe_bind.
  { apply (safe_getattr "verbose"); [done|done|].
    intros (_ & _ & [v ->] & _). eauto. }
  intros verbose Hverbose.
  eapply safe_bind.
  { apply safe_py_ge. intros (_ & _ & [z Hz] & _).
    rewrite Hz in Hverbose. injection Hverbose as <-. simpl. eauto. }
  intros summary _.
  eapply safe_bind.
  { instantiate (1 := fun _ => True). destruct summary; [|by apply safe_ret].
    eapply safe_bind; [by apply safe_method, safe_emit|]. intros _ _.
    by apply safe_emit. }
  intros _ _.
  eapply safe_bind.
  { instantiate (1 := fun _ => True). intros w Hw. unfold vars. done. }
  intros ns _.
  eapply safe_bind; [by apply safe_emit|]. intros _ _.
  eapply safe_bind; [by apply (safe_generate_fname _ rp et)|]. intros fbase ->.
  eapply safe_bind; [by apply safe_emit|]. intros _ _.
  eapply safe_bind.
  { apply (safe_getattr "render"); solve_ready. }
  intros render Hrender.
  eapply safe_bind.
  { instantiate (1 := fun _ => True).
    destruct (truthy render) eqn:Htruthy; [|by apply safe_ret].
    unfold plot_model. apply safe_method; [done|].
    eapply safe_bind; [by apply safe_emit|]. intros _ _.
    rewrite <- Hplot. apply safe_write_plot. by exists render. }
  intros _ _.
  eapply safe_bind; [apply (safe_getattr "nogo"); solve_ready|]. intros nogo Hnogo'.
  assert (nogo = vn) as -> by congruence. rewrite Hvn.
  eapply safe_bind; [apply (safe_getattr "force"); solve_ready|]. intros force Hforce'.
  assert (force = vf) as -> by congruence. rewrite Hvf. cbn [negb].
  eapply safe_bind; [by apply safe_path_exists|]. intros present ->.
  eapply safe_bind; [by apply safe_emit|]. intros _ _.
  by apply safe_ret.
Qed.

End Skipping.

Lemma execute_exp_defaults n w :
  execute_exp true n w = execute_exp false n (World default_args (w_fs w) (w_trace w)).
Proof. reflexivity. Qed.

(** C5, as the code has it: when the results file of the configured
    experiment exists, [force] is not set and [nogo] is not set,
    [execute_exp] never gets to tracking, training or saving: it returns
    [None] (it does so on every [ready] Namespace; otherwise an exception of
    the preparation may end it earlier), nothing of the tracking, training
    and saving is in the trace, and the results file is still there.  The one
    file it may write before returning is the picture of the network,
    ["<base>_model_plot.png"], and only when [render] is set; otherwise the
    file system is as it was. *)
Theorem execute_exp_skips_completed_run (args_is_none : bool) n w rp et vf vn :
  let a0 := if args_is_none then default_args else w_args w in
  let fbase := py_str rp +:+ "/" +:+ py_str et in
  a0 !! "results_path" = Some rp -> a0 !! "exp_type" = Some et ->
  a0 !! "force" = Some vf -> truthy vf = false ->
  a0 !! "nogo" = Some vn -> truthy vn = false ->
  fbase +:+ "_results.pkl" ∈ w_fs w ->
  let r := execute_exp args_is_none n w in
  (r.2 = Return None \/ exists e, r.2 = Raise e) /\
  (ready a0 -> r.2 = Return None) /\
  (exists evs, w_trace r.1 = w_trace w ++ evs /\
               Forall (fun e => run_event e = false) evs) /\
  (w_fs r.1 = w_fs w \/
   (exists v, a0 !! "render" = Some v /\ truthy v = true) /\
   w_fs r.1 = {[fbase +:+ "_model_plot.png"]} ∪ w_fs w) /\
  fbase +:+ "_results.pkl" ∈ w_fs r.1.
Proof.
  intros a0 fbase Hrp Het Hforce Hvf Hnogo Hvn Hfile r.
  assert (Hstart : execute_exp args_is_none n w =
                   execute_exp false n (World a0 (w_fs w) (w_trace w))).
  { subst a0. destruct args_is_none; [apply execute_exp_defaults|by destruct w]. }
  pose proof (safe_execute_exp a0 (w_fs w) (w_trace w) (fbase +:+ "_model_plot.png")
                n rp et vf vn Hrp Het Hforce Hvf Hnogo Hvn eq_refl Hfile
                (World a0 (w_fs w) (w_trace w))) as Hsafe.
  rewrite <- Hstart in Hsafe. fold r in Hsafe.
  assert (Hinit : skipping a0 (w_fs w) (w_trace w) (fbase +:+ "_model_plot.png")
                    (World a0 (w_fs w) (w_trace w))).
  { split_and!; cbn [w_args w_fs w_trace]; try done.
    - intros (_ & _ & _ & Hbatch & Hall). split; [|done].
      rewrite Forall_forall in Hall. apply Hall. in_list.
    - by left.
    - exists []. by rewrite app_nil_r. }
  specialize (Hsafe Hinit). destruct r as [w' [res|e]]; cbn [fst snd].
  - destruct Hsafe as [(_ & _ & Hfs & Htr) ->]. split_and!; try done; [by left|].
    destruct Hfs as [->|[_ ->]]; [done|by apply elem_of_union_r].
  - destruct Hsafe as [(_ & _ & Hfs & Htr) Hnot]. split_and!; try done; [eauto|].
    destruct Hfs as [->|[_ ->]]; [done|by apply elem_of_union_r].
Qed.

(** ** Whole runs of an experiment *)

Lemma trainable_ready a : trainable a -> ready a.
Proof. by intros [? _]. Qed.

Lemma trainable_attr a k : k ∈ read_after_check -> trainable a -> is_Some (a !! k).
Proof.
  intros Hk (_ & _ & Hall). rewrite Forall_forall in Hall. by apply Hall.
Qed.

Lemma base_name_Return a fbase : fname_outcome a = Return fbase -> base_name a = fbase.
Proof. unfold base_name. by intros ->. Qed.

Lemma fname_outcome_Return a :
  is_Some (a !! "results_path") -> is_Some (a !! "exp_type") ->
  fname_outcome a = Return (base_name a).
Proof.
  intros [rp Hrp] [et Het]. unfold base_name, fname_outcome. by rewrite Hrp, Het.
Qed.

Lemma fname_outcome_attrs a fbase :
  fname_outcome a = Return fbase ->
  is_Some (a !! "results_path") /\ is_Some (a !! "exp_type").
Proof.
  unfold fname_outcome. destruct (a !! "results_path"); [|done].
  destruct (a !! "exp_type"); [|done]. eauto.
Qed.

Lemma plot_in_outputs base : base +:+ "_model_plot.png" ∈ outputs base.
Proof. unfold outputs. rewrite !elem_of_union, !elem_of_singleton. auto. Qed.

Lemma results_in_outputs base : base +:+ "_results.pkl" ∈ outputs base.
Proof. unfold outputs. rewrite !elem_of_union, !elem_of_singleton. auto. Qed.

Lemma model_in_outputs base : base +:+ "_model" ∈ outputs base.
Proof. unfold outputs. rewrite !elem_of_union, !elem_of_singleton. auto. Qed.

Lemma results_not_plot base : base +:+ "_results.pkl" <> base +:+ "_model_plot.png".
Proof. intros H. by apply (inj (String.app base)) in H. Qed.

Lemma triple_bind {A B} (c : M A) (k : A -> M B) P R Q E :
  triple P c R E -> (forall a, triple (R a) (k a) Q E) -> triple P (c ≫= k) Q E.
Proof.
  intros Hc Hk w Hw. rewrite run_bind. specialize (Hc w Hw).
  destruct (c w) as [w' [a|e]]; [|done]. by apply Hk.
Qed.

Lemma triple_conseq {A} (c : M A) (P P' : world -> Prop) (Q Q' : A -> world -> Prop)
    (E E' : world -> Prop) :
  triple P c Q E ->
  (forall w, P' w -> P w) -> (forall a w, Q a w -> Q' a w) -> (forall w, E w -> E' w) ->
  triple P' c Q' E'.
Proof.
  intros Hc HP HQ HE w Hw. specialize (Hc w (HP w Hw)).
  destruct (c w) as [w' [a|e]]; auto.
Qed.

Lemma triple_ret {A} (a : A) (P : world -> Prop) Q E :
  (forall w, P w -> Q a w) -> triple P (mret a) Q E.
Proof. intros H w Hw. rewrite run_ret. auto. Qed.

(** A pure fact of the precondition can be used outside the triple. *)
Lemma triple_pure {A} (c : M A) (P : world -> Prop) (F : Prop) Q E :
  (F -> triple P c Q E) -> triple (fun w => P w /\ F) c Q E.
Proof. intros H w [Hw HF]. by apply H. Qed.

Ltac solve_trainable :=
  first [ done
        | intros; eapply trainable_attr; [solve [in_list]|eassumption]
        | intros; eapply ready_attr; [solve [in_list]|by apply trainable_ready] ].

Section Running.

Context (a0 : gmap string value) (fs0 : gset string) (tr0 : list event).

Local Abbreviation plot := (base_name a0 +:+ "_model_plot.png").
Local Abbreviation results := (base_name a0 +:+ "_results.pkl").

Lemma skipping_running w : skipping a0 fs0 tr0 plot w -> running a0 fs0 tr0 0 w.
Proof.
  intros (Hargs & Hr & Hfs & evs & Htr & Hevs). split_and!; try done.
  - destruct Hfs as [->|[_ ->]]; [done|]. apply union_subseteq_r.
  - destruct Hfs as [->|[_ ->]]; [apply union_subseteq_l|].
    apply union_least; [|apply union_subseteq_l].
    apply singleton_subseteq_l, elem_of_union_r, plot_in_outputs.
  - exists evs. split; [done|]. split_and!; intros; lia.
Qed.

Lemma running_stage s s' w :
  (s' <= s)%nat -> running a0 fs0 tr0 s w -> running a0 fs0 tr0 s' w.
Proof.
  intros Hs (Hargs & Hr & Hsub & Hsup & evs & Htr & H1 & H2 & H3 & H4).
  split_and!; try done. exists evs. split; [done|].
  split_and!; intros; [apply H1|apply H2|apply H3|apply H4]; lia.
Qed.

Lemma skipping_failed w :
  skipping a0 fs0 tr0 plot w /\ ~ ready a0 -> failed a0 fs0 tr0 w.
Proof.
  intros [Hw Hn]. split_and!; [by apply skipping_running| |by left].
  intros Ht. by apply Hn, trainable_ready.
Qed.

(** A step that keeps the run in the phase before the check. *)
Lemma triple_safe_bind {A B} (c : M A) (k : A -> M B) (R : A -> Prop) Q :
  safe a0 fs0 tr0 plot c R ->
  (forall a, R a -> triple (skipping a0 fs0 tr0 plot) (k a) Q (failed a0 fs0 tr0)) ->
  triple (skipping a0 fs0 tr0 plot) (c ≫= k) Q (failed a0 fs0 tr0).
Proof.
  intros Hc Hk w Hw. rewrite run_bind. specialize (Hc w Hw).
  destruct (c w) as [w' [a|e]].
  - destruct Hc as [Hw' Ha]. by apply Hk.
  - by apply skipping_failed.
Qed.

Lemma running_emit s e w :
  running a0 fs0 tr0 s w ->
  running a0 fs0 tr0 s (World (w_args w) (w_fs w) (w_trace w ++ [e])).
Proof.
  intros (Hargs & Hr & Hsub & Hsup & evs & Htr & H1 & H2 & H3 & H4).
  split_and!; try done. exists (evs ++ [e]). cbn [w_trace w_fs].
  split; [by rewrite Htr, app_assoc|].
  split_and!; [| |done|].
  - intros Hs. destruct (H1 Hs) as (p & nm & cfg & Hin). exists p, nm, cfg.
    apply elem_of_app. by left.
  - intros Hs. destruct (H2 Hs) as (ep & st & v & Hin). exists ep, st, v.
    apply elem_of_app. by left.
  - intros Hs. apply elem_of_app. left. by apply H4.
Qed.

Lemma running_write s path w :
  path ∈ outputs (base_name a0) ->
  running a0 fs0 tr0 s w ->
  running a0 fs0 tr0 s (World (w_args w) ({[path]} ∪ w_fs w) (w_trace w)).
Proof.
  intros Hpath (Hargs & Hr & Hsub & Hsup & evs & Htr & H1 & H2 & H3 & H4).
  split_and!; try done; cbn [w_fs].
  - etrans; [exact Hsub|apply union_subseteq_r].
  - apply union_least; [|done]. by apply singleton_subseteq_l, elem_of_union_r.
  - exists evs. split; [done|]. split_and!; try done.
    intros Hs. by apply elem_of_union_r, H3.
Qed.

Lemma keeps_bind {A B} s (c : M A) (k : A -> M B) (R : A -> Prop) Q :
  keeps a0 fs0 tr0 s c R ->
  (forall a, R a -> triple (running a0 fs0 tr0 s) (k a) Q
                           (fun w => running a0 fs0 tr0 0 w /\ ~ trainable a0)) ->
  triple (running a0 fs0 tr0 s) (c ≫= k) Q
         (fun w => running a0 fs0 tr0 0 w /\ ~ trainable a0).
Proof.
  intros Hc Hk w Hw. rewrite run_bind. specialize (Hc w Hw).
  destruct (c w) as [w' [a|e]]; [|done]. destruct Hc as [Hw' Ha]. by apply Hk.
Qed.

Lemma keeps_ret {A} s (a : A) (Q : A -> Prop) : Q a -> keeps a0 fs0 tr0 s (mret a) Q.
Proof. intros Ha w Hw. by rewrite run_ret. Qed.

Lemma keeps_raise {A} s e (Q : A -> Prop) :
  ~ trainable a0 -> keeps a0 fs0 tr0 s (raise e) Q.
Proof.
  intros Hn w Hw. rewrite run_raise. split; [|done].
  apply (running_stage s); [lia|done].
Qed.

Lemma keeps_getattr s k :
  k <> "rotation" -> k <> "batch" -> (trainable a0 -> is_Some (a0 !! k)) ->
  keeps a0 fs0 tr0 s (getattr k) (fun v => a0 !! k = Some v).
Proof.
  intros Hk1 Hk2 Ht w Hw. pose proof Hw as (Hargs & _).
  unfold getattr. rewrite (Hargs k) by done.
  destruct (a0 !! k) eqn:Hv; [done|]. split; [apply (running_stage s); [lia|done]|].
  intros [v Hv']%Ht. congruence.
Qed.

Lemma keeps_emit s e : keeps a0 fs0 tr0 s (emit e) (fun _ => True).
Proof. intros w Hw. rewrite run_emit. split; [|done]. by apply running_emit. Qed.

Lemma keeps_write_file s path :
  path ∈ outputs (base_name a0) -> keeps a0 fs0 tr0 s (write_file path) (fun _ => True).
Proof.
  intros Hpath w Hw. rewrite run_write_file. split; [|done]. by apply running_write.
Qed.

Lemma keeps_vars s : keeps a0 fs0 tr0 s vars (fun _ => True).
Proof. intros w Hw. unfold vars. done. Qed.

Lemma keeps_py_ge s v c :
  (trainable a0 -> is_Some (as_number v)) -> keeps a0 fs0 tr0 s (py_ge v c) (fun _ => True).
Proof.
  intros Hv w Hw. unfold py_ge. destruct (as_number v); [done|].
  rewrite run_raise. split; [apply (running_stage s); [lia|done]|].
  intros [? [=]]%Hv.
Qed.

Lemma keeps_fmt_d s v :
  (trainable a0 -> exists z, v = VInt z) -> keeps a0 fs0 tr0 s (fmt_d v) (fun _ => True).
Proof.
  intros Hv w Hw. unfold fmt_d.
  destruct v as [|b|z|[| |q]|str];
    first [ by rewrite run_ret
          | rewrite run_raise; split; [apply (running_stage s); [lia|done]|];
            intros [z Hz]%Hv; discriminate ].
Qed.

Lemma keeps_print_if_verbose s level line :
  keeps a0 fs0 tr0 s (print_if_verbose level line) (fun _ => True).
Proof.
  unfold print_if_verbose.
  eapply keeps_bind.
  { apply (keeps_getattr s "verbose"); [done|done|].
    intros ((_ & _ & [v ->] & _) & _). eauto. }
  intros v Hv. eapply keeps_bind.
  { apply keeps_py_ge. intros ((_ & _ & [z Hz] & _) & _).
    rewrite Hz in Hv. injection Hv as <-. simpl. eauto. }
  intros [] _; [apply keeps_emit|by apply keeps_ret].
Qed.

Lemma keeps_method s (model : option unit) name (call : M unit) (Q : unit -> Prop) :
  (trainable a0 -> is_Some model) ->
  keeps a0 fs0 tr0 s call Q -> keeps a0 fs0 tr0 s (method model name call) Q.
Proof.
  intros Hm Hcall. destruct model; [done|].
  apply keeps_raise. intros [? [=]]%Hm.
Qed.

Lemma keeps_generate_fname s params_str :
  is_Some (a0 !! "results_path") -> is_Some (a0 !! "exp_type") ->
  keeps a0 fs0 tr0 s (generate_fname params_str) (fun fbase => fbase = base_name a0).
Proof.
  intros Hrp Het w Hw. rewrite run_generate_fname.
  pose proof Hw as (Hargs & _). unfold base_name, fname_outcome.
  rewrite !Hargs by done. destruct Hrp as [rp ->], Het as [et ->]. done.
Qed.

(** An event that takes the run to the next stage. *)
Lemma running_emit_stage s s' e w :
  running a0 fs0 tr0 s w ->
  ((1 <= s')%nat ->
   (1 <= s)%nat \/ exists project name config, e = WandbInit project name (base_name a0) config) ->
  ((2 <= s')%nat -> (2 <= s)%nat \/ exists epochs steps verbose, e = Fit epochs steps verbose) ->
  ((3 <= s')%nat -> (3 <= s)%nat) ->
  ((4 <= s')%nat -> (4 <= s)%nat \/ e = PickleDump results) ->
  running a0 fs0 tr0 s' (World (w_args w) (w_fs w) (w_trace w ++ [e])).
Proof.
  intros (Hargs & Hr & Hsub & Hsup & evs & Htr & H1 & H2 & H3 & H4) G1 G2 G3 G4.
  split_and!; try done. exists (evs ++ [e]). cbn [w_trace w_fs].
  split; [by rewrite Htr, app_assoc|].
  split_and!.
  - intros Hs. destruct (G1 Hs) as [Hs1|(p & nm & cfg & ->)].
    + destruct (H1 Hs1) as (p & nm & cfg & Hin). exists p, nm, cfg.
      apply elem_of_app. by left.
    + exists p, nm, cfg. apply elem_of_app. right. apply list_elem_of_here.
  - intros Hs. destruct (G2 Hs) as [Hs2|(ep & st & v & ->)].
    + destruct (H2 Hs2) as (ep & st & v & Hin). exists ep, st, v.
      apply elem_of_app. by left.
    + exists ep, st, v. apply elem_of_app. right. apply list_elem_of_here.
  - intros Hs. by apply H3, G3.
  - intros Hs. apply elem_of_app. destruct (G4 Hs) as [Hs4| ->].
    + left. by apply H4.
    + right. apply list_elem_of_here.
Qed.

Lemma advance_init project name config :
  triple (running a0 fs0 tr0 0) (emit (WandbInit project name (base_name a0) config))
         (fun _ w => running a0 fs0 tr0 1 w)
         (fun w => running a0 fs0 tr0 0 w /\ ~ trainable a0).
Proof.
  intros w Hw. rewrite run_emit.
  apply (running_emit_stage 0 1 _ w Hw); intros; first [lia | eauto].
Qed.

Lemma advance_fit epochs steps verbose :
  triple (running a0 fs0 tr0 1) (emit (Fit epochs steps verbose))
         (fun _ w => running a0 fs0 tr0 2 w)
         (fun w => running a0 fs0 tr0 0 w /\ ~ trainable a0).
Proof.
  intros w Hw. rewrite run_emit.
  apply (running_emit_stage 1 2 _ w Hw); intros; first [lia | left; lia | eauto].
Qed.

Lemma advance_results :
  triple (running a0 fs0 tr0 2) (write_file results)
         (fun _ w => running a0 fs0 tr0 3 w)
         (fun w => running a0 fs0 tr0 0 w /\ ~ trainable a0).
Proof.
  intros w Hw. rewrite run_write_file.
  apply (running_write 2 results) in Hw; [|apply results_in_outputs].
  destruct Hw as (Hargs & Hr & Hsub & Hsup & evs & Htr & H1 & H2 & H3 & H4).
  split_and!; try done. exists evs. split; [done|].
  split_and!; intros; [apply H1|apply H2| |]; try lia.
  cbn [w_fs]. apply elem_of_union_l. by apply elem_of_singleton.
Qed.

Lemma advance_dump :
  triple (running a0 fs0 tr0 3) (emit (PickleDump results))
         (fun _ w => running a0 fs0 tr0 4 w)
         (fun w => running a0 fs0 tr0 0 w /\ ~ trainable a0).
Proof.
  intros w Hw. rewrite run_emit.
  apply (running_emit_stage 3 4 _ w Hw); intros; first [lia | left; lia | eauto].
Qed.

Lemma advance_finish :
  triple (running a0 fs0 tr0 4) (emit WandbFinish)
         (fun _ w => running a0 fs0 tr0 4 w /\ last (w_trace w) = Some WandbFinish)
         (fun w => running a0 fs0 tr0 0 w /\ ~ trainable a0).
Proof.
  intros w Hw. rewrite run_emit. split; [by apply running_emit|].
  cbn [w_trace]. apply last_snoc.
Qed.

(** The part of a run after the check: it either goes through tracking,
    fitting and dumping the results, or raises on a Namespace that is not
    [trainable]. *)
Lemma run_train_and_save model args_str :
  is_Some (a0 !! "results_path") -> is_Some (a0 !! "exp_type") ->
  (trainable a0 -> is_Some model) ->
  triple (running a0 fs0 tr0 0) (train_and_save model args_str (base_name a0))
         (fun r w => running a0 fs0 tr0 4 w /\ last (w_trace w) = Some WandbFinish /\
                     r = model /\ is_Some r)
         (fun w => running a0 fs0 tr0 0 w /\ ~ trainable a0).
Proof.
  intros Hrp Het Hmodel. unfold train_and_save.
  eapply keeps_bind; [apply (keeps_getattr 0 "project"); solve_trainable|].
  intros project _.
  eapply keeps_bind; [apply (keeps_getattr 0 "label"); solve_trainable|].
  intros label _.
  eapply keeps_bind.
  { apply (keeps_getattr 0 "fold"); [done|done|]. intros (_ & [f ->] & _). eauto. }
  intros fold Hfold.
  eapply keeps_bind.
  { apply keeps_fmt_d. intros (_ & [f Hf] & _). exists f. congruence. }
  intros fold_str _.
  eapply keeps_bind; [apply keeps_vars|]. intros config _.
  eapply triple_bind; [apply advance_init|]. intros [].
  eapply keeps_bind; [apply keeps_emit|]. intros _ _.
  eapply keeps_bind; [apply (keeps_getattr 1 "render"); solve_trainable|].
  intros render _.
  eapply (keeps_bind 1 _ _ (fun _ => True)).
  { destruct (truthy render); [apply keeps_emit|by apply keeps_ret]. }
  intros _ _.
  eapply keeps_bind; [apply (keeps_getattr 1 "patience"); solve_trainable|].
  intros patience _.
  eapply keeps_bind; [apply (keeps_getattr 1 "min_delta"); solve_trainable|].
  intros min_delta _.
  eapply keeps_bind; [apply (keeps_getattr 1 "monitor"); solve_trainable|].
  intros monitor _.
  eapply keeps_bind; [apply keeps_emit|]. intros _ _.
  eapply keeps_bind; [apply keeps_emit|]. intros _ _.
  eapply keeps_bind; [apply keeps_print_if_verbose|]. intros _ _.
  destruct model as [m|]; cbn [method].
  2:{ eapply (keeps_bind 1 _ _ (fun _ => False)); [|by intros _ []].
      apply keeps_raise. intros [? [=]]%Hmodel. }
  eapply triple_bind.
  { instantiate (1 := fun _ w => running a0 fs0 tr0 2 w).
    eapply keeps_bind; [apply (keeps_getattr 1 "epochs"); solve_trainable|].
    intros epochs _.
    eapply keeps_bind; [apply (keeps_getattr 1 "steps_per_epoch"); solve_trainable|].
    intros steps_per_epoch _.
    eapply keeps_bind.
    { apply (keeps_getattr 1 "verbose"); [done|done|].
      intros ((_ & _ & [v ->] & _) & _). eauto. }
    intros v Hv.
    eapply keeps_bind.
    { apply keeps_py_ge. intros ((_ & _ & [z Hz] & _) & _).
      rewrite Hz in Hv. injection Hv as <-. simpl. eauto. }
    intros verbose _. apply advance_fit. }
  intros [].
  eapply (keeps_bind 2 _ _ (fun _ => True)).
  { destruct ds_testing_present; [|by apply keeps_ret].
    eapply keeps_bind; [apply keeps_emit|]. intros _ _.
    eapply keeps_bind; [apply keeps_emit|]. intros _ _.
    eapply keeps_bind; [apply keeps_emit|]. intros _ _.
    eapply keeps_bind; [apply keeps_emit|]. intros _ _.
    apply keeps_emit. }
  intros _ _.
  eapply keeps_bind; [by apply keeps_generate_fname|]. intros fbase ->.
  eapply triple_bind; [apply advance_results|]. intros [].
  eapply triple_bind; [apply advance_dump|]. intros [].
  eapply keeps_bind; [apply (keeps_getattr 4 "save_model"); solve_trainable|].
  intros save_model _.
  eapply (keeps_bind 4 _ _ (fun _ => True)).
  { destruct (truthy save_model); [|by apply keeps_ret].
    eapply keeps_bind; [apply keeps_emit|]. intros _ _.
    apply keeps_write_file, model_in_outputs. }
  intros _ _.
  eapply triple_bind; [apply advance_finish|]. intros [].
  apply triple_ret. intros w [Hw Hlast]. eauto.
Qed.

Lemma safe_generate_fname_any params_str :
  safe a0 fs0 tr0 plot (generate_fname params_str)
       (fun fbase => fname_outcome a0 = Return fbase).
Proof.
  unfold generate_fname.
  eapply safe_bind; [apply (safe_getattr _ _ _ _ "results_path"); solve_ready|].
  intros v1 Hv1.
  eapply safe_bind.
  { apply (safe_getattr _ _ _ _ "exp_type"); [done|done|]. intros (-> & _). eauto. }
  intros v2 Hv2. apply safe_ret. unfold fname_outcome. by rewrite Hv1, Hv2.
Qed.

Lemma safe_create_classifier_network_rnn :
  safe a0 fs0 tr0 plot create_classifier_network
       (fun model => (ready a0 -> is_Some model) /\
                     (is_Some model -> a0 !! "exp_type" = Some (VStr "rnn"))).
Proof.
  unfold create_classifier_network.
  assert (Hexp : ready a0 -> is_Some (a0 !! "exp_type")).
  { intros (-> & _). eauto. }
  eapply safe_bind; [by apply (safe_getattr _ _ _ _ "exp_type")|].
  intros v Hv. destruct (eq_str v "rnn") eqn:Hrnn.
  - apply eq_str_true in Hrnn as ->.
    eapply safe_bind.
    { apply safe_getattrs. repeat (constructor; [split; [in_list|done]|]). constructor. }
    intros params _. eapply safe_bind; [by apply safe_emit|].
    intros _ _. apply safe_ret. eauto.
  - assert (Hnot : ~ ready a0).
    { intros (Het & _). rewrite Het in Hv. injection Hv as <-. done. }
    eapply safe_bind; [by apply (safe_getattr _ _ _ _ "exp_type")|].
    intros v' _. destruct (eq_str v' "cnn").
    { apply safe_ret. split; [done|]. by intros [? [=]]. }
    eapply safe_bind; [by apply (safe_getattr _ _ _ _ "exp_type")|].
    intros v'' _. by apply safe_raise.
Qed.

Lemma triple_path_exists_results :
  triple (skipping a0 fs0 tr0 plot) (path_exists results)
         (fun present w => skipping a0 fs0 tr0 plot w /\ (present = true <-> results ∈ fs0))
         (failed a0 fs0 tr0).
Proof.
  intros w Hw. rewrite run_path_exists. split; [done|].
  rewrite bool_decide_eq_true.
  destruct Hw as (_ & _ & [->|[_ ->]] & _); [done|].
  rewrite elem_of_union, elem_of_singleton. split; [|auto].
  intros [H|H]; [|done]. by apply results_not_plot in H.
Qed.

(** A run of [execute_exp] from its first statement: it stops at the check
    with nothing of tracking, training or saving done, or goes through a
    whole run, or fails. *)
Lemma run_execute_exp n :
  triple (skipping a0 fs0 tr0 plot) (execute_exp false n)
         (fun r w =>
            match r with
            | None => skipping a0 fs0 tr0 plot w /\ stops_at_check a0 fs0
            | Some _ =>
                running a0 fs0 tr0 4 w /\ last (w_trace w) = Some WandbFinish /\
                passes_check a0 fs0 /\ a0 !! "exp_type" = Some (VStr "rnn")
            end)
         (failed a0 fs0 tr0).
Proof.
  unfold execute_exp.
  eapply (triple_safe_bind _ _ (fun _ => True)); [by apply safe_ret|]. intros _ _.
  eapply triple_safe_bind.
  { apply (safe_getattr _ _ _ _ "exp_index"); [done|done|].
    intros (_ & [->|(i & -> & _)] & _); eauto. }
  intros exp_index _.
  eapply triple_safe_bind; [by apply safe_emit|]. intros _ _.
  eapply triple_safe_bind; [apply safe_augment_args|]. intros args_str _.
  eapply (triple_safe_bind _ _ (fun _ => True)).
  { case_bool_decide; [|by apply safe_ret].
    eapply safe_bind; [apply safe_getattr_batch|]. intros batch Hbatch.
    eapply safe_bind; [by apply safe_py_mul|]. intros scaled Hscaled.
    by apply safe_setattr_batch. }
  intros _ _.
  eapply triple_safe_bind; [apply safe_getattr_batch|]. intros batch _.
  eapply triple_safe_bind; [by apply safe_emit|]. intros _ _.
  eapply triple_safe_bind; [apply safe_print_if_verbose|]. intros _ _.
  eapply triple_safe_bind; [apply (safe_getattr _ _ _ _ "dataset"); solve_ready|].
  intros dataset _.
  eapply triple_safe_bind; [apply safe_getattr_rotation|]. intros rotation _.
  eapply triple_safe_bind; [by apply safe_emit|]. intros _ _.
  eapply triple_safe_bind; [apply safe_getattr_batch|]. intros batch' _.
  eapply triple_safe_bind; [apply (safe_getattr _ _ _ _ "prefetch"); solve_ready|].
  intros prefetch _.
  eapply triple_safe_bind; [apply (safe_getattr _ _ _ _ "shuffle"); solve_ready|].
  intros shuffle _.
  eapply triple_safe_bind; [apply (safe_getattr _ _ _ _ "repeat"); solve_ready|].
  intros repeat _.
  eapply triple_safe_bind; [apply (safe_getattr _ _ _ _ "cache"); solve_ready|].
  intros cache _.
  eapply triple_safe_bind; [by apply safe_emit|]. intros _ _.
  eapply triple_safe_bind; [apply safe_print_if_verbose|]. intros _ _.
  eapply (triple_safe_bind _ _
            (fun model => (ready a0 -> is_Some model) /\
                          (is_Some model -> a0 !! "exp_type" = Some (VStr "rnn")))).
  { case_bool_decide; [|apply safe_create_classifier_network_rnn].
    eapply safe_bind; [by apply safe_emit|]. intros _ _.
    apply safe_create_classifier_network_rnn. }
  intros model [Hmodel Hrnn].
  eapply triple_safe_bind.
  { apply (safe_getattr _ _ _ _ "verbose"); [done|done|].
    intros (_ & _ & [v ->] & _). eauto. }
  intros verbose Hverbose.
  eapply triple_safe_bind.
  { apply safe_py_ge. intros (_ & _ & [z Hz] & _).
    rewrite Hz in Hverbose. injection Hverbose as <-. simpl. eauto. }
  intros summary _.
  eapply (triple_safe_bind _ _ (fun _ => True)).
  { destruct summary; [|by apply safe_ret].
    eapply safe_bind; [by apply safe_method, safe_emit|]. intros _ _.
    by apply safe_emit. }
  intros _ _.
  eapply (triple_safe_bind _ _ (fun _ => True)).
  { intros w Hw. unfold vars. done. }
  intros ns _.
  eapply triple_safe_bind; [by apply safe_emit|]. intros _ _.
  eapply triple_safe_bind; [apply safe_generate_fname_any|]. intros fbase Hfbase.
  pose proof (base_name_Return _ _ Hfbase) as <-.
  destruct (fname_outcome_attrs _ _ Hfbase) as [Hrp Het].
  eapply triple_safe_bind; [by apply safe_emit|]. intros _ _.
  eapply triple_safe_bind; [apply (safe_getattr _ _ _ _ "render"); solve_ready|].
  intros render Hrender. cbv beta in Hrender.
  eapply (triple_safe_bind _ _ (fun _ => True)).
  { destruct (truthy render) eqn:Htruthy; [|by apply safe_ret].
    unfold plot_model. apply safe_method; [done|].
    eapply safe_bind; [by apply safe_emit|]. intros _ _.
    apply safe_write_plot. by exists render. }
  intros _ _.
  eapply triple_safe_bind; [apply (safe_getattr _ _ _ _ "nogo"); solve_ready|].
  intros nogo Hnogo. cbv beta in Hnogo.
  destruct (truthy nogo) eqn:Hnogo_set.
  { eapply triple_safe_bind; [by apply safe_emit|]. intros _ _.
    eapply triple_safe_bind; [by apply safe_emit|]. intros _ _.
    apply triple_ret. intros w Hw. split; [done|]. left. by exists nogo. }
  eapply triple_safe_bind; [apply (safe_getattr _ _ _ _ "force"); solve_ready|].
  intros force Hforce. cbv beta in Hforce.
  assert (Htrain : passes_check a0 fs0 ->
            triple (skipping a0 fs0 tr0 plot) (train_and_save model args_str (base_name a0))
              (fun r w =>
                 match r with
                 | None => skipping a0 fs0 tr0 plot w /\ stops_at_check a0 fs0
                 | Some _ =>
                     running a0 fs0 tr0 4 w /\ last (w_trace w) = Some WandbFinish /\
                     passes_check a0 fs0 /\ a0 !! "exp_type" = Some (VStr "rnn")
                 end)
              (failed a0 fs0 tr0)).
  { intros Hpass. eapply triple_conseq.
    - apply (run_train_and_save model args_str Hrp Het).
      intros Ht. by apply Hmodel, trainable_ready.
    - apply skipping_running.
    - intros r w (Hw & Hlast & -> & Hsome). destruct model; [|by destruct Hsome].
      auto.
    - intros w [Hw Hn]. split_and!; [done|done|by right]. }
  destruct (truthy force) eqn:Hforce_set; cbn [negb].
  { eapply (triple_safe_bind _ _ (fun present => present = false)); [by apply safe_ret|].
    intros present ->. apply Htrain. split_and!; [by exists nogo| |done|done].
    left. by exists force. }
  eapply triple_bind; [apply triple_path_exists_results|].
  intros present. apply triple_pure. intros Hpresent. destruct present.
  - eapply triple_safe_bind; [by apply safe_emit|]. intros _ _.
    apply triple_ret. intros w Hw. split; [done|]. right.
    split_and!; [by exists nogo|by exists force|by apply Hpresent].
  - apply Htrain. split_and!; [by exists nogo| |done|done].
    right. split; [by exists force|]. intros Hin. by apply Hpresent in Hin.
Qed.

End Running.

Lemma skipping_start a0 fs0 tr0 plot : skipping a0 fs0 tr0 plot (World a0 fs0 tr0).
Proof.
  split_and!; cbn [w_args w_fs w_trace]; try done.
  - intros (_ & _ & _ & Hbatch & Hall). split; [|done].
    rewrite Forall_forall in Hall. apply Hall. in_list.
  - by left.
  - exists []. by rewrite app_nil_r.
Qed.


(** The three ways a call of [execute_exp] ends. *)
Lemma execute_exp_cases (args_is_none : bool) n w :
  let a0 := if args_is_none then default_args else w_args w in
  match execute_exp args_is_none n w with
  | (w', Return None) =>
      skipping a0 (w_fs w) (w_trace w) (base_name a0 +:+ "_model_plot.png") w' /\
      stops_at_check a0 (w_fs w)
  | (w', Return (Some _)) =>
      running a0 (w_fs w) (w_trace w) 4 w' /\ last (w_trace w') = Some WandbFinish /\
      passes_check a0 (w_fs w) /\ a0 !! "exp_type" = Some (VStr "rnn")
  | (w', Raise _) => failed a0 (w_fs w) (w_trace w) w'
  end.
Proof.
  intros a0.
  assert (Hstart : execute_exp args_is_none n w =
                   execute_exp false n (World a0 (w_fs w) (w_trace w))).
  { subst a0. destruct args_is_none; [apply execute_exp_defaults|by destruct w]. }
  rewrite Hstart.
  pose proof (run_execute_exp a0 (w_fs w) (w_trace w) n _ (skipping_start _ _ _ _)) as H.
  destruct (execute_exp false n _) as [w' [[m|]|e]]; done.
Qed.



(** X2: when [execute_exp] returns a network, the experiment type is
    ['rnn'], [nogo] was not set and [force] was set or there was no results
    file; the results file is on disk afterwards, and the events appended to
    the trace contain the initialisation of the tracking with the base name
    as notes, the fit of the network and the dump into the results file, and
    end with the finish of the tracking. *)
Theorem execute_exp_returns_trained_network (args_is_none : bool) n w w' m :
  let a0 := if args_is_none then default_args else w_args w in
  execute_exp args_is_none n w = (w', Return (Some m)) ->
  a0 !! "exp_type" = Some (VStr "rnn") /\
  passes_check a0 (w_fs w) /\
  base_name a0 +:+ "_results.pkl" ∈ w_fs w' /\
  exists evs, w_trace w' = w_trace w ++ evs /\
    (exists project name config, WandbInit project name (base_name a0) config ∈ evs) /\
    (exists epochs steps verbose, Fit epochs steps verbose ∈ evs) /\
    PickleDump (base_name a0 +:+ "_results.pkl") ∈ evs /\
    last evs = Some WandbFinish.
Proof.
  intros a0 Hrun. pose proof (execute_exp_cases args_is_none n w) as H.
  cbv zeta in H. fold a0 in H. rewrite Hrun in H.
  destruct H as ((_ & _ & _ & _ & evs & Htr & Hinit & Hfit & Hfile & Hdump) &
                 Hlast & Hpass & Het).
  split_and!; [done|done|by apply Hfile; lia|].
  exists evs. split_and!; [done|by apply Hinit; lia|by apply Hfit; lia|by apply Hdump; lia|].
  rewrite Htr, last_app in Hlast. destruct (last evs) eqn:Hevs; [done|].
  apply last_None in Hevs. subst evs.
  assert (Hin : PickleDump (base_name a0 +:+ "_results.pkl") ∈ []) by (apply Hdump; lia).
  by apply elem_of_nil in Hin.
Qed.

(** X3: [execute_exp] returns [None] only at its check: [nogo] is set, or
    [force] is not set and the results file was already there.  Nothing of
    tracking, training or saving is then in the trace, and the file system
    is as it was but for the picture of the network, written only when
    [render] is set. *)
Theorem execute_exp_returns_None_at_check (args_is_none : bool) n w w' :
  let a0 := if args_is_none then default_args else w_args w in
  execute_exp args_is_none n w = (w', Return None) ->
  stops_at_check a0 (w_fs w) /\
  (exists evs, w_trace w' = w_trace w ++ evs /\
               Forall (fun e => run_event e = false) evs) /\
  (w_fs w' = w_fs w \/
   (exists v, a0 !! "render" = Some v /\ truthy v = true) /\
   w_fs w' = {[base_name a0 +:+ "_model_plot.png"]} ∪ w_fs w).
Proof.
  intros a0 Hrun. pose proof (execute_exp_cases args_is_none n w) as H.
  cbv zeta in H. fold a0 in H. rewrite Hrun in H.
  by destruct H as ((_ & _ & Hfs & Htr) & Hstop).
Qed.


(** X5: [nogo] comes first.  On a [ready] Namespace with [nogo] set,
    [execute_exp] returns [None] without tracking, training or saving
    anything, whether [force] is set or not and whether the results file
    exists or not. *)
Theorem execute_exp_nogo (args_is_none : bool) n w v :
  let a0 := if args_is_none then default_args else w_args w in
  let r := execute_exp args_is_none n w in
  ready a0 -> a0 !! "nogo" = Some v -> truthy v = true ->
  r.2 = Return None /\
  (exists evs, w_trace r.1 = w_trace w ++ evs /\
               Forall (fun e => run_event e = false) evs) /\
  (base_name a0 +:+ "_results.pkl" ∈ w_fs r.1 <->
   base_name a0 +:+ "_results.pkl" ∈ w_fs w).
Proof.
  intros a0 r Hr Hv Hset. pose proof (execute_exp_cases args_is_none n w) as H.
  cbv zeta in H. fold a0 r in H.
  assert (Hnot : ~ passes_check a0 (w_fs w)).
  { intros ((v' & Hv' & Hunset) & _). congruence. }
  destruct r as [w' [[m|]|e]]; cbn [fst snd].
  - by destruct H as (_ & _ & Hpass & _).
  - destruct H as ((_ & _ & Hfs & Htr) & _). split_and!; [done|done|].
    destruct Hfs as [->|[_ ->]]; [done|].
    rewrite elem_of_union, elem_of_singleton. split; [|auto].
    intros [Heq|Hin]; [|done]. by apply results_not_plot in Heq.
  - destruct H as (_ & _ & [[_ Hn]|Hpass]); done.
Qed.



(** ** The Namespace that a run leaves *)

Lemma run_augment_args a fs tr :
  augment_args (World a fs tr) =
  (World (override (augment_outcome a).1.1 a) fs (tr ++ (augment_outcome a).1.2),
   (augment_outcome a).2).
Proof.
  unfold augment_outcome.
  destruct (hyperparameters_outcome a) as [p|e] eqn:Hp.
  2:{ unfold augment_args. mrun. by rewrite app_nil_r. }
  pose proof Hp as [-> _]%hyperparameters_outcome_Return.
  cbv zeta. rewrite rotation_set_njobs.
  destruct (a !! "exp_index") as [v|] eqn:Hi.
  2:{ unfold augment_args. mrun. by rewrite app_nil_r. }
  destruct v as [|b|i|f|s].
  - rewrite (run_augment_args_None _ rotation_set) by done. cbn. by rewrite app_nil_r.
  - rewrite (run_augment_args_index _ rotation_set (VBool b) (if b then 1 else 0));
      [|done|done|by destruct b; auto].
    cbv zeta.
    rewrite rotation_set_njobs, !bool_decide_true, rotation_set_get_index
      by (by destruct b).
    cbn [w_args w_fs w_trace set_combination foldl fst snd override].
    rewrite <- app_assoc. reflexivity.
  - rewrite (run_augment_args_index _ rotation_set (VInt i) i) by auto. cbv zeta.
    rewrite rotation_set_njobs. case_bool_decide; [|done].
    rewrite rotation_set_get_index by done.
    cbn [w_args w_fs w_trace set_combination foldl fst snd override].
    rewrite <- app_assoc. reflexivity.
  - unfold augment_args. mrun. rewrite rotation_set_njobs.
    destruct (float_leb (lit 0) f); mrun; [|done].
    destruct (float_ltb f (lit 5)); by mrun.
  - unfold augment_args. by mrun.
Qed.

Lemma augment_outcome_agree a b :
  a !! "exp_type" = b !! "exp_type" -> a !! "expt_type" = b !! "expt_type" ->
  a !! "exp_index" = b !! "exp_index" ->
  augment_outcome a = augment_outcome b.
Proof.
  intros H1 H2 H3. unfold augment_outcome, hyperparameters_outcome.
  by rewrite H1, H2, H3.
Qed.

Lemma override_lookup upd a k : k <> "rotation" -> override upd a !! k = a !! k.
Proof. intros Hk. destruct upd; [|done]. by apply lookup_insert_ne. Qed.

Lemma override_idemp upd a : override upd (override upd a) = override upd a.
Proof. destruct upd; [|done]. apply insert_insert_eq. Qed.

(** X7: [augment_args] is idempotent.  On every Namespace, a second call
    right after a first one has the same outcome (the same parameter string
    or the same exception) and leaves the Namespace as the first call left
    it; neither call touches the file system. *)
Theorem augment_args_idempotent w :
  let r1 := augment_args w in
  let r2 := augment_args r1.1 in
  r2.2 = r1.2 /\ w_args r2.1 = w_args r1.1 /\ w_fs r2.1 = w_fs w.
Proof.
  destruct w as [a fs tr]. cbv zeta. rewrite run_augment_args. cbn [fst snd].
  rewrite run_augment_args. cbn [fst snd w_args w_fs].
  rewrite (augment_outcome_agree (override _ a) a) by (by apply override_lookup).
  by rewrite override_idemp.
Qed.

(** X8: [augment_args] reads three attributes only, [exp_type], [expt_type]
    and [exp_index].  On two worlds whose Namespaces agree on these it has
    the same outcome, prints the same lines and applies the same override of
    [rotation], whatever the other attributes, the file systems and the
    traces. *)
Theorem augment_args_reads_three_attributes w1 w2 :
  w_args w1 !! "exp_type" = w_args w2 !! "exp_type" ->
  w_args w1 !! "expt_type" = w_args w2 !! "expt_type" ->
  w_args w1 !! "exp_index" = w_args w2 !! "exp_index" ->
  (augment_args w1).2 = (augment_args w2).2 /\
  exists upd evs,
    w_args (augment_args w1).1 = override upd (w_args w1) /\
    w_args (augment_args w2).1 = override upd (w_args w2) /\
    w_trace (augment_args w1).1 = w_trace w1 ++ evs /\
    w_trace (augment_args w2).1 = w_trace w2 ++ evs.
Proof.
  destruct w1 as [a1 fs1 tr1], w2 as [a2 fs2 tr2]. cbn [w_args w_trace].
  intros H1 H2 H3. rewrite !run_augment_args. cbn [fst snd w_args w_trace].
  rewrite (augment_outcome_agree a1 a2) by done. eauto 10.
Qed.

Lemma stable_bind {A B} (c : M A) (k : A -> M B) :
  stable c -> (forall a, stable (k a)) -> stable (c ≫= k).
Proof.
  intros Hc Hk w. rewrite run_bind. specialize (Hc w).
  destruct (c w) as [w' [a|e]]; cbn [fst] in *; [|done]. by rewrite Hk.
Qed.

Lemma stable_ret {A} (a : A) : stable (mret a).
Proof. done. Qed.

Lemma stable_raise {A} e : stable (raise e : M A).
Proof. done. Qed.

Lemma stable_getattr k : stable (getattr k).
Proof. intros w. unfold getattr. by destruct (w_args w !! k). Qed.

Lemma stable_emit e : stable (emit e).
Proof. done. Qed.

Lemma stable_path_exists path : stable (path_exists path).
Proof. done. Qed.

Lemma stable_write_file path : stable (write_file path).
Proof. done. Qed.

Lemma stable_vars : stable vars.
Proof. done. Qed.

Lemma stable_mapM {A B} (f : A -> M B) (l : list A) :
  (forall x, stable (f x)) -> stable (mapM f l).
Proof.
  intros Hf. induction l as [|x l IH]; [done|]. cbn [mapM].
  apply stable_bind; [done|]. intros y.
  apply stable_bind; [done|]. intros ys. done.
Qed.

Ltac solve_stable :=
  repeat first
    [ apply stable_ret | apply stable_raise | apply stable_getattr | apply stable_emit
    | apply stable_path_exists | apply stable_write_file | apply stable_vars
    | apply stable_mapM; intros
    | progress unfold generate_fname, print_if_verbose, create_classifier_network,
        method, plot_model, train_and_save, py_ge, fmt_d
    | apply stable_bind; [|intros]
    | match goal with |- stable (match ?x with _ => _ end) => destruct x end ].

Lemma triple_stable {A} (c : M A) (X : gmap string value) :
  stable c ->
  triple (fun w => w_args w = X) c (fun _ w => w_args w = X) (fun w => w_args w = X).
Proof.
  intros Hc w Hw. specialize (Hc w). destruct (c w) as [w' [a|e]]; cbn [fst] in Hc; congruence.
Qed.

Lemma triple_getattr_args (X : gmap string value) k v E :
  X !! k = Some v ->
  triple (fun w => w_args w = X) (getattr k) (fun r w => w_args w = X /\ r = v) E.
Proof. intros Hv w Hw. rewrite (run_getattr_Some k v) by congruence. done. Qed.

Lemma triple_emit_args (X : gmap string value) e E :
  triple (fun w => w_args w = X) (emit e) (fun _ w => w_args w = X) E.
Proof. by intros w Hw. Qed.

Lemma index_rotation_lookup a k : k <> "rotation" -> index_rotation a !! k = a !! k.
Proof.
  intros Hk. unfold index_rotation. destruct (a !! "exp_index") as [[]|]; try done.
  by apply lookup_insert_ne.
Qed.

Lemma triple_augment_args_ready a E :
  ready a ->
  triple (fun w => w_args w = a) augment_args (fun _ w => w_args w = index_rotation a) E.
Proof.
  intros (Het & Hidx & _) [a' fs tr] Hw. cbn [w_args] in Hw. subst a'.
  rewrite run_augment_args. unfold augment_outcome, hyperparameters_outcome, index_rotation.
  rewrite Het. cbn [eq_str]. rewrite bool_decide_true by done. cbv zeta.
  rewrite rotation_set_njobs.
  destruct Hidx as [->|(i & -> & Hi)]; [done|]. by rewrite bool_decide_true.
Qed.

(** The Namespace that a call of [execute_exp] leaves when it starts on a
    [ready] one. *)
Lemma execute_exp_namespace n a b :
  ready a -> a !! "batch" = Some (VInt b) ->
  triple (fun w => w_args w = a) (execute_exp false n)
         (fun _ w => w_args w = <["batch" := VInt (scaled_batch n b)]> (index_rotation a))
         (fun w => w_args w = <["batch" := VInt (scaled_batch n b)]> (index_rotation a)).
Proof.
  intros Hr Hb. pose proof Hr as (_ & Hidx & _).
  assert (Hb' : index_rotation a !! "batch" = Some (VInt b)).
  { by rewrite index_rotation_lookup. }
  unfold execute_exp.
  eapply (triple_bind _ _ _ (fun _ w => w_args w = a)); [by apply triple_ret|]. intros [].
  eapply (triple_bind _ _ _ (fun _ w => w_args w = a)).
  { destruct Hidx as [H|(i & H & _)].
    - eapply triple_conseq; [by apply (triple_getattr_args _ _ _ _ H)|done|..].
      + by intros ? ? [? _].
      + intros w Hw. exact Hw.
    - eapply triple_conseq; [by apply (triple_getattr_args _ _ _ _ H)|done|..].
      + by intros ? ? [? _].
      + intros w Hw. exact Hw. }
  intros exp_index.
  eapply triple_bind; [apply triple_emit_args|]. intros [].
  eapply triple_bind; [by apply triple_augment_args_ready|]. intros args_str.
  eapply (triple_bind _ _ _
            (fun _ w => w_args w = <["batch" := VInt (scaled_batch n b)]> (index_rotation a))).
  { unfold scaled_batch. case_bool_decide.
    - eapply triple_bind; [by apply triple_getattr_args|].
      intros batch. apply triple_pure. intros ->. cbn [py_mul].
      intros w Hw. rewrite run_bind, run_ret, run_setattr. cbn [w_args]. by rewrite Hw.
    - apply triple_ret. intros w ->. by rewrite insert_id. }
  intros []. apply triple_stable. solve_stable.
Qed.

(** X9: the Namespace after a run.  On a [ready] Namespace with the
    integer batch size [b], [execute_exp] on [n] GPUs leaves, however it
    ends, the Namespace it started on with [rotation] set to the job index
    (when there is one) and [batch] set to [b * n] when [n > 1], to [b]
    otherwise. *)
Theorem execute_exp_scales_batch (args_is_none : bool) n w b :
  let a0 := if args_is_none then default_args else w_args w in
  ready a0 -> a0 !! "batch" = Some (VInt b) ->
  w_args (execute_exp args_is_none n w).1 =
    <["batch" := VInt (scaled_batch n b)]> (index_rotation a0).
Proof.
  intros a0 Hr Hb.
  assert (Hstart : execute_exp args_is_none n w =
                   execute_exp false n (World a0 (w_fs w) (w_trace w))).
  { subst a0. destruct args_is_none; [apply execute_exp_defaults|by destruct w]. }
  rewrite Hstart.
  pose proof (execute_exp_namespace n a0 b Hr Hb (World a0 (w_fs w) (w_trace w)) eq_refl) as H.
  by destruct (execute_exp false n _) as [w' [res|e]].
Qed.

(** ** The completeness check on every Namespace *)

Lemma is_print_run_event e : is_print e = true -> run_event e = false.
Proof. by destruct e. Qed.

Section Quiet.

Context (a0 : gmap string value) (fs0 : gset string) (tr0 : list event).

Lemma quietly_bind {A B} (c : M A) (k : A -> M B) :
  quietly a0 fs0 tr0 c -> (forall a, quietly a0 fs0 tr0 (k a)) ->
  quietly a0 fs0 tr0 (c ≫= k).
Proof. intros Hc Hk. eapply triple_bind; [exact Hc|]. intros a. apply Hk. Qed.

Lemma quietly_ret {A} (a : A) : quietly a0 fs0 tr0 (mret a).
Proof. by apply triple_ret. Qed.

Lemma quietly_raise {A} e : quietly a0 fs0 tr0 (raise e : M A).
Proof. by intros w Hw. Qed.

Lemma quietly_same {A} (c : M A) : (forall w, (c w).1 = w) -> quietly a0 fs0 tr0 c.
Proof.
  intros Hc w Hw. specialize (Hc w). destruct (c w) as [w' [a|e]]; cbn [fst] in Hc; by subst.
Qed.

Lemma quietly_emit s : quietly a0 fs0 tr0 (emit (Print s)).
Proof.
  intros w (Hargs & Hfs & evs & Htr & Hevs). rewrite run_emit.
  split_and!; cbn [w_args w_fs w_trace]; [done|done|].
  exists (evs ++ [Print s]). rewrite Htr, app_assoc. split; [done|].
  apply Forall_app. split; [done|]. by repeat constructor.
Qed.

Lemma quietly_setattr_rotation v : quietly a0 fs0 tr0 (setattr "rotation" v).
Proof.
  intros w (Hargs & Hfs & Htr). rewrite run_setattr.
  split_and!; cbn [w_args w_fs w_trace]; [|done|done].
  intros k Hk. rewrite lookup_insert_ne by done. by apply Hargs.
Qed.

Lemma quietly_set_attributes_by_index i :
  quietly a0 fs0 tr0 (set_attributes_by_index (JobIterator.new rotation_set) i).
Proof.
  unfold set_attributes_by_index.
  destruct (JobIterator.get_index _ i) as [c|] eqn:Hc; [|apply quietly_raise].
  apply get_index_new in Hc as [_ Hc%list_elem_of_lookup_2].
  apply elem_of_cartesian, rotation_set_is_point in Hc as (j & _ & ->).
  apply quietly_bind; [|intros; apply quietly_ret]. cbn [mapM fst snd].
  apply quietly_bind; [apply quietly_setattr_rotation|]. intros [].
  apply quietly_bind; intros; apply quietly_ret.
Qed.

Lemma quietly_check_one i :
  quietly a0 fs0 tr0 (check_one (JobIterator.new rotation_set) i).
Proof.
  unfold check_one.
  apply quietly_bind; [apply quietly_set_attributes_by_index|]. intros params_str.
  apply quietly_bind.
  { apply quietly_same. intros w. by rewrite run_generate_fname. }
  intros fbase. apply quietly_bind; [by apply quietly_same|]. intros present.
  destruct present; cbn [negb]; [apply quietly_ret|].
  apply quietly_bind; [apply quietly_emit|]. intros []. apply quietly_ret.
Qed.

Lemma quietly_check_loop range : forall indices,
  quietly a0 fs0 tr0 (check_loop (JobIterator.new rotation_set) range indices).
Proof.
  induction range as [|i range IH]; intros indices; [apply quietly_ret|].
  cbn [check_loop]. apply quietly_bind; [apply quietly_check_one|].
  intros missing. apply IH.
Qed.

Lemma quietly_check_completeness : quietly a0 fs0 tr0 check_completeness.
Proof.
  unfold check_completeness. intros w Hw. rewrite run_bind, run_exp_type_to_hyperparameters.
  destruct (hyperparameters_outcome (w_args w)) as [p|e] eqn:Hp; [|done].
  apply hyperparameters_outcome_Return in Hp as [-> _]. revert w Hw.
  change (quietly a0 fs0 tr0
            (emit (Print ("Total jobs: " +:+
                            pretty (JobIterator.get_njobs (JobIterator.new rotation_set))));;
             emit (Print "MISSING RUNS:");;
             indices ← check_loop (JobIterator.new rotation_set)
                         (py_range 0 (JobIterator.get_njobs (JobIterator.new rotation_set))) [];
             emit (Print ("Missing indices (" +:+ pretty (Z.of_nat (length indices)) +:+ "): "
                          +:+ String.concat "," (pretty <$> indices))))).
  apply quietly_bind; [apply quietly_emit|]. intros [].
  apply quietly_bind; [apply quietly_emit|]. intros [].
  apply quietly_bind; [apply quietly_check_loop|]. intros indices.
  apply quietly_emit.
Qed.

End Quiet.

Lemma quiet_start a fs tr : quiet a fs tr (World a fs tr).
Proof. split_and!; [done|done|]. exists []. by rewrite app_nil_r. Qed.

(** X10: [check_completeness] only reports.  On every Namespace and
    however it ends, it leaves the file system as it is, changes no
    attribute other than [rotation], and appends nothing but printed lines to
    the trace: nothing is tracked, trained or saved. *)
Theorem check_completeness_only_reports w :
  let r := check_completeness w in
  w_fs r.1 = w_fs w /\
  (forall k, k <> "rotation" -> w_args r.1 !! k = w_args w !! k) /\
  exists evs, w_trace r.1 = w_trace w ++ evs /\
              Forall (fun e => is_print e = true) evs.
Proof.
  intros r. destruct w as [a fs tr].
  pose proof (quietly_check_completeness a fs tr _ (quiet_start a fs tr)) as H.
  fold r in H. by destruct r as [w' [[]|e]]; destruct H as (Hargs & Hfs & Htr).
Qed.

(** X11: one completed run makes the sweep look complete.  When
    [execute_exp] has returned a network, [check_completeness] on the world
    it left prints the total of five jobs and no missing run at all: the
    results file of the run that was done stands for the results of every
    job index. *)
Theorem check_completeness_after_one_run (args_is_none : bool) n w w' m :
  execute_exp args_is_none n w = (w', Return (Some m)) ->
  check_completeness w' =
  (World (<["rotation" := VInt 4]> (w_args w')) (w_fs w')
         (w_trace w' ++ [Print ("Total jobs: " +:+ pretty 5); Print "MISSING RUNS:";
                         report_summary []]),
   Return tt).
Proof.
  intros Hrun. pose proof (execute_exp_cases args_is_none n w) as H.
  cbv zeta in H. rewrite Hrun in H.
  set (a0 := if args_is_none then default_args else w_args w) in *.
  destruct H as ((Hargs & _ & _ & _ & evs & _ & _ & _ & Hfile & _) & _ & Hpass & Het).
  destruct Hpass as (_ & _ & [rp Hrp] & _).
  assert (Hbase : base_name a0 = py_str rp +:+ "/" +:+ py_str (VStr "rnn")).
  { unfold base_name, fname_outcome. by rewrite Hrp, Het. }
  rewrite (run_check_completeness w' rp (VStr "rnn")).
  - cbv zeta. rewrite (filter_is_missing _ _ rp (VStr "rnn")).
    + rewrite bool_decide_true; [done|]. rewrite <- Hbase. apply Hfile. lia.
    + apply Forall_forall. intros i. apply elem_of_py_range_5.
    + by rewrite Hargs.
    + by rewrite Hargs.
  - unfold hyperparameters_outcome. rewrite Hargs, Het by done. cbn [eq_str].
    by rewrite bool_decide_true.
  - by rewrite Hargs.
  - by rewrite Hargs.
Qed.

(** ** The network of an experiment type *)

Lemma run_getattrs_values names : forall w,
  match mapM getattr names w with
  | (w', Return vs) => w' = w /\ Forall2 (fun k v => w_args w !! k = Some v) names vs
  | (w', Raise e) => w' = w /\ exists k, k ∈ names /\ w_args w !! k = None /\
                                         e = AttributeError k
  end.
Proof.
  induction names as [|k names IH]; intros w; [by split; [|constructor]|].
  simpl. rewrite run_bind. unfold getattr at 1.
  destruct (w_args w !! k) eqn:Hk.
  - rewrite run_bind. specialize (IH w).
    destruct (mapM getattr names w) as [w' [vs|e]].
    + rewrite run_ret. destruct IH as [-> Hvs]. split; [done|]. by constructor.
    + destruct IH as [-> (k' & Hk' & Hnone & ->)]. split; [done|].
      exists k'. split_and!; [by right|done|done].
  - split; [done|]. exists k. split_and!; [by left|done|done].
Qed.

(** X17: the network by experiment type.  [create_classifier_network]
    never changes the Namespace or the file system.  For ['rnn'] it builds the
    recurrent network from the values of eleven attributes, or raises the
    [AttributeError] of one that is absent; for ['cnn'] it builds nothing and
    returns [None]; for any other type it raises an [AssertionError] that
    names the type. *)
Theorem create_classifier_network_by_type w t :
  w_args w !! "exp_type" = Some t ->
  let r := create_classifier_network w in
  w_args r.1 = w_args w /\ w_fs r.1 = w_fs w /\
  (t = VStr "rnn" ->
   (exists params,
      r = (World (w_args w) (w_fs w) (w_trace w ++ [CreateSimpleRnn params]),
           Return (Some tt)) /\
      Forall2 (fun k v => w_args w !! k = Some v)
        ["rnn_layers"; "dense_layers"; "rnn_activation"; "dense_activation";
         "return_sequences"; "unroll"; "L2_regularization"; "dropout";
         "batch_normalization"; "grad_clip"; "lrate"] params) \/
   (exists k, w_args w !! k = None /\ r = (w, Raise (AttributeError k)))) /\
  (t = VStr "cnn" -> r = (w, Return None)) /\
  (t <> VStr "rnn" -> t <> VStr "cnn" ->
   r = (w, Raise (AssertionError ("unrecognized experiment type " +:+ py_str t)))).
Proof.
  intros Ht r. subst r. unfold create_classifier_network.
  rewrite run_bind, (run_getattr_Some _ _ _ Ht).
  destruct (eq_str t "rnn") eqn:Hrnn.
  - apply eq_str_true in Hrnn as ->. rewrite run_bind.
    pose proof (run_getattrs_values
                  ["rnn_layers"; "dense_layers"; "rnn_activation"; "dense_activation";
                   "return_sequences"; "unroll"; "L2_regularization"; "dropout";
                   "batch_normalization"; "grad_clip"; "lrate"] w) as H.
    destruct (mapM getattr _ w) as [w' [params|e]].
    + destruct H as [-> Hparams]. rewrite run_bind, run_emit, run_ret. cbn [fst w_args w_fs].
      split_and!; [done|done| |done|done]. intros _. left. by exists params.
    + destruct H as [-> (k & _ & Hnone & ->)]. cbn [fst].
      split_and!; [done|done| |done|done]. intros _. right. by exists k.
  - assert (Hne : t <> VStr "rnn").
    { intros Heq%eq_str_true. congruence. }
    rewrite run_bind, (run_getattr_Some _ _ _ Ht).
    destruct (eq_str t "cnn") eqn:Hcnn.
    + apply eq_str_true in Hcnn as ->. rewrite run_ret. cbn [fst].
      split_and!; [done|done|done|done|]. by intros _ Hc.
    + assert (Hne' : t <> VStr "cnn").
      { intros Heq%eq_str_true. congruence. }
      rewrite run_bind, (run_getattr_Some _ _ _ Ht), run_raise. cbn [fst].
      split_and!; [done|done|done|done|done].
Qed.

(** ** The main program *)

Lemma run_mbind {A B} (c : MM A) (k : A -> MM B) (m : machine) :
  (c ≫= k) m = match c m with
               | (m', Return a) => k a m'
               | (m', Raise e) => (m', Raise e)
               end.
Proof. reflexivity. Qed.

Lemma run_mret {A} (a : A) (m : machine) : (mret a : MM A) m = (m, Return a).
Proof. reflexivity. Qed.

Lemma run_lift {A} (c : M A) (m : machine) :
  lift c m = (Machine (c (m_world m)).1 (m_tf m), (c (m_world m)).2).
Proof. unfold lift. by destruct (c (m_world m)). Qed.

Lemma run_set_memory_growths devices : forall m,
  mapM set_memory_growth devices m =
  (Machine (m_world m)
           (TfConfig (visible_gpus (m_tf m)) (memory_growth (m_tf m) ++ devices)
                     (intra_op_threads (m_tf m)) (inter_op_threads (m_tf m))),
   Return (replicate (length devices) tt)).
Proof.
  induction devices as [|d devices IH]; intros [w [vis mg intra inter]].
  - cbn. by rewrite app_nil_r.
  - cbn [mapM]. rewrite run_mbind. unfold set_memory_growth at 1.
    rewrite run_mbind, IH. cbn. by rewrite <- app_assoc.
Qed.

Lemma run_print_if_verbose level line w v :
  w_args w !! "verbose" = Some (VInt v) ->
  print_if_verbose level line w =
  (World (w_args w) (w_fs w)
         (w_trace w ++ if bool_decide (level <= v) then [Print line] else []),
   Return tt).
Proof.
  intros Hv. unfold print_if_verbose. rewrite run_bind, (run_getattr_Some _ _ _ Hv).
  unfold py_ge. cbn [as_number]. rewrite run_bind, run_ret.
  change (FFin (inject_Z v)) with (lit v). rewrite float_leb_lit.
  case_bool_decide; [done|]. rewrite run_ret, app_nil_r. by destruct w.
Qed.

Lemma startup_prints_are_prints environ v gpu tf :
  Forall (fun e => is_print e = true) (startup_prints environ v gpu tf).
Proof.
  unfold startup_prints. cbv zeta. rewrite !Forall_app. split_and!.
  - case_bool_decide; by repeat constructor.
  - destruct (_ && _); by repeat constructor.
  - constructor; [done|]. constructor; [|done]. by case_bool_decide.
Qed.

Lemma rational_args_cpus a : rational_args a -> is_Some (a !! "cpus_per_task").
Proof. intros (_ & _ & _ & _ & [->|(x & (v & -> & _) & _)]); eauto. Qed.

(** The main program up to the completeness check or the experiment, on
    arguments that pass [check_args]. *)
Lemma run_main environ a fs tr tf v gpu check cpus :
  rational_args a ->
  a !! "verbose" = Some (VInt v) -> a !! "gpu" = Some gpu ->
  a !! "check" = Some check -> a !! "cpus_per_task" = Some cpus ->
  let vis := visible_after environ gpu tf in
  let w1 := World a fs (tr ++ startup_prints environ v gpu tf) in
  main environ (Machine (World a fs tr) tf) =
  if truthy check then
    (Machine (check_completeness w1).1
             (TfConfig vis (memory_growth tf ++ vis)
                       (intra_op_threads tf) (inter_op_threads tf)),
     (check_completeness w1).2)
  else
    (Machine (execute_exp false (Z.of_nat (length vis)) w1).1
             (TfConfig vis (memory_growth tf ++ vis)
                       (threads_after cpus (intra_op_threads tf))
                       (threads_after cpus (inter_op_threads tf))),
     match (execute_exp false (Z.of_nat (length vis)) w1).2 with
     | Return _ => Return tt
     | Raise e => Raise e
     end).
Proof.
  intros Hrat%check_args_outcome_ok Hv Hgpu Hcheck Hcpus vis w1.
  destruct tf as [vis0 mg intra inter].
  unfold main. rewrite run_mbind, run_lift, run_check_args. cbn [m_world m_tf w_args fst snd].
  rewrite Hrat.
  rewrite run_mbind, run_lift, (run_print_if_verbose _ _ _ v) by done.
  cbn [m_world m_tf w_args w_fs w_trace fst snd].
  rewrite run_mbind, run_lift, (run_getattr_Some "gpu" gpu) by done.
  cbn [m_world m_tf w_args w_fs w_trace fst snd].
  assert (Hprefix : forall (rest : MM unit) tr',
    ((if negb (truthy gpu) || negb (bool_decide ("CUDA_VISIBLE_DEVICES" ∈ environ)) then
        set_visible_devices [];; lift (emit (Print "NO VISIBLE DEVICES!!!!"))
      else mret tt) ≫= fun _ => rest) (Machine (World a fs tr') (TfConfig vis0 mg intra inter)) =
    rest (Machine (World a fs
                     (tr' ++ if truthy gpu && bool_decide ("CUDA_VISIBLE_DEVICES" ∈ environ)
                             then [] else [Print "NO VISIBLE DEVICES!!!!"]))
                  (TfConfig vis mg intra inter))).
  { intros rest tr'. subst vis. unfold visible_after. rewrite run_mbind.
    destruct (truthy gpu), (bool_decide _); cbn [negb orb andb visible_gpus];
      by rewrite ?app_nil_r. }
  rewrite Hprefix. clear Hprefix.
  rewrite run_mbind. unfold get_visible_devices. cbn [m_tf visible_gpus].
  rewrite run_mbind, run_lift, run_emit. cbn [m_world m_tf w_args w_fs w_trace fst snd].
  assert (Hgrowth : forall (rest : MM unit) tr',
    ((if bool_decide (Z.of_nat (length vis) > 0) then
        mapM set_memory_growth vis;;
        lift (emit (Print ("We have " +:+ pretty (Z.of_nat (length vis)) +:+ " GPUs"
                           +:+ newline)))
      else lift (emit (Print "NO GPU"))) ≫= fun _ => rest)
      (Machine (World a fs tr') (TfConfig vis mg intra inter)) =
    rest (Machine (World a fs
                     (tr' ++ [if bool_decide (Z.of_nat (length vis) > 0)
                              then Print ("We have " +:+ pretty (Z.of_nat (length vis))
                                          +:+ " GPUs" +:+ newline)
                              else Print "NO GPU"]))
                  (TfConfig vis (mg ++ vis) intra inter))).
  { intros rest tr'. rewrite run_mbind. case_bool_decide as Hn.
    - rewrite run_mbind, run_set_memory_growths, run_lift, run_emit. done.
    - rewrite run_lift, run_emit. cbn [m_world m_tf w_args w_fs w_trace fst snd].
      destruct vis; [by rewrite app_nil_r|]. cbn [length] in Hn. lia. }
  rewrite Hgrowth. clear Hgrowth.
  assert (Htrace :
    (((tr ++ (if bool_decide (3 <= v) then [Print "Arguments parsed"] else [])) ++
      (if truthy gpu && bool_decide ("CUDA_VISIBLE_DEVICES" ∈ environ)
       then [] else [Print "NO VISIBLE DEVICES!!!!"])) ++
     [Print ("GPUS: " +:+ devices_repr vis)]) ++
    [if bool_decide (Z.of_nat (length vis) > 0)
     then Print ("We have " +:+ pretty (Z.of_nat (length vis)) +:+ " GPUs" +:+ newline)
     else Print "NO GPU"] = tr ++ startup_prints environ v gpu (TfConfig vis0 mg intra inter)).
  { unfold startup_prints. cbv zeta. fold vis. rewrite <- !app_assoc. done. }
  rewrite Htrace. clear Htrace. fold w1.
  rewrite run_mbind, run_lift, (run_getattr_Some "check" check) by done.
  cbn [m_world m_tf w_args w_fs w_trace fst snd].
  destruct (truthy check).
  { rewrite run_lift. done. }
  rewrite run_mbind, run_lift, (run_getattr_Some "cpus_per_task" cpus) by done.
  cbn [m_world m_tf w_args w_fs w_trace fst snd]. unfold threads_after.
  rewrite run_mbind. destruct (is_none cpus); cbn [negb].
  - rewrite run_mret, run_mbind, run_lift. cbn [m_world m_tf fst snd].
    by destruct (execute_exp false _ w1) as [w' [res|e]].
  - rewrite run_mbind, run_lift, (run_getattr_Some "cpus_per_task" cpus) by done.
    cbn [m_world m_tf w_args w_fs w_trace fst snd].
    rewrite run_mbind. unfold set_intra_op_parallelism_threads at 1.
    cbn [m_world m_tf visible_gpus memory_growth intra_op_threads inter_op_threads].
    rewrite run_mbind, run_lift, (run_getattr_Some "cpus_per_task" cpus) by done.
    cbn [m_world m_tf w_args w_fs w_trace fst snd].
    unfold set_inter_op_parallelism_threads at 1.
    cbn [m_world m_tf visible_gpus memory_growth intra_op_threads inter_op_threads].
    rewrite run_mbind, run_lift. cbn [m_world m_tf fst snd].
    by destruct (execute_exp false _ w1) as [w' [res|e]].
Qed.

(** X12: arguments that [check_args] rejects stop the main program at
    once: it ends with the exception of [check_args], and nothing is printed,
    no GPU is hidden, no thread pool is sized, nothing is checked or run. *)
Theorem main_stops_at_rejected_arguments environ m e :
  (check_args (m_world m)).2 = Raise e ->
  main environ m = (m, Raise e).
Proof.
  intros H. unfold main. rewrite run_mbind, run_lift.
  rewrite run_check_args in *. cbn [fst snd] in *. rewrite H. by destruct m.
Qed.

(** X13: the runtime that the main program configures.  On arguments that
    pass [check_args], with an integer [verbose], and however the check or
    the experiment ends: the visible GPUs are those of the runtime when the
    [gpu] flag is set and [CUDA_VISIBLE_DEVICES] is in the environment, none
    otherwise; memory growth is switched on for exactly the GPUs left
    visible; and both thread pools get the size [cpus_per_task] when the
    experiment is run and [cpus_per_task] is not [None], and are left alone in
    check mode or when it is [None]. *)
Theorem main_configures_runtime environ m v gpu check cpus :
  let a := w_args (m_world m) in
  let tf := m_tf m in
  let vis := visible_after environ gpu tf in
  rational_args a ->
  a !! "verbose" = Some (VInt v) -> a !! "gpu" = Some gpu ->
  a !! "check" = Some check -> a !! "cpus_per_task" = Some cpus ->
  m_tf (main environ m).1 =
    TfConfig vis (memory_growth tf ++ vis)
      (if truthy check then intra_op_threads tf
       else threads_after cpus (intra_op_threads tf))
      (if truthy check then inter_op_threads tf
       else threads_after cpus (inter_op_threads tf)).
Proof.
  intros a tf vis Hrat Hv Hgpu Hcheck Hcpus. destruct m as [[a' fs tr] tf'].
  cbn [m_world m_tf w_args] in *. subst a tf.
  rewrite (run_main environ a' fs tr tf' v gpu check cpus) by done. cbv zeta.
  by destruct (truthy check).
Qed.

(** X14: check mode only reports.  On arguments that pass [check_args],
    with an integer [verbose] and [check] set, the main program, however it
    ends, leaves the file system as it is, changes no attribute other than
    [rotation] and appends nothing but printed lines to the trace: no
    experiment is run. *)
Theorem main_check_mode_only_reports environ m v gpu check cpus :
  let a := w_args (m_world m) in
  let r := main environ m in
  rational_args a ->
  a !! "verbose" = Some (VInt v) -> a !! "gpu" = Some gpu ->
  a !! "check" = Some check -> a !! "cpus_per_task" = Some cpus ->
  truthy check = true ->
  w_fs (m_world r.1) = w_fs (m_world m) /\
  (forall k, k <> "rotation" -> w_args (m_world r.1) !! k = a !! k) /\
  exists evs, w_trace (m_world r.1) = w_trace (m_world m) ++ evs /\
              Forall (fun e => is_print e = true) evs.
Proof.
  intros a r Hrat Hv Hgpu Hcheck Hcpus Hset. destruct m as [[a' fs tr] tf].
  cbn [m_world m_tf w_args w_fs w_trace] in *. subst a r.
  rewrite (run_main environ a' fs tr tf v gpu check cpus) by done. cbv zeta.
  rewrite Hset. cbn [fst m_world].
  assert (Hstart : quiet a' fs tr (World a' fs (tr ++ startup_prints environ v gpu tf))).
  { split_and!; [done|done|]. eexists. split; [done|]. apply startup_prints_are_prints. }
  pose proof (quietly_check_completeness a' fs tr _ Hstart) as H.
  by destruct (check_completeness _) as [w' [[]|e]]; destruct H as (Hargs & Hfs & Htr).
Qed.


(** X16: the batch size follows the GPUs that the main program leaves
    visible.  On arguments that pass [check_args] and are [ready], with the
    integer batch size [b] and [check] not set, the main program leaves
    [batch] at [b] times the number of visible GPUs when there are two or
    more of them, and at [b] when the GPUs are hidden or there is one only,
    however the experiment ends. *)
Theorem main_scales_batch environ m gpu check b :
  let a := w_args (m_world m) in
  let vis := visible_after environ gpu (m_tf m) in
  rational_args a -> ready a -> a !! "batch" = Some (VInt b) ->
  a !! "gpu" = Some gpu -> a !! "check" = Some check -> truthy check = false ->
  w_args (m_world (main environ m).1) !! "batch" =
    Some (VInt (scaled_batch (Z.of_nat (length vis)) b)).
Proof.
  intros a vis Hrat Hr Hb Hgpu Hcheck Hunset. destruct m as [[a' fs tr] tf].
  cbn [m_world m_tf w_args w_fs w_trace] in *. subst a.
  pose proof Hr as (_ & _ & [v Hv] & _).
  destruct (rational_args_cpus _ Hrat) as [cpus Hcpus].
  rewrite (run_main environ a' fs tr tf v gpu check cpus) by done. cbv zeta.
  rewrite Hunset. cbn [fst m_world]. fold vis.
  pose proof (execute_exp_namespace (Z.of_nat (length vis)) a' b Hr Hb
                (World a' fs (tr ++ startup_prints environ v gpu tf)) eq_refl) as H.
  destruct (execute_exp false _ _) as [w' [res|e]]; cbn [fst m_world]; rewrite H;
    apply lookup_insert_eq.
Qed.

End Harness.

(** ** Sample runs *)

Lemma exp_type_cnn_raises_AttributeError_witness :
  w_args cnn_world !! "exp_type" = Some (VStr "cnn") /\
  w_args cnn_world !! "expt_type" = None /\
  exp_type_to_hyperparameters sample_repr cnn_world =
    (cnn_world, Raise (AttributeError "expt_type")).
Proof.
  split; [reflexivity|]. split; [reflexivity|].
  apply (exp_type_cnn_raises_AttributeError sample_repr cnn_world); reflexivity.
Defined.

(** C1 at job indices 0 and 1: both runs get the base name [results/rnn]. *)
Lemma generate_fname_same_for_all_jobs_witness :
  (exp_type_to_hyperparameters sample_repr sample_world).2 = Return rotation_set /\
  0 <= 0 < JobIterator.get_njobs (JobIterator.new rotation_set) /\
  0 <= 1 < JobIterator.get_njobs (JobIterator.new rotation_set) /\
  ((params_str ← set_attributes_by_index sample_param_str (JobIterator.new rotation_set) 0;
    generate_fname sample_repr params_str) sample_world).2 = Return "results/rnn" /\
  ((params_str ← set_attributes_by_index sample_param_str (JobIterator.new rotation_set) 1;
    generate_fname sample_repr params_str) sample_world).2 = Return "results/rnn".
Proof.
  split; [reflexivity|]. split; [done|]. split; [done|].
  rewrite <- (generate_fname_same_for_all_jobs sample_repr sample_param_str
                sample_world rotation_set 0 1); [|reflexivity|done|done].
  split; reflexivity.
Defined.

Lemma augment_args_sets_combination_witness :
  (exp_type_to_hyperparameters sample_repr sample_world).2 = Return rotation_set /\
  w_args sample_world !! "exp_index" = Some (VInt 3) /\
  0 <= 3 < JobIterator.get_njobs (JobIterator.new rotation_set) /\
  exists c,
    JobIterator.get_index (JobIterator.new rotation_set) 3 = Some c /\
    (augment_args sample_repr sample_param_str sample_world).2 =
      Return (sample_param_str c) /\
    (forall k v, (k, v) ∈ c ->
       w_args (augment_args sample_repr sample_param_str sample_world).1 !! k = Some v).
Proof.
  split; [reflexivity|]. split; [reflexivity|]. split; [done|].
  destruct (augment_args_sets_combination sample_repr sample_param_str
              sample_world rotation_set 3) as (c & Hc & _ & Hret & Hset & _);
    [reflexivity|reflexivity|done|].
  exists c. auto.
Defined.

Lemma check_completeness_reports_missing_witness :
  (exp_type_to_hyperparameters sample_repr sample_world).2 = Return rotation_set /\
  is_Some (w_args sample_world !! "results_path") /\
  (check_completeness sample_repr sample_param_str sample_world).2 = Return tt /\
  w_fs (check_completeness sample_repr sample_param_str sample_world).1 = w_fs sample_world.
Proof.
  split; [reflexivity|]. split; [by eexists|].
  destruct (check_completeness_reports_missing sample_repr sample_param_str
              sample_world rotation_set) as (Hret & _ & Hfs & _);
    [reflexivity|by eexists|].
  auto.
Defined.

Lemma augment_args_bounds_assertion_witness :
  (exp_type_to_hyperparameters sample_repr sample_world).2 = Return rotation_set /\
  w_args sample_world !! "exp_index" = Some (VInt 3) /\
  ((exists msg, (augment_args sample_repr sample_param_str sample_world).2 =
                Raise (AssertionError msg)) <->
   3 < 0 \/ JobIterator.get_njobs (JobIterator.new rotation_set) <= 3).
Proof.
  split; [reflexivity|]. split; [reflexivity|].
  apply (augment_args_bounds_assertion sample_repr sample_param_str
           sample_world rotation_set 3); reflexivity.
Defined.

Lemma sweep_has_five_jobs_witness :
  (exp_type_to_hyperparameters sample_repr sample_world).2 = Return rotation_set /\
  is_Some (w_args sample_world !! "results_path") /\
  JobIterator.get_njobs (JobIterator.new rotation_set) = 5 /\
  w_args (check_completeness sample_repr sample_param_str sample_world).1 !! "rotation"
    = Some (VInt 4).
Proof.
  split; [reflexivity|]. split; [by eexists|].
  destruct (sweep_has_five_jobs sample_repr sample_param_str sample_world rotation_set)
    as (_ & Hn & _ & _ & _ & Hrot & _); [reflexivity|by eexists|].
  auto.
Defined.

(** C7 on two worlds with the same Namespace and different file systems. *)
Lemma harness_deterministic_witness :
  w_args sample_world = w_args completed_world /\
  (augment_args sample_repr sample_param_str sample_world).2 =
  (augment_args sample_repr sample_param_str completed_world).2 /\
  (generate_fname sample_repr "" sample_world).2 =
  (generate_fname sample_repr "" completed_world).2.
Proof.
  split; [reflexivity|].
  destruct (harness_deterministic sample_repr sample_param_str
              sample_world completed_world "") as (H1 & _ & _ & _ & _ & H2 & _);
    [reflexivity|].
  auto.
Defined.

Lemma augment_args_without_index_witness :
  w_args no_index_world !! "exp_index" = Some VNone /\
  (exp_type_to_hyperparameters sample_repr no_index_world).2 = Return rotation_set /\
  augment_args sample_repr sample_param_str no_index_world = (no_index_world, Return "").
Proof.
  split; [reflexivity|]. split; [reflexivity|].
  apply (augment_args_without_index sample_repr sample_param_str
           no_index_world rotation_set); reflexivity.
Defined.

(** C8 fails on an experiment type that the harness does not recognise:
    [augment_args] raises instead of returning the empty string. *)
Lemma augment_args_without_index_counterexample :
  w_args lstm_world !! "exp_index" = Some VNone /\
  augment_args sample_repr sample_param_str lstm_world =
    (lstm_world, Raise (AssertionError "Unrecognized exp_type (lstm)")) /\
  w_args lstm_world' !! "exp_index" = Some VNone /\
  augment_args sample_repr sample_param_str lstm_world' =
    (lstm_world', Raise (AttributeError "expt_type")).
Proof. repeat split; vm_compute; reflexivity. Qed.

Lemma one_cpu_world_parsed : parsed_args (w_args one_cpu_world).
Proof.
  split.
  - exists (FFin (1 # 1000)), (VFloat (FFin (1 # 1000))). split; reflexivity.
  - apply Forall_cons. split; [left; reflexivity|].
    apply Forall_cons. split; [left; reflexivity|].
    apply Forall_cons. split.
    { right. exists (FFin (1 # 100)), (VFloat (FFin (1 # 100))). split; reflexivity. }
    apply Forall_cons. split; [|apply Forall_nil_2].
    right. exists (lit 1), (VInt 1). split; reflexivity.
Defined.

(** C9 with [cpus_per_task] equal to 1: rejected by an assertion. *)
Lemma check_args_accepts_rational_args_witness :
  parsed_args (w_args one_cpu_world) /\
  (check_args one_cpu_world).1 = one_cpu_world /\
  exists msg, (check_args one_cpu_world).2 = Raise (AssertionError msg).
Proof.
  split; [exact one_cpu_world_parsed|].
  destruct (check_args_accepts_rational_args one_cpu_world) as (Hsame & _ & _ & Hone).
  split; [exact Hsame|]. apply Hone; [exact one_cpu_world_parsed|reflexivity].
Defined.

(** C5 fails when [render] is set: the run of [completed_world] stops at the
    existing results file and has by then written the picture of the
    network, a file that was not there before. *)
Lemma execute_exp_skips_completed_run_counterexample :
  ("results/rnn_results.pkl" ∈ w_fs completed_world) /\
  w_args completed_world !! "force" = Some (VBool false) /\
  w_args completed_world !! "nogo" = Some (VBool false) /\
  (execute_exp sample_repr sample_mul sample_param_str sample_args true
     false 0 completed_world).2 = Return None /\
  ("results/rnn_model_plot.png" ∉ w_fs completed_world) /\
  ("results/rnn_model_plot.png" ∈
     w_fs (execute_exp sample_repr sample_mul sample_param_str sample_args true
             false 0 completed_world).1).
Proof.
  split_and!; try reflexivity. discriminate.
Qed.

Lemma sample_args_ready : ready sample_args.
Proof.
  split; [reflexivity|]. split; [right; exists 3; split; [reflexivity|done]|].
  split; [exists 0; reflexivity|]. split; [exists 64; reflexivity|].
  repeat (apply Forall_cons; split; [eexists; reflexivity|]). apply Forall_nil_2.
Defined.

(** C5 on [completed_world]: the run returns [None] and the results file is
    still there. *)
Lemma execute_exp_skips_completed_run_witness :
  w_args completed_world !! "results_path" = Some (VStr "results") /\
  w_args completed_world !! "exp_type" = Some (VStr "rnn") /\
  w_args completed_world !! "force" = Some (VBool false) /\
  w_args completed_world !! "nogo" = Some (VBool false) /\
  ("results/rnn_results.pkl" ∈ w_fs completed_world) /\
  ready (w_args completed_world) /\
  (execute_exp sample_repr sample_mul sample_param_str sample_args true
     false 0 completed_world).2 = Return None /\
  ("results/rnn_results.pkl" ∈
     w_fs (execute_exp sample_repr sample_mul sample_param_str sample_args true
             false 0 completed_world).1).
Proof.
  assert (Hfile : "results/rnn_results.pkl" ∈ w_fs completed_world).
  { apply (bool_decide_unpack _). vm_compute. exact I. }
  split; [reflexivity|]. split; [reflexivity|]. split; [reflexivity|].
  split; [reflexivity|]. split; [exact Hfile|]. split; [exact sample_args_ready|].
  destruct (execute_exp_skips_completed_run sample_repr sample_mul sample_param_str
              sample_args true false 0 completed_world
              (VStr "results") (VStr "rnn") (VBool false) (VBool false)
              eq_refl eq_refl eq_refl eq_refl eq_refl eq_refl Hfile)
    as (_ & Hready & _ & _ & Hkept).
  split; [exact (Hready sample_args_ready)|exact Hkept].
Defined.

(** ** Sample runs of whole experiments and of the main program *)

Ltac concrete_attrs :=
  repeat (apply Forall_cons; split; [apply (bool_decide_unpack _); vm_compute; exact I|]);
  apply Forall_nil_2.

Ltac concrete_ready :=
  split; [vm_compute; reflexivity|];
  split; [right; exists 3; split; [vm_compute; reflexivity|done]|];
  split; [exists 0; vm_compute; reflexivity|];
  split; [exists 64; vm_compute; reflexivity|];
  concrete_attrs.

Ltac concrete_trainable :=
  split; [concrete_ready|]; split; [exists 0; vm_compute; reflexivity|];
  concrete_attrs.


Lemma training_args_rational check : rational_args (training_args check).
Proof. apply check_args_outcome_ok. by destruct check. Qed.


Lemma nogo_world_ready : ready (w_args nogo_world).
Proof. concrete_ready. Defined.

Lemma gpu_machine_trainable : trainable (w_args (m_world gpu_machine)).
Proof. concrete_trainable. Defined.

Lemma gpu_machine_rational : rational_args (w_args (m_world gpu_machine)).
Proof. apply check_args_outcome_ok. reflexivity. Qed.

(** X2 on [fresh_world]: the first run of the sample experiment returns the
    network and leaves its results file on disk. *)
Lemma execute_exp_returns_trained_network_witness :
  (execute_exp sample_repr sample_mul sample_param_str sample_args true
     false 0 fresh_world).2 = Return (Some tt) /\
  ("results/rnn_results.pkl" ∈
     w_fs (execute_exp sample_repr sample_mul sample_param_str sample_args true
             false 0 fresh_world).1) /\
  w_args fresh_world !! "exp_type" = Some (VStr "rnn").
Proof.
  assert (Hrun : execute_exp sample_repr sample_mul sample_param_str sample_args true
                   false 0 fresh_world =
                 ((execute_exp sample_repr sample_mul sample_param_str sample_args true
                     false 0 fresh_world).1, Return (Some tt))).
  { vm_compute. reflexivity. }
  split; [reflexivity|].
  destruct (execute_exp_returns_trained_network sample_repr sample_mul sample_param_str
              sample_args true false 0 fresh_world _ tt Hrun) as (Het & _ & Hfile & _).
  split; [exact Hfile|exact Het].
Defined.

(** X3 on [completed_world]: the run returns [None] because the results
    file was there and [force] is not set. *)
Lemma execute_exp_returns_None_at_check_witness :
  (execute_exp sample_repr sample_mul sample_param_str sample_args true
     false 0 completed_world).2 = Return None /\
  stops_at_check sample_repr (w_args completed_world) (w_fs completed_world).
Proof.
  assert (Hrun : execute_exp sample_repr sample_mul sample_param_str sample_args true
                   false 0 completed_world =
                 ((execute_exp sample_repr sample_mul sample_param_str sample_args true
                     false 0 completed_world).1, Return None)).
  { vm_compute. reflexivity. }
  split; [reflexivity|].
  destruct (execute_exp_returns_None_at_check sample_repr sample_mul sample_param_str
              sample_args true false 0 completed_world _ Hrun) as (Hstop & _).
  exact Hstop.
Defined.


(** X5 on [nogo_world], where [force] is set as well: the run returns
    [None]. *)
Lemma execute_exp_nogo_witness :
  ready (w_args nogo_world) /\
  w_args nogo_world !! "nogo" = Some (VBool true) /\
  w_args nogo_world !! "force" = Some (VBool true) /\
  (execute_exp sample_repr sample_mul sample_param_str sample_args true
     false 0 nogo_world).2 = Return None.
Proof.
  split; [exact nogo_world_ready|]. split; [reflexivity|]. split; [reflexivity|].
  destruct (execute_exp_nogo sample_repr sample_mul sample_param_str sample_args true
              false 0 nogo_world (VBool true) nogo_world_ready eq_refl eq_refl)
    as (Hres & _).
  exact Hres.
Defined.


(** X8 on [sample_world] and [one_cpu_world], which differ in
    [cpus_per_task]: the same outcome. *)
Lemma augment_args_reads_three_attributes_witness :
  w_args sample_world <> w_args one_cpu_world /\
  (augment_args sample_repr sample_param_str sample_world).2 =
  (augment_args sample_repr sample_param_str one_cpu_world).2.
Proof.
  split.
  - intros H. apply (f_equal (fun a => a !! "cpus_per_task")) in H. discriminate H.
  - destruct (augment_args_reads_three_attributes sample_repr sample_param_str
                sample_world one_cpu_world eq_refl eq_refl eq_refl) as (Hout & _).
    exact Hout.
Defined.

(** X9 on [sample_world] with two GPUs: the batch size 64 becomes 128 and
    the rotation is that of job index 3. *)
Lemma execute_exp_scales_batch_witness :
  ready (w_args sample_world) /\
  w_args sample_world !! "batch" = Some (VInt 64) /\
  w_args (execute_exp sample_repr sample_mul sample_param_str sample_args true
            false 2 sample_world).1 =
    <["batch" := VInt 128]> (<["rotation" := VInt 3]> sample_args).
Proof.
  split; [exact sample_args_ready|]. split; [reflexivity|].
  exact (execute_exp_scales_batch sample_repr sample_mul sample_param_str sample_args true
           false 2 sample_world 64 sample_args_ready eq_refl).
Defined.

(** X11 on [fresh_world]: after the run of job index 3 alone the check
    reports no missing run. *)
Lemma check_completeness_after_one_run_witness :
  w_args fresh_world !! "exp_index" = Some (VInt 3) /\
  w_trace
    (check_completeness sample_repr sample_param_str
       (execute_exp sample_repr sample_mul sample_param_str sample_args true
          false 0 fresh_world).1).1 =
  w_trace (execute_exp sample_repr sample_mul sample_param_str sample_args true
             false 0 fresh_world).1 ++
  [Print "Total jobs: 5"; Print "MISSING RUNS:"; Print "Missing indices (0): "].
Proof.
  split; [reflexivity|].
  assert (Hrun : execute_exp sample_repr sample_mul sample_param_str sample_args true
                   false 0 fresh_world =
                 ((execute_exp sample_repr sample_mul sample_param_str sample_args true
                     false 0 fresh_world).1, Return (Some tt))).
  { vm_compute. reflexivity. }
  rewrite (check_completeness_after_one_run sample_repr sample_mul sample_param_str
             sample_args true false 0 fresh_world _ tt Hrun).
  reflexivity.
Defined.

(** X12 on [one_cpu_machine]: [cpus_per_task] equal to 1 ends the main
    program before anything is done. *)
Lemma main_stops_at_rejected_arguments_witness :
  main sample_repr sample_mul sample_param_str sample_args true ∅ one_cpu_machine =
  (one_cpu_machine, Raise (AssertionError "cpus_per_task must be positive or None")).
Proof.
  apply (main_stops_at_rejected_arguments sample_repr sample_mul sample_param_str
           sample_args true ∅ one_cpu_machine).
  reflexivity.
Defined.

(** X13 on [gpu_machine] with [CUDA_VISIBLE_DEVICES] in the environment:
    both GPUs stay visible with memory growth on, and both thread pools get
    eight threads. *)
Lemma main_configures_runtime_witness :
  m_tf (main sample_repr sample_mul sample_param_str sample_args true
          {["CUDA_VISIBLE_DEVICES"]} gpu_machine).1 =
  TfConfig ["/physical_device:GPU:0"; "/physical_device:GPU:1"]
           ["/physical_device:GPU:0"; "/physical_device:GPU:1"]
           (Some (VInt 8)) (Some (VInt 8)).
Proof.
  exact (main_configures_runtime sample_repr sample_mul sample_param_str sample_args true
           {["CUDA_VISIBLE_DEVICES"]} gpu_machine 0 (VBool true) (VBool false) (VInt 8)
           gpu_machine_rational eq_refl eq_refl eq_refl eq_refl).
Defined.

(** X14 on the sample machine in check mode: the disk stays empty. *)
Lemma main_check_mode_only_reports_witness :
  w_args (m_world (sample_machine true)) !! "check" = Some (VBool true) /\
  w_fs (m_world (main sample_repr sample_mul sample_param_str sample_args true
                   ∅ (sample_machine true)).1) = ∅.
Proof.
  split; [reflexivity|].
  destruct (main_check_mode_only_reports sample_repr sample_mul sample_param_str
              sample_args true ∅ (sample_machine true) 0 (VBool false) (VBool true)
              (VInt 8) (training_args_rational true) eq_refl eq_refl eq_refl eq_refl
              eq_refl) as (Hfs & _).
  exact Hfs.
Defined.


(** X16 on [gpu_machine] with [CUDA_VISIBLE_DEVICES] in the environment:
    two visible GPUs, and the batch size 64 becomes 128. *)
Lemma main_scales_batch_witness :
  w_args (m_world gpu_machine) !! "batch" = Some (VInt 64) /\
  w_args (m_world (main sample_repr sample_mul sample_param_str sample_args true
                     {["CUDA_VISIBLE_DEVICES"]} gpu_machine).1) !! "batch" =
    Some (VInt 128).
Proof.
  split; [reflexivity|].
  exact (main_scales_batch sample_repr sample_mul sample_param_str sample_args true
           {["CUDA_VISIBLE_DEVICES"]} gpu_machine (VBool true) (VBool false) 64
           gpu_machine_rational (trainable_ready _ gpu_machine_trainable)
           eq_refl eq_refl eq_refl eq_refl).
Defined.

(** X17 on [cnn_world]: no network for the type ['cnn']. *)
Lemma create_classifier_network_by_type_witness :
  w_args cnn_world !! "exp_type" = Some (VStr "cnn") /\
  create_classifier_network sample_repr cnn_world = (cnn_world, Return None).
Proof.
  split; [reflexivity|].
  destruct (create_classifier_network_by_type sample_repr cnn_world (VStr "cnn") eq_refl)
    as (_ & _ & _ & Hcnn & _).
  exact (Hcnn eq_refl).
Defined.
